(** * web-report-slides2pdf: the acquisition and trimming pipeline

    A shallow embedding of [downloader.py] and of [video_to_pdf_gui.py]
    without the layout of its widgets: time parsing, trimming with ffmpeg,
    the worker body of [App._on_run], the run guard and the two crop
    toggles, the log stream with its queue and its poll, the browse
    buttons, and the DPI set-up at start.

    Conventions.
    - A Python [str] is a Rocq [string]; each character stands for the code
      point of the same number (0..255).  Literals of the source that leave
      this range are kept as their UTF-8 bytes; they are only ever
      concatenated and shown.
    - A Python [float] is a primitive binary64 [PrimFloat.float]; a Python
      [int] is a [Z].
    - Calls that leave the program (shutil.which, subprocess.run, cv2,
      yt-dlp, pathlib, the frame extractor) are fields of a record of
      collaborators; every effect is recorded in a trace. *)

From Stdlib Require Import ZArith NArith Ascii List Lia.
From Stdlib Require Floats.
From stdpp Require Import base option list functions gmap strings.
Import ListNotations.

Local Open Scope Z_scope.

(** ** Exceptions and results *)

Inductive exn_class :=
| ValueError | RuntimeError | OverflowError | KeyError | IndexError
| TypeError | AttributeError | OtherError.

(** Every class above derives from Python's [Exception]; [exn_msg] is what
    [str(e)] yields. *)
Record exn := Exn { exn_cls : exn_class; exn_msg : string }.

Inductive result (A : Type) :=
| Ok (a : A)
| Raise (e : exn).
Arguments Ok {A} a.
Arguments Raise {A} e.

Definition is_ok {A} (r : result A) : bool :=
  match r with Ok _ => true | Raise _ => false end.

(** Sequencing, for pure code that may raise and for effectful code. *)
Class Monad (m : Type -> Type) := {
  ret : forall {A}, A -> m A;
  bind : forall {A B}, m A -> (A -> m B) -> m B
}.

Notation "x <- c1 ;; c2" := (bind c1 (fun x => c2))
  (at level 100, c1 at next level, right associativity).

Global Instance Monad_result : Monad result := {|
  ret := fun A a => Ok a;
  bind := fun A B m f => match m with Ok a => f a | Raise e => Raise e end
|}.

Abbreviation float := PrimFloat.float.

(** ** The runtime's text and number builtins *)

Module Py.

Definition code (c : ascii) : Z := Z.of_N (N_of_ascii c).

Definition between (lo hi : Z) (c : ascii) : bool :=
  (lo <=? code c) && (code c <=? hi).

(** [str.isspace] per character, which [str.strip()] uses. *)
Definition isspace (c : ascii) : bool :=
  between 9 13 c || between 28 32 c || (code c =? 133) || (code c =? 160).

(** The digits of [str.isdigit]: 0-9 and the superscripts 2, 3, 1. *)
Definition isdigit_char (c : ascii) : bool :=
  between 48 57 c || (code c =? 178) || (code c =? 179) || (code c =? 185).

(** The decimal digits [int()] and [float()] read. *)
Definition isdecimal_char (c : ascii) : bool := between 48 57 c.

Definition digit_val (c : ascii) : Z := code c - 48.

Fixpoint lstrip_with (sp : ascii -> bool) (s : string) : string :=
  match s with
  | EmptyString => EmptyString
  | String c s' => if sp c then lstrip_with sp s' else s
  end.

Fixpoint rstrip_with (sp : ascii -> bool) (s : string) : string :=
  match s with
  | EmptyString => EmptyString
  | String c s' =>
      match rstrip_with sp s' with
      | EmptyString => if sp c then EmptyString else String c EmptyString
      | r => String c r
      end
  end.

(** [s.strip()] *)
Definition strip (s : string) : string :=
  rstrip_with isspace (lstrip_with isspace s).

Definition lower_char (c : ascii) : ascii :=
  if between 65 90 c || (between 192 222 c && negb (code c =? 215))
  then ascii_of_N (N_of_ascii c + 32)
  else c.

Fixpoint map_string (f : ascii -> ascii) (s : string) : string :=
  match s with
  | EmptyString => EmptyString
  | String c s' => String (f c) (map_string f s')
  end.

(** [s.lower()] *)
Definition lower (s : string) : string := map_string lower_char s.

(** [s.startswith(p)] *)
Definition startswith (s p : string) : bool := String.prefix p s.

(** [s.endswith(p)] *)
Definition endswith (s p : string) : bool :=
  let n := String.length s in
  let m := String.length p in
  (m <=? n)%nat && String.eqb (String.substring (n - m) m s) p.

(** [s[:-1]] *)
Definition drop_last (s : string) : string :=
  String.substring 0 (String.length s - 1) s.

Fixpoint forallb_string (f : ascii -> bool) (s : string) : bool :=
  match s with
  | EmptyString => true
  | String c s' => f c && forallb_string f s'
  end.

(** [s.isdigit()] *)
Definition isdigit (s : string) : bool :=
  negb (String.eqb s EmptyString) && forallb_string isdigit_char s.

(** [s.split(sep)] for a one-character separator. *)
Fixpoint split (sep : ascii) (s : string) : list string :=
  match s with
  | EmptyString => [EmptyString]
  | String c s' =>
      if Ascii.eqb c sep then EmptyString :: split sep s'
      else match split sep s' with
           | p :: ps => String c p :: ps
           | [] => [String c EmptyString]
           end
  end.

(** *** Reading numbers from text *)

(** [int()] and [float()] first turn the two non-ASCII spaces into a blank,
    then skip blanks of the C locale at both ends. *)
Definition to_ascii_space (c : ascii) : ascii :=
  if (code c =? 133) || (code c =? 160) then " "%char else c.

Definition isspace_c (c : ascii) : bool :=
  between 9 13 c || (code c =? 32).

(** An underscore is dropped when it stands between two digits and refuses
    the text otherwise; [prev] is the character before. *)
Fixpoint drop_underscores (prev : ascii) (s : string) : option string :=
  match s with
  | EmptyString =>
      if Ascii.eqb prev "_"%char then None else Some EmptyString
  | String c s' =>
      if Ascii.eqb c "_"%char then
        if isdecimal_char prev then drop_underscores c s' else None
      else if Ascii.eqb prev "_"%char && negb (isdecimal_char c) then None
      else match drop_underscores c s' with
           | Some r => Some (String c r)
           | None => None
           end
  end.

(** The longest run of decimal digits at the head: their number, their
    value after [acc], and the rest. *)
Fixpoint read_digits (s : string) (n : nat) (acc : Z) : nat * Z * string :=
  match s with
  | String c s' =>
      if isdecimal_char c then read_digits s' (S n) (10 * acc + digit_val c)
      else (n, acc, s)
  | EmptyString => (n, acc, s)
  end.

(** An optional sign: [true] for minus. *)
Definition read_sign (s : string) : bool * string :=
  match s with
  | String "-" s' => (true, s')
  | String "+" s' => (false, s')
  | _ => (false, s)
  end.

(** Texts of more decimal digits than this are refused by [int()]. *)
Definition int_max_str_digits : nat := 4300.

(** [int(s)] for a text [s]: [None] stands for the ValueError. *)
Definition int_of_str (s : string) : option Z :=
  let s := map_string to_ascii_space s in
  let s := lstrip_with isspace_c s in
  let '(neg, s) := read_sign s in
  match s with
  | String c _ =>
      if isdecimal_char c then
        match drop_underscores "0"%char (rstrip_with isspace_c s) with
        | Some d =>
            let '(n, v, rest) := read_digits d 0 0 in
            if String.eqb rest EmptyString && (n <=? int_max_str_digits)%nat
            then Some (if neg then - v else v)
            else None
        | None => None
        end
      else None
  | EmptyString => None
  end.

(** *** Floating point *)

(** The binary64 nearest to [p / q], ties to even, for positive [p] and [q]. *)
Definition round_ratio (neg : bool) (p q : Z) : SpecFloat.spec_float :=
  let '(m, e, l) :=
    SpecFloat.SFdiv_core_binary FloatOps.prec FloatOps.emax p 0 q 0 in
  SpecFloat.binary_round_aux FloatOps.prec FloatOps.emax neg m e l.

(** The binary64 nearest to [m * 10 ^ e] for [m >= 0].  The two early exits
    only spare the power of ten when the result is known: with
    [2 ^ b <= m], [b + 3 * e >= 1024] puts the value at or above [2 ^ 1024],
    and [b + 1 + 3 * e <= -1075] puts it at or below [2 ^ -1075]. *)
Definition of_decimal (neg : bool) (m e : Z) : float :=
  if m =? 0 then FloatOps.SF2Prim (SpecFloat.S754_zero neg)
  else
    let b := Z.log2 m in
    if (0 <=? e) && (1024 <=? b + 3 * e)
    then FloatOps.SF2Prim (SpecFloat.S754_infinity neg)
    else if (e <? 0) && (b + 1 + 3 * e <=? -1075)
    then FloatOps.SF2Prim (SpecFloat.S754_zero neg)
    else if 0 <=? e
    then FloatOps.SF2Prim (round_ratio neg (m * 10 ^ e) 1)
    else FloatOps.SF2Prim (round_ratio neg m (10 ^ (- e))).

(** ASCII lower case, as the C runtime's tolower. *)
Definition tolower_c (c : ascii) : ascii :=
  if between 65 90 c then ascii_of_N (N_of_ascii c + 32) else c.

(** [Some rest] when [s] starts with [t] up to ASCII case. *)
Fixpoint match_nocase (t s : string) : option string :=
  match t, s with
  | EmptyString, _ => Some s
  | String a t', String c s' =>
      if Ascii.eqb (tolower_c c) a then match_nocase t' s' else None
  | String _ _, EmptyString => None
  end.

(** "inf", "infinity" or "nan" after the sign, up to case. *)
Definition parse_inf_or_nan (neg : bool) (s : string) : option (float * string) :=
  match match_nocase "inf" s with
  | Some r =>
      let r' := match match_nocase "inity" r with Some r2 => r2 | None => r end in
      Some (FloatOps.SF2Prim (SpecFloat.S754_infinity neg), r')
  | None =>
      match match_nocase "nan" s with
      | Some r => Some (PrimFloat.nan, r)
      | None => None
      end
  end.

(** The exponent part: [e], an optional sign, at least one digit; a
    malformed one is left unread. *)
Definition read_exponent (s : string) : Z * string :=
  match s with
  | String c s1 =>
      if Ascii.eqb (tolower_c c) "e"%char then
        let '(eneg, s2) := read_sign s1 in
        let '(n, v, s3) := read_digits s2 0 0 in
        match n with
        | O => (0, s)
        | _ => (if eneg then - v else v, s3)
        end
      else (0, s)
  | EmptyString => (0, s)
  end.

(** A decimal numeral after the sign: digits, an optional point and more
    digits (one digit at least), an optional exponent. *)
Definition parse_decimal (neg : bool) (s : string) : option (float * string) :=
  let '(n1, v1, s1) := read_digits s 0 0 in
  let '(n2, v2, s2) :=
    match s1 with
    | String "." s1' => read_digits s1' 0 v1
    | _ => (O, v1, s1)
    end in
  match (n1 + n2)%nat with
  | O => None
  | _ =>
      let '(e, s3) := read_exponent s2 in
      Some (of_decimal neg v2 (e - Z.of_nat n2), s3)
  end.

(** [float(s)] for a text [s]: [None] stands for the ValueError. *)
Definition float_of_str (s : string) : option float :=
  let s := map_string to_ascii_space s in
  match drop_underscores "000"%char s with
  | None => None
  | Some s =>
      let s := rstrip_with isspace_c (lstrip_with isspace_c s) in
      let '(neg, body) := read_sign s in
      match parse_decimal neg body with
      | Some (x, EmptyString) => Some x
      | Some (_, String _ _) => None
      | None =>
          match parse_inf_or_nan neg body with
          | Some (x, EmptyString) => Some x
          | _ => None
          end
      end
  end.

(** [float(n)] for an int [n], as the mixed arithmetic [n + x] converts it:
    [None] stands for the OverflowError. *)
Definition float_of_int (n : Z) : option float :=
  match SpecFloat.binary_normalize FloatOps.prec FloatOps.emax n 0 false with
  | SpecFloat.S754_infinity _ => None
  | f => Some (FloatOps.SF2Prim f)
  end.

(** [a / b] for ints [a] and [b > 0]: the nearest float; [None] stands for
    the OverflowError. *)
Definition truediv (a b : Z) : option float :=
  if a =? 0 then Some (FloatOps.SF2Prim (SpecFloat.S754_zero false))
  else
    match round_ratio (a <? 0) (Z.abs a) b with
    | SpecFloat.S754_infinity _ => None
    | f => Some (FloatOps.SF2Prim f)
    end.

(** [int(x)] for a float [x]: the integer part; not-a-number raises
    ValueError and an infinity OverflowError. *)
Definition int_of_float (x : float) : result Z :=
  match FloatOps.Prim2SF x with
  | SpecFloat.S754_zero _ => Ok 0
  | SpecFloat.S754_finite s m e =>
      let a := if 0 <=? e then Z.pos m * 2 ^ e else Z.pos m / 2 ^ (- e) in
      Ok (if s then - a else a)
  | SpecFloat.S754_infinity _ =>
      Raise (Exn OverflowError "cannot convert float infinity to integer")
  | SpecFloat.S754_nan =>
      Raise (Exn ValueError "cannot convert float NaN to integer")
  end.

(** Truth value of a float: false for the two zeros only. *)
Definition float_truthy (x : float) : bool := negb (PrimFloat.is_zero x).

(** *** Writing numbers as text *)

Definition digit_char (d : Z) : ascii := ascii_of_N (Z.to_N (48 + d)).

(** The decimal digits of [n >= 0], most significant first, after [acc];
    [fuel] bounds the number of digits. *)
Fixpoint digits_of (fuel : nat) (n : Z) (acc : string) : string :=
  match fuel with
  | O => acc
  | S fuel' =>
      let acc' := String (digit_char (n mod 10)) acc in
      if n <? 10 then acc' else digits_of fuel' (n / 10) acc'
  end.

Definition nat_digits (n : Z) : string :=
  digits_of (S (Z.to_nat (Z.log2 n))) n EmptyString.

(** [str(n)] for an int [n]. *)
Definition str_of_int (n : Z) : string :=
  if n <? 0 then String "-" (nat_digits (- n)) else nat_digits n.

Fixpoint zeros_before (n : nat) (s : string) : string :=
  match n with
  | O => s
  | S n' => zeros_before n' (String "0" s)
  end.

(** [s] padded with zeros on the left to [width] characters. *)
Definition zero_pad (width : nat) (s : string) : string :=
  zeros_before (width - String.length s) s.

(** The integer nearest to [p / q], ties to even, for [p >= 0] and [q > 0]. *)
Definition div_half_even (p q : Z) : Z :=
  let d := p / q in
  let r := p mod q in
  match 2 * r ?= q with
  | Lt => d
  | Gt => d + 1
  | Eq => if Z.even d then d else d + 1
  end.

(** [format(x, '.<k>f')]: the exact value of [x] rounded to [k] decimals. *)
Definition format_f (k : nat) (x : float) : string :=
  match FloatOps.Prim2SF x with
  | SpecFloat.S754_nan => "nan"
  | SpecFloat.S754_infinity s => if s then "-inf" else "inf"
  | sf =>
      let '(s, m, e) :=
        match sf with
        | SpecFloat.S754_finite s m e => (s, Z.pos m, e)
        | SpecFloat.S754_zero s => (s, 0, 0)
        | _ => (false, 0, 0)
        end in
      let scale := 10 ^ Z.of_nat k in
      let n := if 0 <=? e then m * 2 ^ e * scale
               else div_half_even (m * scale) (2 ^ (- e)) in
      let body :=
        match k with
        | O => nat_digits n
        | _ => nat_digits (n / scale) +:+ "." +:+
               zero_pad k (nat_digits (n mod scale))
        end in
      if s then String "-" body else body
  end.

End Py.

(** ** Values of the download engine's metadata *)

Local Set Warnings "-register-all".

(** What yt-dlp's [extract_info] hands back: JSON-like data. *)
Inductive pyval :=
| PNone
| PBool (b : bool)
| PInt (n : Z)
| PFloat (x : float)
| PStr (s : string)
| PList (l : list pyval)
| PDict (d : gmap string pyval).

(** [bool(v)] *)
Definition truthy (v : pyval) : bool :=
  match v with
  | PNone => false
  | PBool b => b
  | PInt n => negb (n =? 0)
  | PFloat x => Py.float_truthy x
  | PStr s => negb (String.eqb s EmptyString)
  | PList l => match l with [] => false | _ => true end
  | PDict d => negb (bool_decide (size d = 0%nat))
  end.

(** [isinstance(v, dict)] *)
Definition is_dict (v : pyval) : bool :=
  match v with PDict _ => true | _ => false end.

(** [d.get(k)] on a dict: [None] of Python is [PNone]. *)
Definition dict_get (d : gmap string pyval) (k : string) : pyval :=
  default PNone (d !! k).

(** [v[0]] *)
Definition getitem0 (v : pyval) : result pyval :=
  match v with
  | PList (x :: _) => Ok x
  | PList [] => Raise (Exn IndexError "list index out of range")
  | PStr (String c _) => Ok (PStr (String c EmptyString))
  | PStr EmptyString => Raise (Exn IndexError "string index out of range")
  | PDict _ => Raise (Exn KeyError "0")
  | _ => Raise (Exn TypeError "object is not subscriptable")
  end.

(** [v[k]] for a text key [k].  The message of the KeyError is the key
    itself, without the quotes [str] shows it in. *)
Definition getitem_key (v : pyval) (k : string) : result pyval :=
  match v with
  | PDict d =>
      match d !! k with
      | Some x => Ok x
      | None => Raise (Exn KeyError k)
      end
  | PList _ | PStr _ => Raise (Exn TypeError "indices must be integers")
  | _ => Raise (Exn TypeError "object is not subscriptable")
  end.

(** A path is kept as the text it was made from, without the tidying
    pathlib applies to it (repeated separators, a trailing one);
    [Path(v)] accepts a text only, and the message of its TypeError ends
    before the name of the type. *)
Definition Path (v : pyval) : result string :=
  match v with
  | PStr s => Ok s
  | _ => Raise (Exn TypeError "expected str, bytes or os.PathLike object")
  end.

(** ** The world: files and the record of effects *)

(** What [stat] tells of a path that exists. *)
Record fnode := Node { is_dir : bool; st_size : N }.

(** The options handed to the download engine, [None] entries left out. *)
Record ydl_opts := {
  outtmpl : string;
  format : string;
  merge_output_format : string;
  concurrent_fragment_downloads : Z;
  noplaylist : bool;
  ignoreerrors : bool;
  retries : Z;
  fragment_retries : Z;
  continuedl : bool;
  nopart : bool;
  ffmpeg_location_opt : option string;
  proxy_opt : option string;
  cookiefile : option string;
  writesubtitles : bool;
  embedsubtitles : bool;
  subtitleslangs : list string
}.

(** The keyword arguments of [extract_frames_to_pdf]. *)
Record extract_args := {
  video_path : string;
  output_pdf : string;
  output_dir : string;
  sample_seconds : float;
  threshold : Z;
  crop_region : option (Z * Z * Z * Z);
  scale_width : option Z;
  a4 : bool;
  max_pages : option Z;
  auto_trim : bool;
  auto_trim_ratio : float;
  auto_trim_pad : Z;
  auto_trim_sides : string;
  auto_crop : bool;
  auto_crop_pad : Z;
  auto_crop_min_area_ratio : float
}.

Inductive event :=
| EvMkdir (p : string)
| EvDownload (url : string) (opts : ydl_opts)
| EvSubprocess (args : list string)
| EvPrint (line : string)
| EvLog (chunk : string)
| EvCapture (p : string)
| EvSelectROI
| EvExtract (a : extract_args)
| EvShowInfo (title msg : string)
| EvShowWarning (title msg : string)
| EvShowError (title msg : string)
| EvLogClear
| EvRunButton (enabled : bool)
| EvThreadStart (tid : nat).

Record world := World {
  fs : gmap string fnode;
  trace : list event
}.

(** Effectful code: a result and the world after, also when it raises. *)
Definition M (A : Type) : Type := world -> result A * world.

Global Instance Monad_M : Monad M := {|
  ret := fun A a w => (Ok a, w);
  bind := fun A B m f w =>
    match m w with
    | (Ok a, w') => f a w'
    | (Raise e, w') => (Raise e, w')
    end
|}.

Definition raise {A} (e : exn) : M A := fun w => (Raise e, w).

Definition lift {A} (r : result A) : M A := fun w => (r, w).

(** [try: body except Exception as e: handler(e)] *)
Definition try_except {A} (body : M A) (handler : exn -> M A) : M A :=
  fun w =>
    match body w with
    | (Ok a, w') => (Ok a, w')
    | (Raise e, w') => handler e w'
    end.

Definition emit (e : event) : M unit :=
  fun w => (Ok tt, World (fs w) (trace w ++ [e])).

Definition get_fs : M (gmap string fnode) := fun w => (Ok (fs w), w).

Definition put_fs (f : gmap string fnode) : M unit :=
  fun w => (Ok tt, World f (trace w)).

(** [p.exists()] *)
Definition path_exists (p : string) : M bool :=
  f <- get_fs ;; ret (bool_decide (is_Some (f !! p))).

(** [p.stat().st_size] *)
Definition path_size (p : string) : M N :=
  f <- get_fs ;;
  match f !! p with
  | Some nd => ret (st_size nd)
  | None => raise (Exn OtherError "No such file or directory")
  end.

(** [p.mkdir(parents=True, exist_ok=True)] *)
Definition path_mkdir (p : string) : M unit :=
  _ <- emit (EvMkdir p) ;;
  f <- get_fs ;;
  match f !! p with
  | Some nd => if is_dir nd then ret tt else raise (Exn OtherError "File exists")
  | None => put_fs (<[p := Node true 0]> f)
  end.

(** ** Collaborators *)

Inductive cap_prop := CAP_PROP_FRAME_WIDTH | CAP_PROP_FRAME_HEIGHT.

(** A decoded frame: its [shape[:2]]. *)
Record frame := Frame { frame_rows : Z; frame_cols : Z }.

(** A [cv2.VideoCapture] object: what each call on it yields. *)
Record capture := {
  cap_isOpened : result bool;
  cap_get : cap_prop -> result float;
  cap_read : result (bool * option frame);
  cap_release : result unit
}.

Record collaborators := {
  (** [shutil.which] *)
  which : string -> option string;
  (** [subprocess.run] for a process that could be started: the return
      code and the files after *)
  subprocess_run : list string -> gmap string fnode -> Z * gmap string fnode;
  (** [YoutubeDL(opts).extract_info(url, download=True)]: the metadata,
      the progress dictionaries the hooks are called with on the way, and
      the files after *)
  extract_info :
    ydl_opts -> string -> gmap string fnode ->
    result pyval * list pyval * gmap string fnode;
  (** [ydl.prepare_filename] *)
  prepare_filename : pyval -> result string;
  (** [cv2.VideoCapture], [cv2.selectROI], [cv2.destroyWindow] *)
  VideoCapture : string -> gmap string fnode -> result capture;
  selectROI : frame -> result (Z * Z * Z * Z);
  destroyWindow : result unit;
  (** [video_to_pdf_phash.parse_crop] and [extract_frames_to_pdf] *)
  parse_crop : option string -> result (option (Z * Z * Z * Z));
  extract_frames_to_pdf :
    extract_args -> gmap string fnode -> result unit * gmap string fnode;
  (** [pathlib] and [os.path] on path texts, [tempfile.gettempdir] *)
  path_parent : string -> string;
  path_stem : string -> string;
  path_join : string -> string -> string;
  path_with_suffix : string -> string -> string;
  gettempdir : string;
  (** [str(x)] for a float *)
  float_repr : float -> string
}.

(** ** downloader.py *)

(** [bool(n)] for an int. *)
Definition int_truthy (n : Z) : bool := negb (n =? 0).

(** Lines 26-31: the height bound read off the quality tier. *)
Definition max_height_of (quality : string) : option Z :=
  if negb (String.eqb quality EmptyString)
     && Py.endswith quality "p"
     && Py.isdigit (Py.drop_last quality)
  then Py.int_of_str (Py.drop_last quality)
  else None.

Definition unbounded_format : string := "bv*+ba/b".

Definition bounded_format (h : Z) : string :=
  "bv*[height<=?" +:+ Py.str_of_int h +:+ "]+ba/b[height<=?"
  +:+ Py.str_of_int h +:+ "]".

(** Lines 32-35. *)
Definition format_selector (quality : string) : string :=
  match max_height_of quality with
  | Some h => if int_truthy h then bounded_format h else unbounded_format
  | None => unbounded_format
  end.

(** The spec's DownloadError for missing metadata. *)
Definition no_metadata : exn :=
  Exn RuntimeError "Download did not return information for the file path".

(** [v["requested_downloads"][0]["filepath"]] as a path (lines 69, 73). *)
Definition requested_filepath (v : pyval) : result string :=
  rd <- getitem_key v "requested_downloads" ;;
  rd0 <- getitem0 rd ;;
  fp <- getitem_key rd0 "filepath" ;;
  Path fp.

(** [isinstance(v, dict) and v.get("requested_downloads")], as a truth
    value. *)
Definition has_requested_downloads (v : pyval) : bool :=
  match v with
  | PDict e => truthy (dict_get e "requested_downloads")
  | _ => false
  end.

(** Lines 64-75: the local path read off the metadata; [prepare] is
    [ydl.prepare_filename]. *)
Definition resolve_path (prepare : pyval -> result string) (info : pyval)
  : result string :=
  match info with
  | PDict d =>
      if bool_decide (is_Some (d !! "entries")) && truthy (dict_get d "entries")
      then
        entries <- getitem_key info "entries" ;;
        entry <- getitem0 entries ;;
        if has_requested_downloads entry then requested_filepath entry
        else prepare entry
      else if truthy (dict_get d "requested_downloads")
      then requested_filepath info
      else prepare info
  | _ => Raise no_metadata
  end.

(** [for x in l: f(x)] *)
Fixpoint for_each {A} (f : A -> M unit) (l : list A) : M unit :=
  match l with
  | [] => ret tt
  | x :: l' => _ <- f x ;; for_each f l'
  end.

(** The engine at work: it calls the progress hook with each of its
    progress dictionaries, then hands back the metadata. *)
Definition ydl_extract_info (C : collaborators) (opts : ydl_opts) (url : string)
    (hook : pyval -> M unit) : M pyval :=
  _ <- emit (EvDownload url opts) ;;
  f <- get_fs ;;
  let '(r, ticks, f') := extract_info C opts url f in
  _ <- for_each hook ticks ;;
  _ <- put_fs f' ;;
  lift r.

(** Lines 37-39. *)
Definition _hook (on_progress : option (pyval -> M unit)) (d : pyval) : M unit :=
  match on_progress with
  | Some f => f d
  | None => ret tt
  end.

Definition download_video (C : collaborators) (url output_dir : string)
    (cookies : option string) (quality : string) (proxy : option string)
    (playlist subtitles : bool) (ffmpeg_location : option string)
    (on_progress : option (pyval -> M unit)) : M string :=
  _ <- path_mkdir output_dir ;;
  let fmt := format_selector quality in
  let opts := {|
    outtmpl := path_join C output_dir "%(title).200s [%(id)s].%(ext)s";
    format := fmt;
    merge_output_format := "mp4";
    concurrent_fragment_downloads := 4;
    noplaylist := negb playlist;
    ignoreerrors := false;
    retries := 10;
    fragment_retries := 10;
    continuedl := true;
    nopart := false;
    ffmpeg_location_opt := ffmpeg_location;
    proxy_opt := proxy;
    cookiefile := cookies;
    writesubtitles := subtitles;
    embedsubtitles := subtitles;
    subtitleslangs := if subtitles then ["zh-Hans"; "zh"; "en"] else []
  |} in
  info <- ydl_extract_info C opts url (_hook on_progress) ;;
  lift (resolve_path (prepare_filename C) info).

(** ** video_to_pdf_gui.py: the application object *)

(** The [tk.StringVar]s and [tk.BooleanVar]s made by [_build_ui]. *)
Inductive string_var :=
| input_var | output_var | outdir_var | dldir_var
| start_time_var | end_time_var
| sample_var | threshold_var | crop_var | scale_width_var | max_pages_var
| auto_trim_ratio_var | auto_trim_pad_var | auto_trim_sides_var
| auto_crop_pad_var | auto_crop_min_area_var.

Inductive boolean_var :=
| a4_var | auto_trim_var | auto_crop_var | manual_select_var.

Global Instance string_var_eq_dec : EqDecision string_var.
Proof. solve_decision. Defined.

Global Instance boolean_var_eq_dec : EqDecision boolean_var.
Proof. solve_decision. Defined.

(** [self]: the variables and the reference to the last worker thread. *)
Record App := {
  strings : string_var -> string;
  booleans : boolean_var -> bool;
  _worker : option nat
}.

(** [var.set(v)] *)
Definition set_string (v : string_var) (x : string) (self : App) : App :=
  {| strings := <[v := x]> (strings self);
     booleans := booleans self;
     _worker := _worker self |}.

Definition set_boolean (v : boolean_var) (x : bool) (self : App) : App :=
  {| strings := strings self;
     booleans := <[v := x]> (booleans self);
     _worker := _worker self |}.

Definition set_worker (t : option nat) (self : App) : App :=
  {| strings := strings self; booleans := booleans self; _worker := t |}.

(** The state [__init__] and [_build_ui] leave. *)
Definition initial_app : App := {|
  strings := fun v =>
    match v with
    | sample_var => "0.5"
    | threshold_var => "10"
    | auto_trim_ratio_var => "0.98"
    | auto_trim_pad_var => "6"
    | auto_trim_sides_var => "tb"
    | auto_crop_pad_var => "6"
    | auto_crop_min_area_var => "0.05"
    | _ => ""
    end;
  booleans := fun v =>
    match v with
    | a4_var => false
    | auto_trim_var => true
    | auto_crop_var => true
    | manual_select_var => false
    end;
  _worker := None
|}.

(** *** Time texts *)

Definition time_format_hint : string :=
  "时间格式应为 秒 或 mm:ss 或 hh:mm:ss，可带小数".

(** The spec's TimeFormatError. *)
Definition TimeFormatError : exn := Exn ValueError time_format_hint.

(** [float(s)] and [int(s)] with their exception; the message is the
    runtime's without the quoting of the text. *)
Definition py_float (s : string) : result float :=
  match Py.float_of_str s with
  | Some x => Ok x
  | None => Raise (Exn ValueError ("could not convert string to float: " +:+ s))
  end.

Definition py_int (s : string) : result Z :=
  match Py.int_of_str s with
  | Some n => Ok n
  | None =>
      Raise (Exn ValueError ("invalid literal for int() with base 10: " +:+ s))
  end.

(** [n + x] for an int [n] and a float [x]. *)
Definition int_add_float (n : Z) (x : float) : result float :=
  match Py.float_of_int n with
  | Some f => Ok (PrimFloat.add f x)
  | None => Raise (Exn OverflowError "int too large to convert to float")
  end.

(** Lines 81-93: the body of the [try]. *)
Definition parse_time_parts (parts : list string) : result float :=
  match parts with
  | [p0] => py_float p0
  | [p0; p1] =>
      m <- py_int p0 ;;
      sec <- py_float p1 ;;
      int_add_float (m * 60) sec
  | [p0; p1; p2] =>
      h <- py_int p0 ;;
      m <- py_int p1 ;;
      sec <- py_float p2 ;;
      int_add_float (h * 3600 + m * 60) sec
  | _ => Raise (Exn ValueError "invalid format")
  end.

Definition _parse_time_to_seconds (text : string) : result (option float) :=
  let s := Py.strip text in
  if String.eqb s EmptyString then Ok None
  else
    match parse_time_parts (Py.split ":" s) with
    | Ok x => Ok (Some x)
    | Raise _ => Raise TimeFormatError
    end.

(** *** Trimming *)

Definition _ffmpeg_path (C : collaborators) : option string :=
  which C "ffmpeg".

(** The spec's ToolMissing and TrimFailed. *)
Definition ToolMissing : exn :=
  Exn RuntimeError "未找到 ffmpeg，请先安装并加入 PATH".

Definition TrimFailed : exn := Exn RuntimeError "ffmpeg 剪切失败".

(** [subprocess.run(args, ...).returncode].  The process is taken to
    start: an OSError of [subprocess.run] itself has no place here. *)
Definition run (C : collaborators) (args : list string) : M Z :=
  fun w =>
    let '(rc, f) := subprocess_run C args (fs w) in
    (Ok rc, World f (trace w ++ [EvSubprocess args])).

(** Line 107-108. *)
Definition trim_duration (start_s end_s : option float) : option float :=
  match start_s, end_s with
  | Some s, Some e => if PrimFloat.ltb s e then Some (PrimFloat.sub e s) else None
  | _, _ => None
  end.

(** Lines 105-113: the arguments both attempts share. *)
Definition trim_args (ffmpeg src : string) (start_s end_s : option float)
  : list string :=
  let args := [ffmpeg; "-y"] in
  let duration := trim_duration start_s end_s in
  let args :=
    match start_s with
    | Some s => args ++ ["-ss"; Py.format_f 3 s]
    | None => args
    end in
  let args := args ++ ["-i"; src] in
  match duration with
  | Some d => args ++ ["-t"; Py.format_f 3 d]
  | None => args
  end.

Definition fast_args (args : list string) (dst : string) : list string :=
  args ++ ["-c"; "copy"; dst].

Definition slow_args (args : list string) (dst : string) : list string :=
  args ++ ["-c:v"; "libx264"; "-preset"; "fast"; "-crf"; "23";
           "-c:a"; "aac"; "-b:a"; "192k"; dst].

(** [res.returncode == 0 and dst.exists() and dst.stat().st_size > 0] *)
Definition attempt_succeeded (rc : Z) (dst : string) : M bool :=
  if rc =? 0 then
    ex <- path_exists dst ;;
    if ex then sz <- path_size dst ;; ret (0 <? sz)%N
    else ret false
  else ret false.

(** [res2.returncode != 0 or not dst.exists() or dst.stat().st_size == 0] *)
Definition attempt_failed (rc : Z) (dst : string) : M bool :=
  if negb (rc =? 0) then ret true
  else
    ex <- path_exists dst ;;
    if negb ex then ret true
    else sz <- path_size dst ;; ret (sz =? 0)%N.

Definition _trim_video_with_ffmpeg (C : collaborators) (src dst : string)
    (start_s end_s : option float) : M unit :=
  match _ffmpeg_path C with
  | None | Some EmptyString => raise ToolMissing
  | Some ffmpeg =>
      let args := trim_args ffmpeg src start_s end_s in
      rc <- run C (fast_args args dst) ;;
      ok <- attempt_succeeded rc dst ;;
      if ok then ret tt
      else
        rc2 <- run C (slow_args args dst) ;;
        bad <- attempt_failed rc2 dst ;;
        if bad then raise TrimFailed else ret tt
  end.

(** *** The worker body of [_on_run] *)

Definition LF : string := String (ascii_of_N 10) EmptyString.

Definition CR : string := String (ascii_of_N 13) EmptyString.

Definition nonempty (s : string) : bool := negb (String.eqb s EmptyString).

(** [o is not None] *)
Definition is_some {A} (o : option A) : bool :=
  match o with Some _ => true | None => false end.

(** Line 309. *)
Definition is_url (input_path : string) : bool :=
  let l := Py.lower input_path in
  Py.startswith l "http://" || Py.startswith l "https://".

(** [v == text] *)
Definition is_text (v : pyval) (text : string) : bool :=
  match v with
  | PStr s => String.eqb s text
  | _ => false
  end.

(** [d.get(k, "").strip()] *)
Definition get_stripped (d : gmap string pyval) (k : string) : result string :=
  match default (PStr EmptyString) (d !! k) with
  | PStr s => Ok (Py.strip s)
  | _ => Raise (Exn AttributeError "object has no attribute 'strip'")
  end.

(** [int(v)] *)
Definition int_of_pyval (v : pyval) : result Z :=
  match v with
  | PInt n => Ok n
  | PBool b => Ok (if b then 1 else 0)
  | PFloat x => Py.int_of_float x
  | PStr s => py_int s
  | _ => Raise (Exn TypeError "int() argument must be a string or a real number")
  end.

(** [a / b] for ints, [b > 0]. *)
Definition int_truediv (a b : Z) : result float :=
  match Py.truediv a b with
  | Some x => Ok x
  | None =>
      Raise (Exn OverflowError "integer division result too large for a float")
  end.

(** Lines 317-331: the progress hook of the worker. *)
Definition on_progress (d : pyval) : M unit :=
  try_except
    (match d with
     | PDict m =>
         let status := dict_get m "status" in
         if is_text status "downloading" then
           p <- lift (get_stripped m "_percent_str") ;;
           s <- lift (get_stripped m "_speed_str") ;;
           eta <- lift (get_stripped m "_eta_str") ;;
           emit (EvLog ("[下载中] " +:+ p +:+ "  速度 " +:+ s +:+ "  剩余 "
                        +:+ eta +:+ CR))
         else if is_text status "finished" then
           let total :=
             if truthy (dict_get m "total_bytes") then dict_get m "total_bytes"
             else dict_get m "total_bytes_estimate" in
           size_mb <-
             lift (if truthy total then
                     n <- int_of_pyval total ;;
                     x <- int_truediv n 1048576 ;;
                     ret (Py.format_f 1 x +:+ "MB")
                   else Ok "?") ;;
           emit (EvLog (LF +:+ "[下载完成] 已保存临时文件，大小约 " +:+ size_mb
                        +:+ LF))
         else ret tt
     | _ => raise (Exn AttributeError "object has no attribute 'get'")
     end)
    (fun _ => ret tt).

(** Lines 312-341: the local file the run works on. *)
Definition resolve_source (C : collaborators) (self : App) (input_path : string)
  : M string :=
  if is_url input_path then
    let dl_dir_str := Py.strip (strings self dldir_var) in
    let dl_dir :=
      if nonempty dl_dir_str then dl_dir_str
      else path_join C (gettempdir C) "video2pdf_downloads" in
    _ <- emit (EvPrint ("检测到网址输入，开始下载到: " +:+ dl_dir)) ;;
    downloaded_path <-
      download_video C input_path dl_dir None "best" None false false None
        (Some on_progress) ;;
    _ <- emit (EvPrint ("已下载: " +:+ downloaded_path)) ;;
    ret downloaded_path
  else ret input_path.

(** Lines 344-353. *)
Definition parse_bounds (self : App) : M (option float * option float) :=
  start_s <-
    try_except (lift (_parse_time_to_seconds (strings self start_time_var)))
      (fun e => raise (Exn RuntimeError ("开始时间格式错误: " +:+ exn_msg e))) ;;
  end_s <-
    try_except (lift (_parse_time_to_seconds (strings self end_time_var)))
      (fun e => raise (Exn RuntimeError ("结束时间格式错误: " +:+ exn_msg e))) ;;
  ret (start_s, end_s).

(** The spec's InvalidRange. *)
Definition InvalidRange : exn := Exn RuntimeError "结束时间必须大于开始时间".

(** Line 356: both bounds given and [end_s <= start_s]. *)
Definition range_rejected (start_s end_s : option float) : bool :=
  match end_s, start_s with
  | Some e, Some s => PrimFloat.leb e s
  | _, _ => false
  end.

Definition shown_bound (C : collaborators) (b : option float) : string :=
  match b with
  | Some x => float_repr C x
  | None => "未指定"
  end.

(** Lines 355-364. *)
Definition trim_stage (C : collaborators) (input_p : string)
    (start_s end_s : option float) : M string :=
  if is_some start_s || is_some end_s then
    _ <- (if range_rejected start_s end_s then raise InvalidRange else ret tt) ;;
    parent_there <- path_exists (path_parent C input_p) ;;
    let clip_dir :=
      path_join C
        (if parent_there then path_parent C input_p else gettempdir C)
        "video2pdf_segments" in
    _ <- path_mkdir clip_dir ;;
    let clip_p := path_join C clip_dir (path_stem C input_p +:+ ".clip.mp4") in
    _ <- emit (EvPrint ("检测到剪切参数，开始剪切: start="
                        +:+ shown_bound C start_s +:+ ", end="
                        +:+ shown_bound C end_s)) ;;
    _ <- _trim_video_with_ffmpeg C input_p clip_p start_s end_s ;;
    _ <- emit (EvPrint ("剪切完成: " +:+ clip_p)) ;;
    ret clip_p
  else ret input_p.

(** [cv2.VideoCapture(str(p))] *)
Definition open_capture (C : collaborators) (p : string) : M capture :=
  _ <- emit (EvCapture p) ;;
  f <- get_fs ;;
  lift (VideoCapture C p f).

(** [int(x or 0)] for a float [x]. *)
Definition int_or_zero (x : float) : result Z :=
  if Py.float_truthy x then Py.int_of_float x else Ok 0.

(** Lines 368-378: the body of the probe's [try]. *)
Definition probe_body (C : collaborators) (input_p : string) : M unit :=
  cap_probe <- open_capture C input_p ;;
  opened <- lift (cap_isOpened cap_probe) ;;
  if opened : bool then
    width <- lift (x <- cap_get cap_probe CAP_PROP_FRAME_WIDTH ;; int_or_zero x) ;;
    height <- lift (x <- cap_get cap_probe CAP_PROP_FRAME_HEIGHT ;; int_or_zero x) ;;
    wh <- (if negb (int_truthy width) || negb (int_truthy height) then
             r <- lift (cap_read cap_probe) ;;
             match r with
             | (true, Some frame0) => ret (frame_cols frame0, frame_rows frame0)
             | _ => ret (width, height)
             end
           else ret (width, height)) ;;
    _ <- lift (cap_release cap_probe) ;;
    if int_truthy (fst wh) && int_truthy (snd wh) then
      emit (EvLog (LF +:+ "视频分辨率: " +:+ Py.str_of_int (fst wh) +:+ " x "
                   +:+ Py.str_of_int (snd wh) +:+ LF))
    else ret tt
  else ret tt.

(** Lines 367-380. *)
Definition probe_resolution (C : collaborators) (input_p : string) : M unit :=
  try_except (probe_body C input_p) (fun _ => ret tt).

Definition select_prompt : string :=
  "请在弹出的窗口中框选 PPT 区域，按回车确认，Esc 取消。" +:+ LF.

Definition select_cancelled : string := "已取消框选，继续使用原设置。" +:+ LF.

(** Lines 391-404: the body of the selection's [try]. *)
Definition select_body (C : collaborators) (input_p : string)
  : M (option (Z * Z * Z * Z)) :=
  cap0 <- open_capture C input_p ;;
  r <- lift (cap_read cap0) ;;
  _ <- lift (cap_release cap0) ;;
  match r with
  | (true, Some frame) =>
      _ <- emit (EvLog select_prompt) ;;
      _ <- emit EvSelectROI ;;
      roi <- lift (selectROI C frame) ;;
      _ <- lift (destroyWindow C) ;;
      let '(x, y, w, h) := roi in
      if (0 <? w) && (0 <? h) then
        _ <- emit (EvLog ("已选择区域: x=" +:+ Py.str_of_int x +:+ ", y="
                          +:+ Py.str_of_int y +:+ ", w=" +:+ Py.str_of_int w
                          +:+ ", h=" +:+ Py.str_of_int h +:+ LF)) ;;
        ret (Some (x, y, w, h))
      else
        _ <- emit (EvLog select_cancelled) ;;
        ret None
  | _ => raise (Exn RuntimeError "无法读取视频首帧用于框选")
  end.

(** Lines 388-406: [manual_crop]. *)
Definition manual_select (C : collaborators) (self : App) (input_p : string)
  : M (option (Z * Z * Z * Z)) :=
  if booleans self manual_select_var then
    try_except (select_body C input_p)
      (fun e => _ <- emit (EvLog ("框选失败: " +:+ exn_msg e +:+ LF)) ;; ret None)
  else ret None.

(** [float(s or d)] and [int(s or d)] for an entry text [s]. *)
Definition float_or (s : string) (d : float) : result float :=
  if nonempty s then py_float s else Ok d.

Definition int_or (s : string) (d : Z) : result Z :=
  if nonempty s then py_int s else Ok d.

(** [int(s) if s.strip() else None] *)
Definition optional_int (s : string) : result (option Z) :=
  if nonempty (Py.strip s) then n <- py_int s ;; ret (Some n) else Ok None.

Definition half : float := Eval vm_compute in Py.of_decimal false 5 (-1).
Definition ratio_098 : float := Eval vm_compute in Py.of_decimal false 98 (-2).
Definition ratio_005 : float := Eval vm_compute in Py.of_decimal false 5 (-2).

(** Lines 409-425: the keyword arguments of the extractor. *)
Definition extraction_options (C : collaborators) (self : App)
    (input_p output_pdf out_dir : string) (manual_crop : option (Z * Z * Z * Z))
  : result extract_args :=
  sample_seconds <- float_or (strings self sample_var) half ;;
  threshold <- int_or (strings self threshold_var) 10 ;;
  crop <- parse_crop C (let c := Py.strip (strings self crop_var) in
                        if nonempty c then Some c else None) ;;
  let crop := match manual_crop with Some m => Some m | None => crop end in
  scale_width <- optional_int (strings self scale_width_var) ;;
  max_pages <- optional_int (strings self max_pages_var) ;;
  let a4 := booleans self a4_var in
  let auto_trim := booleans self auto_trim_var in
  auto_trim_ratio <- float_or (strings self auto_trim_ratio_var) ratio_098 ;;
  auto_trim_pad <- int_or (strings self auto_trim_pad_var) 6 ;;
  let auto_trim_sides :=
    if nonempty (strings self auto_trim_sides_var)
    then strings self auto_trim_sides_var else "tb" in
  let auto_crop :=
    match manual_crop with
    | Some _ => false
    | None => booleans self auto_crop_var
    end in
  auto_crop_pad <- int_or (strings self auto_crop_pad_var) 6 ;;
  auto_crop_min_area_ratio <-
    float_or (strings self auto_crop_min_area_var) ratio_005 ;;
  ret {| video_path := input_p;
         output_pdf := output_pdf;
         output_dir := out_dir;
         sample_seconds := sample_seconds;
         threshold := threshold;
         crop_region := crop;
         scale_width := scale_width;
         a4 := a4;
         max_pages := max_pages;
         auto_trim := auto_trim;
         auto_trim_ratio := auto_trim_ratio;
         auto_trim_pad := auto_trim_pad;
         auto_trim_sides := auto_trim_sides;
         auto_crop := auto_crop;
         auto_crop_pad := auto_crop_pad;
         auto_crop_min_area_ratio := auto_crop_min_area_ratio |}.

(** The call of the extractor; what it prints goes to the log on its own. *)
Definition call_extract (C : collaborators) (a : extract_args) : M unit :=
  fun w =>
    let '(r, f) := extract_frames_to_pdf C a (fs w) in
    (r, World f (trace w ++ [EvExtract a])).

(** Lines 382-383. *)
Definition chosen_output_pdf (C : collaborators) (self : App) (input_p : string)
  : string :=
  let output_pdf_str := Py.strip (strings self output_var) in
  if nonempty output_pdf_str then output_pdf_str
  else path_with_suffix C input_p ".pdf".

(** Lines 384-385. *)
Definition chosen_out_dir (C : collaborators) (self : App) (input_p : string)
  : string :=
  let out_dir_str := Py.strip (strings self outdir_var) in
  if nonempty out_dir_str then out_dir_str
  else path_join C (path_parent C input_p) "slides_phash".

(** Lines 382-447, after the probe. *)
Definition extract_stage (C : collaborators) (self : App) (input_p : string)
  : M unit :=
  let output_pdf := chosen_output_pdf C self input_p in
  let out_dir := chosen_out_dir C self input_p in
  manual_crop <- manual_select C self input_p ;;
  a <- lift (extraction_options C self input_p output_pdf out_dir manual_crop) ;;
  _ <- call_extract C a ;;
  emit (EvLog (LF +:+ "完成." +:+ LF)).

(** Lines 308-447: the body of the worker's [try]. *)
Definition work_body (C : collaborators) (self : App) (input_path : string)
  : M unit :=
  input_p <- resolve_source C self input_path ;;
  bounds <- parse_bounds self ;;
  input_p <- trim_stage C input_p (fst bounds) (snd bounds) ;;
  _ <- probe_resolution C input_p ;;
  extract_stage C self input_p.

(** Lines 304-452: [work]. *)
Definition work (C : collaborators) (self : App) (input_path : string) : M unit :=
  _ <- try_except (work_body C self input_path)
         (fun exc =>
            _ <- emit (EvLog (LF +:+ "错误: " +:+ exn_msg exc +:+ LF)) ;;
            emit (EvShowError "运行失败" (exn_msg exc))) ;;
  emit (EvRunButton true).

(** *** The window: toggles, the run button, the worker thread *)

(** Lines 262-268. *)
Definition _on_toggle_auto_crop (self : App) : App :=
  if booleans self auto_crop_var
  then set_boolean manual_select_var false self
  else self.

(** Lines 270-276. *)
Definition _on_toggle_manual_select (self : App) : App :=
  if booleans self manual_select_var
  then set_boolean auto_crop_var false self
  else self.

(** The [command] a check button was built with. *)
Definition checkbox_command (v : boolean_var) : App -> App :=
  match v with
  | auto_crop_var => _on_toggle_auto_crop
  | manual_select_var => _on_toggle_manual_select
  | _ => fun self => self
  end.

(** A click on a check button flips its variable, then runs its command. *)
Definition click_checkbox (v : boolean_var) (self : App) : App :=
  checkbox_command v (set_boolean v (negb (booleans self v)) self).

(** A thread object: alive with the input it was started for, or done. *)
Inductive thread_state :=
| Alive (input_path : string)
| Finished.

Record gui := Gui {
  self : App;
  threads : list thread_state;
  env : world
}.

Definition gui_emit (e : event) (g : gui) : gui :=
  Gui (self g) (threads g) (World (fs (env g)) (trace (env g) ++ [e])).

(** [t.is_alive()] for the thread object numbered [t]. *)
Definition is_alive (g : gui) (t : nat) : bool :=
  match threads g !! t with
  | Some (Alive _) => true
  | _ => false
  end.

(** [self._worker and self._worker.is_alive()] *)
Definition worker_alive (g : gui) : bool :=
  match _worker (self g) with
  | Some t => is_alive g t
  | None => false
  end.

Definition busy_signal : event := EvShowInfo "运行中" "请等待当前任务完成".

(** Lines 291-302 and 454-455: [_on_run]. *)
Definition _on_run (g : gui) : gui :=
  if worker_alive g then gui_emit busy_signal g
  else
    let input_path := Py.strip (strings (self g) input_var) in
    if negb (nonempty input_path) then
      gui_emit (EvShowWarning "缺少输入" "请先输入本地视频路径或视频网址") g
    else
      let g := gui_emit (EvRunButton false) (gui_emit EvLogClear g) in
      let tid := length (threads g) in
      gui_emit (EvThreadStart tid)
        (Gui (set_worker (Some tid) (self g))
             (threads g ++ [Alive input_path])
             (env g)).

(** Thread [t] runs [work] to its end; the run is one step here, and reads
    the variables as they are then. *)
Definition worker_runs (C : collaborators) (t : nat) (g : gui) : gui :=
  match threads g !! t with
  | Some (Alive input_path) =>
      Gui (self g) (<[t := Finished]> (threads g))
          (snd (work C (self g) input_path (env g)))
  | _ => g
  end.

(** What can happen to the window. *)
Inductive action :=
| Click_run
| Click_checkbox (v : boolean_var)
| Type_entry (v : string_var) (x : string)
| Worker_runs (t : nat).

Definition step (C : collaborators) (a : action) (g : gui) : gui :=
  match a with
  | Click_run => _on_run g
  | Click_checkbox v => Gui (click_checkbox v (self g)) (threads g) (env g)
  | Type_entry v x => Gui (set_string v x (self g)) (threads g) (env g)
  | Worker_runs t => worker_runs C t g
  end.

Definition initial_gui (f : gmap string fnode) : gui :=
  Gui initial_app [] (World f []).

Definition run_actions (C : collaborators) (l : list action) (g : gui) : gui :=
  fold_left (fun g a => step C a g) l g.

Inductive reachable (C : collaborators) : gui -> Prop :=
| reachable_initial f : reachable C (initial_gui f)
| reachable_step a g : reachable C g -> reachable C (step C a g).

(** *** The log: the stream, the queue and the text widget *)

(** [StreamToQueue] (lines 46-56): a text stream over a queue of chunks. *)
Module StreamToQueue.

(** [write(s)]: the number of characters, and the queue after. *)
Definition write (s : string) (_queue : list string) : Z * list string :=
  (Z.of_nat (String.length s), if nonempty s then _queue ++ [s] else _queue).

(** [flush()] *)
Definition flush (_queue : list string) : unit * list string := (tt, _queue).

End StreamToQueue.

(** The log side of the window: the queue the worker fills, the text of
    the log widget, and the delays in milliseconds of the calls of
    [_drain_log] that [after] has pending. *)
Record log_pane := LogPane {
  _log_queue : list string;
  log : string;
  after_calls : list Z
}.

(** Lines 72-74 of [__init__]: an empty queue and the first poll. *)
Definition initial_pane : log_pane := LogPane [] EmptyString [100].

(** [self._log_queue.put(chunk)] *)
Definition queue_put (chunk : string) (p : log_pane) : log_pane :=
  LogPane (_log_queue p ++ [chunk]) (log p) (after_calls p).

(** A [write] on a stream over the queue of the window. *)
Definition stream_write (s : string) (p : log_pane) : Z * log_pane :=
  let '(n, q) := StreamToQueue.write s (_log_queue p) in
  (n, LogPane q (log p) (after_calls p)).

(** [self.log.delete("1.0", tk.END)] *)
Definition log_delete_all (p : log_pane) : log_pane :=
  LogPane (_log_queue p) EmptyString (after_calls p).

(** Lines 278-280. *)
Definition _append_log (text : string) (p : log_pane) : log_pane :=
  LogPane (_log_queue p) (log p +:+ text) (after_calls p).

(** Lines 284-288: [get_nowait] and [_append_log] until the queue is
    empty; [q] is what the queue still holds. *)
Fixpoint drain_loop (q : list string) (p : log_pane) : log_pane :=
  match q with
  | [] => LogPane [] (log p) (after_calls p)
  | chunk :: q' => drain_loop q' (_append_log chunk p)
  end.

(** Lines 282-289. *)
Definition _drain_log (p : log_pane) : log_pane :=
  let p := drain_loop (_log_queue p) p in
  LogPane (_log_queue p) (log p) (after_calls p ++ [100]).

(** The event loop runs the oldest pending call. *)
Definition timer_fires (p : log_pane) : log_pane :=
  match after_calls p with
  | _ :: rest => _drain_log (LogPane (_log_queue p) (log p) rest)
  | [] => p
  end.

(** What can happen to the log side. *)
Inductive pane_action :=
| Put (chunk : string)
| Stream_write (s : string)
| Log_delete
| Timer_fires.

Definition pane_step (a : pane_action) (p : log_pane) : log_pane :=
  match a with
  | Put chunk => queue_put chunk p
  | Stream_write s => snd (stream_write s p)
  | Log_delete => log_delete_all p
  | Timer_fires => timer_fires p
  end.

Definition pane_run (l : list pane_action) (p : log_pane) : log_pane :=
  fold_left (fun p a => pane_step a p) l p.

(** *** The browse buttons *)

(** Lines 247-260; [path] is what the dialog returned, empty when it was
    cancelled. *)
Definition _browse_file (path : string) (var : string_var) (self : App) : App :=
  if nonempty path then set_string var path self else self.

Definition _save_file (path : string) (var : string_var) (self : App) : App :=
  if nonempty path then set_string var path self else self.

Definition _choose_dir (path : string) (var : string_var) (self : App) : App :=
  if nonempty path then set_string var path self else self.

(** The [browse] a row was built with (lines 141-150). *)
Definition browse_command (v : string_var)
  : option (string -> string_var -> App -> App) :=
  match v with
  | input_var => Some _browse_file
  | output_var => Some _save_file
  | outdir_var | dldir_var => Some _choose_dir
  | _ => None
  end.

(** A click on the browse button of a row, with the dialog's answer. *)
Definition click_browse (v : string_var) (path : string) (self : App) : App :=
  match browse_command v with
  | Some browse => browse path v self
  | None => self
  end.

(** *** DPI awareness at start-up *)

(** What [_enable_windows_dpi_awareness] meets: the platform, and what the
    import, the attribute [ctypes.windll.user32] and the three system
    calls do. *)
Record dpi_system := {
  platform : string;
  import_ctypes : result unit;
  windll_user32 : result unit;
  SetProcessDpiAwarenessContext : Z -> result unit;
  shcore_SetProcessDpiAwareness : Z -> result unit;
  SetProcessDPIAware : result unit
}.

Inductive dpi_call :=
| Call_context (v : Z)
| Call_awareness (v : Z)
| Call_aware.

(** Code that records the system calls it makes. *)
Definition Dpi (A : Type) : Type := list dpi_call -> result A * list dpi_call.

Global Instance Monad_Dpi : Monad Dpi := {|
  ret := fun A a l => (Ok a, l);
  bind := fun A B m f l =>
    match m l with
    | (Ok a, l') => f a l'
    | (Raise e, l') => (Raise e, l')
    end
|}.

Definition dpi_try {A} (body : Dpi A) (handler : exn -> Dpi A) : Dpi A :=
  fun l =>
    match body l with
    | (Ok a, l') => (Ok a, l')
    | (Raise e, l') => handler e l'
    end.

Definition dpi_do {A} (c : dpi_call) (r : result A) : Dpi A :=
  fun l => (r, l ++ [c]).

Definition dpi_lift {A} (r : result A) : Dpi A := fun l => (r, l).

(** Lines 19-43; the boolean of an inner [try] tells that it returned. *)
Definition _enable_windows_dpi_awareness (sys : dpi_system) : Dpi unit :=
  if negb (String.eqb (platform sys) "win32") then ret tt
  else
    dpi_try
      (_ <- dpi_lift (import_ctypes sys) ;;
       _ <- dpi_lift (windll_user32 sys) ;;
       returned <-
         dpi_try
           (_ <- dpi_do (Call_context (-4))
                   (SetProcessDpiAwarenessContext sys (-4)) ;;
            ret true)
           (fun _ => ret false) ;;
       if returned : bool then ret tt
       else
         returned <-
           dpi_try
             (_ <- dpi_do (Call_awareness 2)
                     (shcore_SetProcessDpiAwareness sys 2) ;;
              ret true)
             (fun _ => ret false) ;;
         if returned : bool then ret tt
         else
           dpi_try (dpi_do Call_aware (SetProcessDPIAware sys))
             (fun _ => ret tt))
      (fun _ => ret tt).

(** ** Vocabulary of the properties *)


Definition sel_subprocess (e : event) : option (list string) :=
  match e with EvSubprocess a => Some a | _ => None end.

Definition sel_extract (e : event) : option extract_args :=
  match e with EvExtract a => Some a | _ => None end.

Definition sel_thread_start (e : event) : option nat :=
  match e with EvThreadStart n => Some n | _ => None end.

Definition sel_format (e : event) : option string :=
  match e with EvDownload _ o => Some (format o) | _ => None end.

(** The format queries handed to the download engine. *)
Definition format_queries (t : list event) : list string :=
  omap sel_format t.

(** The argument lists of the subprocesses a trace records, in order. *)
Definition subprocess_calls (t : list event) : list (list string) :=
  omap sel_subprocess t.

(** The argument records of the extractor calls of a trace. *)
Definition extract_calls (t : list event) : list extract_args :=
  omap sel_extract t.

(** The threads started, as a trace records them. *)
Definition thread_starts (t : list event) : list nat :=
  omap sel_thread_start t.

(** [unseen sel m]: running [m] adds no event that [sel] picks. *)
Definition unseen {X A} (sel : event -> option X) (m : M A) : Prop :=
  forall w, omap sel (trace (snd (m w))) = omap sel (trace w).

(** The three-part criterion of a trim attempt: exit code zero, the
    output there, and not empty. *)
Definition attempt_ok (rc : Z) (f : gmap string fnode) (dst : string) : Prop :=
  rc = 0 /\ exists nd, f !! dst = Some nd /\ (0 < st_size nd)%N.

Definition attempt_ok_b (rc : Z) (f : gmap string fnode) (dst : string) : bool :=
  (rc =? 0)
  && match f !! dst with
     | Some nd => (0 <? st_size nd)%N
     | None => false
     end.


(** Every thread alive is the one [self._worker] refers to. *)
Definition one_worker (g : gui) : Prop :=
  forall t, is_alive g t = true -> _worker (self g) = Some t.

(** The threads alive in a window state. *)
Definition alive_threads (g : gui) : list nat :=
  List.filter (is_alive g) (seq 0 (length (threads g))).

Definition sel_download (e : event) : option string :=
  match e with EvDownload url _ => Some url | _ => None end.

Definition sel_log (e : event) : option string :=
  match e with EvLog chunk => Some chunk | _ => None end.

Definition sel_show_error (e : event) : option (string * string) :=
  match e with EvShowError title msg => Some (title, msg) | _ => None end.

Definition sel_run_button (e : event) : option bool :=
  match e with EvRunButton enabled => Some enabled | _ => None end.

(** The urls handed to the download engine. *)
Definition download_calls (t : list event) : list string :=
  omap sel_download t.

(** The chunks put on the log queue. *)
Definition log_chunks (t : list event) : list string :=
  omap sel_log t.

(** The error dialogs shown. *)
Definition error_dialogs (t : list event) : list (string * string) :=
  omap sel_show_error t.

(** The state of the run button: as last configured, enabled at first. *)
Definition run_button_enabled (t : list event) : bool :=
  default true (last (omap sel_run_button t)).

(** The outside work of a run: downloading, trimming, extracting. *)
Inductive stage := Downloading | Trimming | Extracting.

Definition sel_stage (e : event) : option stage :=
  match e with
  | EvDownload _ _ => Some Downloading
  | EvSubprocess _ => Some Trimming
  | EvExtract _ => Some Extracting
  | _ => None
  end.

Definition stages (t : list event) : list stage := omap sel_stage t.

(** The text made of chunks in a row. *)
Definition joined (chunks : list string) : string :=
  fold_right String.append EmptyString chunks.

(** The chunks a sequence of actions hands to the log side. *)
Definition handed_over (a : pane_action) : list string :=
  match a with
  | Put chunk => [chunk]
  | Stream_write s => [s]
  | _ => []
  end.

(** Blank characters only, in the sense of [str.isspace]. *)
Definition blank (s : string) : Prop := Py.forallb_string Py.isspace s = true.

(** [adds sel m P]: the events that [sel] picks among those a run of [m]
    adds form a list that satisfies [P]. *)
Definition adds {X A} (sel : event -> option X) (m : M A)
    (P : list X -> Prop) : Prop :=
  forall w, exists l,
    omap sel (trace (snd (m w))) = omap sel (trace w) ++ l /\ P l.

Definition at_most_one_download (input_path : string) (l : list stage) : Prop :=
  l = [] \/ (is_url input_path = true /\ l = [Downloading]).

Definition at_most_two_trims (l : list stage) : Prop :=
  l = [] \/ l = [Trimming] \/ l = [Trimming; Trimming].

Definition at_most_one_extraction (l : list stage) : Prop :=
  l = [] \/ l = [Extracting].

(** The last lines of a run in the log (lines 447 and 449). *)
Definition done_line : string := LF +:+ "完成." +:+ LF.

Definition error_line (e : exn) : string :=
  LF +:+ "错误: " +:+ exn_msg e +:+ LF.

(** Where a clip goes (lines 358-360): beside the input when its directory
    exists in the files [f], under the temporary directory otherwise. *)
Definition clip_dir (C : collaborators) (input_p : string)
    (f : gmap string fnode) : string :=
  path_join C
    (if bool_decide (is_Some (f !! path_parent C input_p))
     then path_parent C input_p else gettempdir C)
    "video2pdf_segments".

Definition clip_path (C : collaborators) (input_p : string)
    (f : gmap string fnode) : string :=
  path_join C (clip_dir C input_p f) (path_stem C input_p +:+ ".clip.mp4").

(** The line printed before a trim (line 361). *)
Definition trim_notice (C : collaborators) (start_s end_s : option float)
  : string :=
  "检测到剪切参数，开始剪切: start=" +:+ shown_bound C start_s +:+ ", end="
  +:+ shown_bound C end_s.

(** The lines of the progress hook (lines 324 and 329). *)
Definition downloading_line (p s eta : string) : string :=
  "[下载中] " +:+ p +:+ "  速度 " +:+ s +:+ "  剩余 " +:+ eta +:+ CR.

Definition finished_line (size_mb : string) : string :=
  LF +:+ "[下载完成] 已保存临时文件，大小约 " +:+ size_mb +:+ LF.

(** The value the size is read from (line 327). *)
Definition total_of (m : gmap string pyval) : pyval :=
  if truthy (dict_get m "total_bytes") then dict_get m "total_bytes"
  else dict_get m "total_bytes_estimate".

(** The options [download_video] hands to the engine (lines 41-59). *)
Definition options_of (C : collaborators) (output_dir : string)
    (cookies : option string) (quality : string) (proxy : option string)
    (playlist subtitles : bool) (ffmpeg_location : option string)
  : ydl_opts := {|
  outtmpl := path_join C output_dir "%(title).200s [%(id)s].%(ext)s";
  format := format_selector quality;
  merge_output_format := "mp4";
  concurrent_fragment_downloads := 4;
  noplaylist := negb playlist;
  ignoreerrors := false;
  retries := 10;
  fragment_retries := 10;
  continuedl := true;
  nopart := false;
  ffmpeg_location_opt := ffmpeg_location;
  proxy_opt := proxy;
  cookiefile := cookies;
  writesubtitles := subtitles;
  embedsubtitles := subtitles;
  subtitleslangs := if subtitles then ["zh-Hans"; "zh"; "en"] else []
|}.

(** A hook that returns and leaves the files alone. *)
Definition harmless (hook : pyval -> M unit) : Prop :=
  forall d w, fst (hook d w) = Ok tt /\ fs (snd (hook d w)) = fs w.

(** At the head of a text: a blank of [str.isspace] that the number
    readers do not skip. *)
Definition odd_blank_head (s : string) : Prop :=
  match s with
  | EmptyString => True
  | String c _ => Py.isspace c = true /\ Py.isspace_c c = false
  end.

(** The text shown and still to be shown. *)
Definition all_text (p : log_pane) : string :=
  log p +:+ joined (_log_queue p).

Definition sel_engine_call (e : event) : option (string * ydl_opts) :=
  match e with EvDownload url opts => Some (url, opts) | _ => None end.

(** The calls of the download engine: the url and the options. *)
Definition engine_calls (t : list event) : list (string * ydl_opts) :=
  omap sel_engine_call t.

(** Where the worker downloads to (line 314). *)
Definition download_dir (C : collaborators) (self : App) : string :=
  if nonempty (Py.strip (strings self dldir_var))
  then Py.strip (strings self dldir_var)
  else path_join C (gettempdir C) "video2pdf_downloads".


(** The line of a region selected by hand (line 402). *)
Definition selected_line (x y w h : Z) : string :=
  "已选择区域: x=" +:+ Py.str_of_int x +:+ ", y=" +:+ Py.str_of_int y
  +:+ ", w=" +:+ Py.str_of_int w +:+ ", h=" +:+ Py.str_of_int h +:+ LF.

(** The chunks the progress hook logs for one progress dictionary. *)
Definition progress_chunks (d : pyval) : list string :=
  log_chunks (trace (snd (on_progress d (World ∅ [])))).

(** ** Stand-ins for the collaborators, for worked examples *)

Module Demo.

(** The spec's RegionSpecError. *)
Definition RegionSpecError : exn :=
  Exn ValueError "crop must be four non-negative integers x,y,w,h".

(** Modelled from the spec: [parse_crop] of video_to_pdf_phash, which is
    not among the sources.  The spec gives its grammar (four
    comma-separated non-negative integers x,y,w,h), its failure
    (RegionSpecError on a malformed text) and that no text is no region. *)
Definition parse_crop_spec (spec : option string)
  : result (option (Z * Z * Z * Z)) :=
  match spec with
  | None => Ok None
  | Some s =>
      match map Py.int_of_str (Py.split "," s) with
      | [Some x; Some y; Some w; Some h] =>
          if (0 <=? x) && (0 <=? y) && (0 <=? w) && (0 <=? h)
          then Ok (Some (x, y, w, h))
          else Raise RegionSpecError
      | _ => Raise RegionSpecError
      end
  end.

(** An ffmpeg whose stream copy exits with zero over an empty output and
    whose re-encoding writes the clip; the output is the last argument. *)
Definition ffmpeg (args : list string) (f : gmap string fnode)
  : Z * gmap string fnode :=
  match last args with
  | Some dst =>
      if bool_decide ("copy" ∈ args)
      then (0, <[dst := Node false 0]> f)
      else (0, <[dst := Node false 4096]> f)
  | None => (2, f)
  end.

(** A capture that opens, declares 1920 x 1080 and decodes one frame. *)
Definition capture_1080p : capture := {|
  cap_isOpened := Ok true;
  cap_get := fun p =>
    match p with
    | CAP_PROP_FRAME_WIDTH => Ok (Py.of_decimal false 1920 0)
    | CAP_PROP_FRAME_HEIGHT => Ok (Py.of_decimal false 1080 0)
    end;
  cap_read := Ok (true, Some (Frame 1080 1920));
  cap_release := Ok tt
|}.

(** The metadata of a single video with its download record. *)
Definition video_info : pyval :=
  PDict {[ "id" := PStr "abc";
           "requested_downloads" :=
             PList [PDict {[ "filepath" := PStr "/tmp/dl/talk [abc].mp4" ]}] ]}.

(** The progress dictionaries of that download. *)
Definition progress : list pyval :=
  [ PDict {[ "status" := PStr "downloading"; "_percent_str" := PStr " 50.0%";
             "_speed_str" := PStr "1.00MiB/s"; "_eta_str" := PStr "00:25" ]};
    PDict {[ "status" := PStr "finished"; "total_bytes" := PInt 52428800 ]} ].

(** The metadata of a playlist of two such videos. *)
Definition playlist_info : pyval :=
  PDict {[ "id" := PStr "list";
           "entries" := PList [video_info; PDict {[ "id" := PStr "def" ]}] ]}.

(** Paths as pathlib reads them off a text in POSIX form that needs no
    normalising: the text before and after the last separator. *)
Fixpoint split_last (sep : ascii) (s : string) : option (string * string) :=
  match s with
  | EmptyString => None
  | String c s' =>
      match split_last sep s' with
      | Some (a, b) => Some (String c a, b)
      | None => if Ascii.eqb c sep then Some (EmptyString, s') else None
      end
  end.

(** [p.parent] *)
Definition parent (p : string) : string :=
  match split_last "/" p with
  | Some (EmptyString, _) => "/"
  | Some (dir, _) => dir
  | None => "."
  end.

(** [p.name] *)
Definition name (p : string) : string :=
  match split_last "/" p with
  | Some (_, n) => n
  | None => p
  end.

(** The stem of a name: the name without its last suffix; a dot at the
    head or at the end of the name starts no suffix. *)
Definition stem_of_name (n : string) : string :=
  match split_last "." n with
  | Some (EmptyString, _) => n
  | Some (_, EmptyString) => n
  | Some (s, _) => s
  | None => n
  end.

(** [p.stem] *)
Definition stem (p : string) : string := stem_of_name (name p).

(** [p.with_suffix(suffix)] for a path with a name. *)
Definition with_suffix (p suffix : string) : string :=
  match split_last "/" p with
  | Some (dir, n) => dir +:+ "/" +:+ stem_of_name n +:+ suffix
  | None => stem_of_name p +:+ suffix
  end.

(** Collaborators around a file /videos/talk.mp4; the region selection is
    cancelled (a rectangle of zeros). *)
Definition collab : collaborators := {|
  which := fun name =>
    if String.eqb name "ffmpeg" then Some "/usr/bin/ffmpeg" else None;
  subprocess_run := ffmpeg;
  extract_info := fun _ _ f =>
    (Ok video_info, progress,
     <["/tmp/dl/talk [abc].mp4" := Node false 52428800]> f);
  prepare_filename := fun _ => Ok "/tmp/dl/talk [abc].mp4";
  VideoCapture := fun _ _ => Ok capture_1080p;
  selectROI := fun _ => Ok (0, 0, 0, 0);
  destroyWindow := Ok tt;
  parse_crop := parse_crop_spec;
  extract_frames_to_pdf := fun _ f => (Ok tt, f);
  path_parent := parent;
  path_stem := stem;
  path_join := fun a b => a +:+ "/" +:+ b;
  path_with_suffix := with_suffix;
  gettempdir := "/tmp";
  float_repr := Py.format_f 1
|}.

(** The same without ffmpeg on the search path. *)
Definition collab_no_tool : collaborators := {|
  which := fun _ => None;
  subprocess_run := subprocess_run collab;
  extract_info := extract_info collab;
  prepare_filename := prepare_filename collab;
  VideoCapture := VideoCapture collab;
  selectROI := selectROI collab;
  destroyWindow := destroyWindow collab;
  parse_crop := parse_crop collab;
  extract_frames_to_pdf := extract_frames_to_pdf collab;
  path_parent := path_parent collab;
  path_stem := path_stem collab;
  path_join := path_join collab;
  path_with_suffix := path_with_suffix collab;
  gettempdir := gettempdir collab;
  float_repr := float_repr collab
|}.

(** The same with a region drawn in the selection window. *)
Definition collab_selecting : collaborators := {|
  which := which collab;
  subprocess_run := subprocess_run collab;
  extract_info := extract_info collab;
  prepare_filename := prepare_filename collab;
  VideoCapture := VideoCapture collab;
  selectROI := fun _ => Ok (10, 20, 300, 200);
  destroyWindow := destroyWindow collab;
  parse_crop := parse_crop collab;
  extract_frames_to_pdf := extract_frames_to_pdf collab;
  path_parent := path_parent collab;
  path_stem := path_stem collab;
  path_join := path_join collab;
  path_with_suffix := path_with_suffix collab;
  gettempdir := gettempdir collab;
  float_repr := float_repr collab
|}.

(** The same with an engine that answers with the playlist and a naming
    template of its own. *)
Definition collab_playlist : collaborators := {|
  which := which collab;
  subprocess_run := subprocess_run collab;
  extract_info := fun _ _ f =>
    (Ok playlist_info, progress,
     <["/tmp/dl/talk [abc].mp4" := Node false 52428800]> f);
  prepare_filename := fun _ => Ok "/tmp/dl/by-template.mp4";
  VideoCapture := VideoCapture collab;
  selectROI := selectROI collab;
  destroyWindow := destroyWindow collab;
  parse_crop := parse_crop collab;
  extract_frames_to_pdf := extract_frames_to_pdf collab;
  path_parent := path_parent collab;
  path_stem := path_stem collab;
  path_join := path_join collab;
  path_with_suffix := path_with_suffix collab;
  gettempdir := gettempdir collab;
  float_repr := float_repr collab
|}.

(** The files before a run: the video and its directory. *)
Definition files : gmap string fnode :=
  {[ "/videos" := Node true 0; "/videos/talk.mp4" := Node false 1000000 ]}.

Definition world0 : world := World files [].

(** A Windows where the call for the second version of per-monitor
    awareness is missing and the one of shcore works. *)
Definition windows_8 : dpi_system := {|
  platform := "win32";
  import_ctypes := Ok tt;
  windll_user32 := Ok tt;
  SetProcessDpiAwarenessContext := fun _ =>
    Raise (Exn AttributeError "function 'SetProcessDpiAwarenessContext' not found");
  shcore_SetProcessDpiAwareness := fun _ => Ok tt;
  SetProcessDPIAware := Ok tt
|}.

(** The window after typing a start and an end time. *)
Definition with_times (start_text end_text : string) : App :=
  set_string end_time_var end_text
    (set_string start_time_var start_text initial_app).

End Demo.

(** * Properties *)

Import (notations) PrimFloat.

(** Decimal literals below stand for the nearest binary64 value, as they
    do in the source. *)
Local Set Warnings "-inexact-float".

(** ** The builtins on sample texts *)

Example strip_samples :
  Py.strip "  01:30 " = "01:30" /\ Py.strip "   " = EmptyString.
Proof. split; reflexivity. Qed.

Example split_samples :
  Py.split ":" "1:02:03.5" = ["1"; "02"; "03.5"] /\
  Py.split ":" "90" = ["90"] /\
  Py.split ":" ":" = [EmptyString; EmptyString].
Proof. repeat split; reflexivity. Qed.

Example int_samples :
  Py.int_of_str "01" = Some 1 /\ Py.int_of_str " +1_000 " = Some 1000 /\
  Py.int_of_str "-7" = Some (-7) /\ Py.int_of_str "1.5" = None /\
  Py.int_of_str "1e3" = None /\ Py.int_of_str "" = None.
Proof. repeat split; reflexivity. Qed.

Example float_samples :
  Py.float_of_str "03.5" = Some 3.5%float /\
  Py.float_of_str " 1e3 " = Some 1000%float /\
  Py.float_of_str ".5" = Some 0.5%float /\
  Py.float_of_str "0.1" = Some 0.1%float /\
  Py.float_of_str "-Infinity" = Some PrimFloat.neg_infinity /\
  Py.float_of_str "NaN" = Some PrimFloat.nan /\
  Py.float_of_str "1e400" = Some PrimFloat.infinity /\
  Py.float_of_str "1e" = None /\ Py.float_of_str "abc" = None.
Proof. repeat split; vm_compute; reflexivity. Qed.

Example format_samples :
  Py.format_f 3 90%float = "90.000" /\
  Py.format_f 3 0.0005%float = "0.001" /\
  Py.format_f 3 0.00025%float = "0.000" /\
  Py.format_f 3 (-2.5)%float = "-2.500" /\
  Py.format_f 1 1234.5675%float = "1234.6" /\
  Py.format_f 3 PrimFloat.nan = "nan" /\
  Py.str_of_int 720 = "720" /\ Py.str_of_int (-3) = "-3".
Proof. repeat split; vm_compute; reflexivity. Qed.

(** ** The time parser *)

Section TimeParser.










End TimeParser.

(** ** Sequencing of effects *)

Section Effects.

Context {A B : Type}.

Lemma bind_M (m : M A) (k : A -> M B) (w : world) :
  (x <- m ;; k x) w =
    match m w with
    | (Ok a, w') => k a w'
    | (Raise e, w') => (Raise e, w')
    end.
Proof. reflexivity. Qed.

End Effects.

(** ** The trimmer *)

Section Trimmer.

Variable C : collaborators.

Lemma attempt_ok_b_spec (rc : Z) (f : gmap string fnode) (dst : string) :
  attempt_ok_b rc f dst = true <-> attempt_ok rc f dst.
Proof.
  unfold attempt_ok_b, attempt_ok. rewrite andb_true_iff, Z.eqb_eq.
  split; intros [Hrc H]; (split; [exact Hrc|]).
  - destruct (f !! dst) as [nd|]; [|discriminate].
    exists nd. split; [reflexivity|]. apply N.ltb_lt, H.
  - destruct H as (nd & -> & H). apply N.ltb_lt, H.
Qed.

(** The success test of line 117 computes the criterion. *)
Lemma attempt_succeeded_eq (rc : Z) (dst : string) (w : world) :
  attempt_succeeded rc dst w = (Ok (attempt_ok_b rc (fs w) dst), w).
Proof.
  unfold attempt_succeeded, attempt_ok_b.
  destruct (rc =? 0); [|reflexivity].
  rewrite bind_M. unfold path_exists. rewrite bind_M. cbn [get_fs ret Monad_M].
  destruct (fs w !! dst) as [nd|] eqn:E.
  - rewrite bool_decide_eq_true_2 by eauto.
    unfold path_size. rewrite !bind_M. cbn [get_fs]. rewrite E. reflexivity.
  - rewrite bool_decide_eq_false_2 by (intros [? ?]; discriminate). reflexivity.
Qed.

(** The failure test of line 122 computes its negation. *)
Lemma attempt_failed_eq (rc : Z) (dst : string) (w : world) :
  attempt_failed rc dst w = (Ok (negb (attempt_ok_b rc (fs w) dst)), w).
Proof.
  unfold attempt_failed, attempt_ok_b.
  destruct (rc =? 0); [|reflexivity]. cbn [negb andb].
  rewrite bind_M. unfold path_exists. rewrite bind_M. cbn [get_fs ret Monad_M].
  destruct (fs w !! dst) as [nd|] eqn:E.
  - rewrite bool_decide_eq_true_2 by eauto. cbn [negb].
    unfold path_size. rewrite !bind_M. cbn [get_fs]. rewrite E.
    cbn [ret Monad_M]. do 2 f_equal.
    destruct (st_size nd); reflexivity.
  - rewrite bool_decide_eq_false_2 by (intros [? ?]; discriminate). reflexivity.
Qed.

Lemma trim_without_tool (src dst : string) (start_s end_s : option float)
    (w : world) :
  _ffmpeg_path C = None \/ _ffmpeg_path C = Some EmptyString ->
  _trim_video_with_ffmpeg C src dst start_s end_s w = (Raise ToolMissing, w).
Proof.
  intros [H|H]; unfold _trim_video_with_ffmpeg; rewrite H; reflexivity.
Qed.

(** A trim with the tool at hand, as one case analysis. *)
Lemma trim_outcome (src dst ffmpeg : string) (start_s end_s : option float)
    (w : world) :
  _ffmpeg_path C = Some ffmpeg -> ffmpeg <> EmptyString ->
  let args := trim_args ffmpeg src start_s end_s in
  let fast := subprocess_run C (fast_args args dst) (fs w) in
  let slow := subprocess_run C (slow_args args dst) (snd fast) in
  let w1 := World (snd fast) (trace w ++ [EvSubprocess (fast_args args dst)]) in
  let w2 := World (snd slow)
              (trace w ++ [EvSubprocess (fast_args args dst);
                           EvSubprocess (slow_args args dst)]) in
  _trim_video_with_ffmpeg C src dst start_s end_s w =
    if attempt_ok_b (fst fast) (snd fast) dst then (Ok tt, w1)
    else if attempt_ok_b (fst slow) (snd slow) dst then (Ok tt, w2)
    else (Raise TrimFailed, w2).
Proof.
  intros Hff Hne args fast slow w1 w2.
  unfold _trim_video_with_ffmpeg. rewrite Hff.
  destruct ffmpeg as [|c0 ff]; [contradiction|]. fold args.
  rewrite bind_M. unfold run at 1. fold fast.
  destruct fast as [rc1 f1] eqn:Efast. cbn [fst snd] in *. fold w1.
  rewrite bind_M, attempt_succeeded_eq. cbn [fs w1].
  destruct (attempt_ok_b rc1 f1 dst); [reflexivity|].
  rewrite bind_M. unfold run at 1. cbn [fs trace w1]. fold slow.
  destruct slow as [rc2 f2] eqn:Eslow. cbn [fst snd] in *.
  rewrite <- app_assoc. cbn [app]. fold w2.
  rewrite bind_M, attempt_failed_eq. cbn [fs w2].
  destruct (attempt_ok_b rc2 f2 dst); reflexivity.
Qed.

(** C1. A trim with the tool at hand: the stream-copy attempt counts as
    done exactly when its exit code is zero and the output file is there
    and not empty; in every other case (a zero exit code with an empty
    file among them) the re-encoding attempt is run, and the trim raises
    TrimFailed exactly when that attempt fails the same criterion. *)
Theorem trim_fallback (src dst ffmpeg : string) (start_s end_s : option float)
    (w : world) :
  _ffmpeg_path C = Some ffmpeg -> ffmpeg <> EmptyString ->
  let args := trim_args ffmpeg src start_s end_s in
  let fast := subprocess_run C (fast_args args dst) (fs w) in
  let slow := subprocess_run C (slow_args args dst) (snd fast) in
  let out := _trim_video_with_ffmpeg C src dst start_s end_s w in
  (attempt_ok (fst fast) (snd fast) dst ->
     out = (Ok tt, World (snd fast)
                     (trace w ++ [EvSubprocess (fast_args args dst)]))) /\
  (~ attempt_ok (fst fast) (snd fast) dst ->
     snd out = World (snd slow)
                 (trace w ++ [EvSubprocess (fast_args args dst);
                              EvSubprocess (slow_args args dst)]) /\
     (attempt_ok (fst slow) (snd slow) dst -> fst out = Ok tt) /\
     (~ attempt_ok (fst slow) (snd slow) dst -> fst out = Raise TrimFailed)) /\
  (fst fast = 0 ->
   (exists nd, snd fast !! dst = Some nd /\ st_size nd = 0%N) ->
   subprocess_calls (trace (snd out)) =
     subprocess_calls (trace w) ++ [fast_args args dst; slow_args args dst]).
Proof.
  intros Hff Hne args fast slow out.
  pose proof (trim_outcome src dst ffmpeg start_s end_s w Hff Hne) as Hout.
  cbv zeta in Hout. fold args fast slow out in Hout.
  pose proof (attempt_ok_b_spec (fst fast) (snd fast) dst) as H1.
  pose proof (attempt_ok_b_spec (fst slow) (snd slow) dst) as H2.
  assert (Hsecond : ~ attempt_ok (fst fast) (snd fast) dst ->
     snd out = World (snd slow)
                 (trace w ++ [EvSubprocess (fast_args args dst);
                              EvSubprocess (slow_args args dst)]) /\
     (attempt_ok (fst slow) (snd slow) dst -> fst out = Ok tt) /\
     (~ attempt_ok (fst slow) (snd slow) dst -> fst out = Raise TrimFailed)).
  { intros Hno. rewrite Hout.
    destruct (attempt_ok_b (fst fast) (snd fast) dst);
      [exfalso; apply Hno, H1; reflexivity|].
    destruct (attempt_ok_b (fst slow) (snd slow) dst); cbn [fst snd];
      (split; [reflexivity|]); split; intros H.
    - reflexivity.
    - exfalso. apply H, H2. reflexivity.
    - apply H2 in H. discriminate.
    - reflexivity. }
  split; [|split].
  - intros Hok. apply H1 in Hok. rewrite Hout, Hok. reflexivity.
  - exact Hsecond.
  - intros Hrc (nd & Hnd & Hsz).
    destruct Hsecond as (-> & _).
    { intros (_ & nd' & Hnd' & Hpos). assert (nd' = nd) by congruence. subst. lia. }
    cbn [trace]. unfold subprocess_calls. rewrite omap_app. reflexivity.
Qed.

(** C9 (amended). A trim first looks for ffmpeg on the search path and,
    when it is missing, raises ToolMissing with the world untouched.  With
    the tool, every subprocess it runs gets the overwrite flag, "-ss start"
    exactly when a start is given, the input, and "-t end-start" exactly
    when both bounds are given and end > start (line 107), before the codec
    flags and the output. *)
Theorem trim_argument_prefix (src dst : string) (start_s end_s : option float)
    (w : world) :
  let out := _trim_video_with_ffmpeg C src dst start_s end_s w in
  (_ffmpeg_path C = None \/ _ffmpeg_path C = Some EmptyString ->
   out = (Raise ToolMissing, w)) /\
  (forall ffmpeg, _ffmpeg_path C = Some ffmpeg -> ffmpeg <> EmptyString ->
   let prefix :=
     [ffmpeg; "-y"]
     ++ match start_s with
        | Some s => ["-ss"; Py.format_f 3 s]
        | None => []
        end
     ++ ["-i"; src]
     ++ match start_s, end_s with
        | Some s, Some e =>
            if PrimFloat.ltb s e
            then ["-t"; Py.format_f 3 (PrimFloat.sub e s)]
            else []
        | _, _ => []
        end in
   let copy := prefix ++ ["-c"; "copy"; dst] in
   let reencode :=
     prefix ++ ["-c:v"; "libx264"; "-preset"; "fast"; "-crf"; "23";
                "-c:a"; "aac"; "-b:a"; "192k"; dst] in
   subprocess_calls (trace (snd out)) = subprocess_calls (trace w) ++ [copy] \/
   subprocess_calls (trace (snd out))
     = subprocess_calls (trace w) ++ [copy; reencode]).
Proof.
  intros out. split.
  - intros H. apply trim_without_tool, H.
  - intros ffmpeg Hff Hne prefix copy reencode.
    assert (Hargs : trim_args ffmpeg src start_s end_s = prefix).
    { unfold trim_args, trim_duration, prefix.
      destruct start_s as [s|], end_s as [e|]; try reflexivity.
      destruct (PrimFloat.ltb s e); reflexivity. }
    subst out. rewrite (trim_outcome src dst ffmpeg start_s end_s w Hff Hne).
    cbv zeta. rewrite Hargs. fold copy reencode.
    unfold fast_args, slow_args. fold copy reencode.
    unfold subprocess_calls.
    destruct (attempt_ok_b _ _ _); [left|right; destruct (attempt_ok_b _ _ _)];
      cbn [snd trace]; rewrite omap_app; reflexivity.
Qed.

End Trimmer.

Lemma trim_fallback_witness :
  _ffmpeg_path Demo.collab = Some "/usr/bin/ffmpeg" /\
  "/usr/bin/ffmpeg" <> EmptyString /\
  fst (_trim_video_with_ffmpeg Demo.collab "/videos/talk.mp4" "/videos/clip.mp4"
         None None Demo.world0) = Ok tt /\
  subprocess_calls
    (trace (snd (_trim_video_with_ffmpeg Demo.collab "/videos/talk.mp4"
                   "/videos/clip.mp4" None None Demo.world0))) =
    [ ["/usr/bin/ffmpeg"; "-y"; "-i"; "/videos/talk.mp4";
       "-c"; "copy"; "/videos/clip.mp4"];
      ["/usr/bin/ffmpeg"; "-y"; "-i"; "/videos/talk.mp4";
       "-c:v"; "libx264"; "-preset"; "fast"; "-crf"; "23";
       "-c:a"; "aac"; "-b:a"; "192k"; "/videos/clip.mp4"] ].
Proof.
  split; [reflexivity|]. split; [discriminate|].
  destruct (trim_fallback Demo.collab "/videos/talk.mp4" "/videos/clip.mp4"
              "/usr/bin/ffmpeg" None None Demo.world0 eq_refl
              ltac:(discriminate)) as (_ & H2 & H3).
  split.
  - apply H2.
    + intros (_ & nd & Hnd & Hpos). vm_compute in Hnd.
      injection Hnd as <-. vm_compute in Hpos. discriminate.
    + split; [reflexivity|]. exists (Node false 4096).
      split; vm_compute; reflexivity.
  - apply H3; [reflexivity|]. exists (Node false 0).
    split; vm_compute; reflexivity.
Defined.

Lemma trim_argument_prefix_witness :
  _ffmpeg_path Demo.collab_no_tool = None /\
  _trim_video_with_ffmpeg Demo.collab_no_tool "/videos/talk.mp4"
    "/videos/clip.mp4" (Some half) None Demo.world0
    = (Raise ToolMissing, Demo.world0) /\
  _ffmpeg_path Demo.collab = Some "/usr/bin/ffmpeg" /\
  subprocess_calls
    (trace (snd (_trim_video_with_ffmpeg Demo.collab "/videos/talk.mp4"
                   "/videos/clip.mp4" (Some half) None Demo.world0))) =
    [ ["/usr/bin/ffmpeg"; "-y"; "-ss"; "0.500"; "-i"; "/videos/talk.mp4";
       "-c"; "copy"; "/videos/clip.mp4"];
      ["/usr/bin/ffmpeg"; "-y"; "-ss"; "0.500"; "-i"; "/videos/talk.mp4";
       "-c:v"; "libx264"; "-preset"; "fast"; "-crf"; "23";
       "-c:a"; "aac"; "-b:a"; "192k"; "/videos/clip.mp4"] ].
Proof.
  split; [reflexivity|]. split.
  { apply (proj1 (trim_argument_prefix Demo.collab_no_tool "/videos/talk.mp4"
                    "/videos/clip.mp4" (Some half) None Demo.world0)).
    left. reflexivity. }
  split; [reflexivity|].
  destruct (proj2 (trim_argument_prefix Demo.collab "/videos/talk.mp4"
                     "/videos/clip.mp4" (Some half) None Demo.world0)
              "/usr/bin/ffmpeg" eq_refl ltac:(discriminate)) as [H|H].
  - vm_compute in H. discriminate.
  - vm_compute. reflexivity.
Defined.

(** C9 as stated fails: line 107 asks for end > start besides the two
    bounds.  The texts "nan" and "5" parse to two bounds that pass the range
    check of the worker (5 <= nan is false), the trimmer runs, and neither
    of its subprocesses gets a duration. *)
Lemma duration_flag_counterexample :
  exists s e,
    _parse_time_to_seconds "nan" = Ok (Some s) /\
    _parse_time_to_seconds "5" = Ok (Some e) /\
    subprocess_calls
      (trace (snd (work Demo.collab (Demo.with_times "nan" "5")
                     "/videos/talk.mp4" Demo.world0))) =
      [ fast_args (trim_args "/usr/bin/ffmpeg" "/videos/talk.mp4" (Some s) (Some e))
          "/videos/video2pdf_segments/talk.clip.mp4";
        slow_args (trim_args "/usr/bin/ffmpeg" "/videos/talk.mp4" (Some s) (Some e))
          "/videos/video2pdf_segments/talk.clip.mp4" ] /\
    trim_args "/usr/bin/ffmpeg" "/videos/talk.mp4" (Some s) (Some e) =
      ["/usr/bin/ffmpeg"; "-y"; "-ss"; "nan"; "-i"; "/videos/talk.mp4"].
Proof.
  exists PrimFloat.nan, (Py.of_decimal false 5 0).
  repeat split; vm_compute; reflexivity.
Qed.

(** ** Events a piece of code does not add *)

Section Unseen.

Context {X A B : Type} (sel : event -> option X).

Lemma unseen_ret (a : A) : unseen sel (ret a : M A).
Proof. intros w. reflexivity. Qed.

Lemma unseen_raise (e : exn) : unseen sel (raise e : M A).
Proof. intros w. reflexivity. Qed.

Lemma unseen_lift (r : result A) : unseen sel (lift r).
Proof. intros w. reflexivity. Qed.

Lemma unseen_bind (m : M A) (k : A -> M B) :
  unseen sel m -> (forall a, unseen sel (k a)) -> unseen sel (x <- m ;; k x).
Proof.
  intros Hm Hk w. rewrite bind_M. specialize (Hm w).
  destruct (m w) as [[a|e] w']; cbn [snd] in *; [|exact Hm].
  rewrite (Hk a w'). exact Hm.
Qed.

Lemma unseen_try_except (m : M A) (h : exn -> M A) :
  unseen sel m -> (forall e, unseen sel (h e)) -> unseen sel (try_except m h).
Proof.
  intros Hm Hh w. unfold try_except. specialize (Hm w).
  destruct (m w) as [[a|e] w']; cbn [snd] in *; [exact Hm|].
  rewrite (Hh e w'). exact Hm.
Qed.

Lemma unseen_if (b : bool) (m1 m2 : M A) :
  unseen sel m1 -> unseen sel m2 -> unseen sel (if b then m1 else m2).
Proof. destruct b; auto. Qed.

Lemma unseen_emit (e : event) : sel e = None -> unseen sel (emit e).
Proof.
  intros He w. unfold emit. cbn [snd trace].
  rewrite omap_app.
  replace (omap sel [e]) with (@nil X); [apply app_nil_r|].
  simpl. rewrite He. reflexivity.
Qed.

(** After code that adds nothing, the events picked are those of what ran
    before. *)
Lemma unseen_then (m : M A) (k : A -> M B) (w : world) :
  (forall a, unseen sel (k a)) ->
  omap sel (trace (snd ((x <- m ;; k x) w))) = omap sel (trace (snd (m w))).
Proof.
  intros Hk. rewrite bind_M.
  destruct (m w) as [[a|e] w']; cbn [snd]; [apply Hk|reflexivity].
Qed.

Lemma unseen_get_fs : unseen sel get_fs.
Proof. intros w. reflexivity. Qed.

Lemma unseen_put_fs f : unseen sel (put_fs f).
Proof. intros w. reflexivity. Qed.

End Unseen.

Lemma unseen_for_each {X A} (sel : event -> option X) (f : A -> M unit)
    (l : list A) :
  (forall x, unseen sel (f x)) -> unseen sel (for_each f l).
Proof.
  intros Hf. induction l as [|x l IH]; cbn [for_each].
  - intros w. reflexivity.
  - apply unseen_bind; [apply Hf|intros _; exact IH].
Qed.

Create HintDb unseen discriminated.
#[local] Hint Resolve unseen_ret unseen_raise unseen_lift unseen_get_fs
  unseen_put_fs unseen_if : unseen.
#[local] Hint Extern 1 (unseen _ (emit _)) =>
  apply unseen_emit; reflexivity : unseen.
#[local] Hint Extern 2 (unseen _ (bind _ _)) =>
  apply unseen_bind; [|intros] : unseen.
#[local] Hint Extern 2 (unseen _ (try_except _ _)) =>
  apply unseen_try_except; [|intros] : unseen.
#[local] Hint Extern 3 (unseen _ (match ?x with _ => _ end)) =>
  destruct x : unseen.

Ltac unseen := auto 30 with unseen.

Lemma unseen_path_exists {X} (sel : event -> option X) p :
  unseen sel (path_exists p).
Proof. unfold path_exists. unseen. Qed.

#[local] Hint Resolve unseen_path_exists : unseen.

(** The progress hook of the worker only writes to the log. *)
Lemma unseen_on_progress {X} (sel : event -> option X) (d : pyval) :
  (forall chunk, sel (EvLog chunk) = None) -> unseen sel (on_progress d).
Proof.
  intros Hlog. unfold on_progress.
  apply unseen_try_except; [|intros; apply unseen_ret].
  destruct d; try apply unseen_raise.
  repeat first
    [ apply unseen_ret
    | apply unseen_lift
    | apply unseen_emit, Hlog
    | apply unseen_bind; [|intros]
    | match goal with |- unseen _ (if ?b then _ else _) => destruct b end ].
Qed.

(** What the engine adds besides its own event is what the hook adds. *)
Lemma unseen_after_download {X} (sel : event -> option X) (C : collaborators)
    (opts : ydl_opts) (url : string) (hook : pyval -> M unit) (w : world) :
  (forall d, unseen sel (hook d)) ->
  omap sel (trace (snd (ydl_extract_info C opts url hook w)))
    = omap sel (trace w ++ [EvDownload url opts]).
Proof.
  intros Hhook. unfold ydl_extract_info.
  rewrite unseen_then; [reflexivity|].
  intros []. apply unseen_bind; [apply unseen_get_fs|]. intros f.
  destruct (extract_info C opts url f) as [[r ticks] f'].
  apply unseen_bind; [apply unseen_for_each, Hhook|]. intros [].
  apply unseen_bind; [apply unseen_put_fs|]. intros []. apply unseen_lift.
Qed.

(** *** Stages that start no subprocess *)

Section NoSubprocess.

Variable C : collaborators.

Lemma no_subprocess_path_mkdir p : unseen sel_subprocess (path_mkdir p).
Proof. unfold path_mkdir. unseen. Qed.

Lemma no_subprocess_hook d :
  unseen sel_subprocess (_hook (Some on_progress) d).
Proof. apply unseen_on_progress. reflexivity. Qed.

Lemma no_subprocess_ydl_extract_info opts url hook :
  (forall d, unseen sel_subprocess (hook d)) ->
  unseen sel_subprocess (ydl_extract_info C opts url hook).
Proof.
  intros Hhook w. rewrite unseen_after_download by exact Hhook.
  rewrite omap_app. apply app_nil_r.
Qed.

Lemma no_subprocess_call_extract a : unseen sel_subprocess (call_extract C a).
Proof.
  intros w. unfold call_extract.
  destruct (extract_frames_to_pdf C a (fs w)) as [r f]. cbn [snd trace].
  rewrite omap_app. apply app_nil_r.
Qed.

#[local] Hint Resolve no_subprocess_path_mkdir no_subprocess_call_extract
  : unseen.

Lemma no_subprocess_download_video url dir cookies quality proxy playlist subs loc :
  unseen sel_subprocess
    (download_video C url dir cookies quality proxy playlist subs loc
       (Some on_progress)).
Proof.
  unfold download_video.
  apply unseen_bind; [apply no_subprocess_path_mkdir|]. intros [].
  apply unseen_bind; [|intros; apply unseen_lift].
  apply no_subprocess_ydl_extract_info, no_subprocess_hook.
Qed.

#[local] Hint Resolve no_subprocess_download_video : unseen.

Lemma no_subprocess_resolve_source self input_path :
  unseen sel_subprocess (resolve_source C self input_path).
Proof. unfold resolve_source. unseen. Qed.

Lemma no_subprocess_probe_resolution p :
  unseen sel_subprocess (probe_resolution C p).
Proof. unfold probe_resolution, probe_body, open_capture. unseen. Qed.

Lemma no_subprocess_manual_select self p :
  unseen sel_subprocess (manual_select C self p).
Proof. unfold manual_select, select_body, open_capture. unseen. Qed.

#[local] Hint Resolve no_subprocess_manual_select : unseen.

Lemma no_subprocess_extract_stage self p :
  unseen sel_subprocess (extract_stage C self p).
Proof. unfold extract_stage. unseen. Qed.

End NoSubprocess.

(** ** The range check of the worker *)

Section RangeCheck.

Variable C : collaborators.

Lemma parse_bounds_eq (self : App) (w : world) :
  parse_bounds self w =
    match _parse_time_to_seconds (strings self start_time_var) with
    | Ok start_s =>
        match _parse_time_to_seconds (strings self end_time_var) with
        | Ok end_s => (Ok (start_s, end_s), w)
        | Raise e =>
            (Raise (Exn RuntimeError ("结束时间格式错误: " +:+ exn_msg e)), w)
        end
    | Raise e =>
        (Raise (Exn RuntimeError ("开始时间格式错误: " +:+ exn_msg e)), w)
    end.
Proof.
  unfold parse_bounds. rewrite bind_M. unfold try_except at 1, lift at 1.
  destruct (_parse_time_to_seconds (strings self start_time_var)); [|reflexivity].
  rewrite bind_M. unfold try_except, lift.
  destruct (_parse_time_to_seconds (strings self end_time_var)); reflexivity.
Qed.

Lemma trim_stage_no_bounds (input_p : string) (w : world) :
  trim_stage C input_p None None w = (Ok input_p, w).
Proof. reflexivity. Qed.

Lemma trim_stage_rejected (input_p : string) (start_s end_s : option float)
    (w : world) :
  range_rejected start_s end_s = true ->
  trim_stage C input_p start_s end_s w = (Raise InvalidRange, w).
Proof.
  intros H. unfold trim_stage.
  destruct start_s, end_s; try discriminate. cbn [is_some orb].
  rewrite bind_M. rewrite H. reflexivity.
Qed.

Lemma work_body_eq (self : App) (input_path : string) (w : world) :
  work_body C self input_path w =
    match resolve_source C self input_path w with
    | (Ok input_p, w1) =>
        match parse_bounds self w1 with
        | (Ok bounds, w2) =>
            match trim_stage C input_p (fst bounds) (snd bounds) w2 with
            | (Ok clip_p, w3) =>
                (_ <- probe_resolution C clip_p ;; extract_stage C self clip_p) w3
            | (Raise e, w3) => (Raise e, w3)
            end
        | (Raise e, w2) => (Raise e, w2)
        end
    | (Raise e, w1) => (Raise e, w1)
    end.
Proof.
  unfold work_body. rewrite bind_M.
  destruct (resolve_source C self input_path w) as [[p|e] w1]; [|reflexivity].
  rewrite bind_M. destruct (parse_bounds self w1) as [[b|e] w2]; [|reflexivity].
  rewrite bind_M. reflexivity.
Qed.

Lemma no_subprocess_after_trim (self : App) (clip_p : string) :
  unseen sel_subprocess
    (_ <- probe_resolution C clip_p ;; extract_stage C self clip_p).
Proof.
  apply unseen_bind; [apply no_subprocess_probe_resolution|].
  intros _. apply no_subprocess_extract_stage.
Qed.

(** C2. With both time bounds parsed and end <= start, the worker raises
    InvalidRange right after the source is resolved: the world is the one
    source resolution left, so the trimmer is not entered and no subprocess
    is run.  Conversely a run that starts a subprocess had its bounds
    parsed, one of them at least present, and not both present with
    end <= start. *)
Theorem invalid_range_rejected (self : App) (input_path : string) (w : world) :
  (forall s e,
     _parse_time_to_seconds (strings self start_time_var) = Ok (Some s) ->
     _parse_time_to_seconds (strings self end_time_var) = Ok (Some e) ->
     PrimFloat.leb e s = true ->
     snd (work_body C self input_path w)
       = snd (resolve_source C self input_path w) /\
     (is_ok (fst (resolve_source C self input_path w)) = true ->
      fst (work_body C self input_path w) = Raise InvalidRange) /\
     subprocess_calls (trace (snd (work_body C self input_path w)))
       = subprocess_calls (trace w)) /\
  (subprocess_calls (trace (snd (work_body C self input_path w)))
     <> subprocess_calls (trace w) ->
   exists start_s end_s,
     _parse_time_to_seconds (strings self start_time_var) = Ok start_s /\
     _parse_time_to_seconds (strings self end_time_var) = Ok end_s /\
     (start_s <> None \/ end_s <> None) /\
     (start_s = None \/ end_s = None \/
      exists s e, start_s = Some s /\ end_s = Some e /\ PrimFloat.leb e s = false)).
Proof.
  pose proof (no_subprocess_resolve_source C self input_path w) as Hq.
  fold (subprocess_calls (trace (snd (resolve_source C self input_path w)))) in Hq.
  fold (subprocess_calls (trace w)) in Hq.
  rewrite work_body_eq.
  destruct (resolve_source C self input_path w) as [[p|e0] w1]; cbn [snd fst] in *.
  - rewrite parse_bounds_eq. split.
    + intros s e Hs He Hle. rewrite Hs, He. cbn [fst snd].
      rewrite trim_stage_rejected by exact Hle. cbn [fst snd]. auto.
    + intros Hcalls.
      destruct (_parse_time_to_seconds (strings self start_time_var))
        as [start_s|]; [|cbn [snd] in Hcalls; contradiction].
      destruct (_parse_time_to_seconds (strings self end_time_var))
        as [end_s|]; [|cbn [snd] in Hcalls; contradiction].
      cbn [fst snd] in Hcalls. exists start_s, end_s.
      split; [reflexivity|]. split; [reflexivity|].
      destruct (range_rejected start_s end_s) eqn:Hr.
      { rewrite trim_stage_rejected in Hcalls by exact Hr. contradiction. }
      destruct start_s as [s|], end_s as [e|].
      * split; [left; discriminate|]. right. right. exists s, e. auto.
      * split; [left; discriminate|]. right. left. reflexivity.
      * split; [right; discriminate|]. left. reflexivity.
      * rewrite trim_stage_no_bounds in Hcalls.
        unfold subprocess_calls in Hcalls.
        rewrite (no_subprocess_after_trim self p w1) in Hcalls. contradiction.
  - split; [|intros H; contradiction].
    intros s e _ _ _. split; [reflexivity|]. split; [discriminate|exact Hq].
Qed.

End RangeCheck.

Lemma invalid_range_rejected_witness :
  _parse_time_to_seconds "90" = Ok (Some 90%float) /\
  _parse_time_to_seconds "01:30" = Ok (Some 90%float) /\
  PrimFloat.leb 90 90 = true /\
  work_body Demo.collab (Demo.with_times "90" "01:30") "/videos/talk.mp4"
    Demo.world0 = (Raise InvalidRange, Demo.world0).
Proof.
  split; [vm_compute; reflexivity|].
  split; [vm_compute; reflexivity|].
  split; [reflexivity|].
  destruct (proj1 (invalid_range_rejected Demo.collab
                     (Demo.with_times "90" "01:30") "/videos/talk.mp4"
                     Demo.world0) 90%float 90%float)
    as (Hw & Hr & _); [vm_compute; reflexivity ..|].
  rewrite (surjective_pairing (work_body _ _ _ _)), Hw, Hr; reflexivity.
Defined.

(** ** Local file or remote source *)

Section SourceKind.

Variable C : collaborators.

Lemma append_cons (a : ascii) (p r : string) :
  String a p +:+ r = String a (p +:+ r).
Proof. reflexivity. Qed.

Lemma startswith_iff (s p : string) :
  Py.startswith s p = true <-> exists r, s = p +:+ r.
Proof.
  unfold Py.startswith. revert s.
  induction p as [|a p IH]; intros s; simpl.
  - split; [intros _; exists s; reflexivity|].
    destruct s; reflexivity.
  - destruct s as [|b s]; simpl.
    + split; [discriminate|]. intros [r H]. discriminate.
    + destruct (Ascii.ascii_dec a b) as [->|Hne].
      * rewrite IH. split; intros [r H]; exists r;
          rewrite append_cons in *; congruence.
      * split; [discriminate|]. intros [r H].
        rewrite append_cons in H. congruence.
Qed.

(** C10. The input is taken for a remote source exactly when its lower-cased
    text starts with "http://" or "https://".  Any other input is the local
    path as it stands: source resolution returns it and leaves the world as
    it was (no directory made, no download).  A remote input is announced
    and handed to [download_video], whose result is the path. *)
Theorem remote_iff_http_prefix (self : App) (input_path : string) (w : world) :
  (is_url input_path = true <->
     (exists r, Py.lower input_path = "http://" +:+ r) \/
     (exists r, Py.lower input_path = "https://" +:+ r)) /\
  (is_url input_path = false ->
     resolve_source C self input_path w = (Ok input_path, w)) /\
  (is_url input_path = true ->
     exists dl_dir,
       resolve_source C self input_path w =
         (_ <- emit (EvPrint ("检测到网址输入，开始下载到: " +:+ dl_dir)) ;;
          p <- download_video C input_path dl_dir None "best" None
                 false false None (Some on_progress) ;;
          _ <- emit (EvPrint ("已下载: " +:+ p)) ;;
          ret p) w) /\
  is_url "ftp://example.com/talk.mp4" = false /\
  is_url "example.com/talk" = false /\
  is_url "HTTPS://Example.com/talk" = true.
Proof.
  split; [|split; [|split; [|split; [|split]]]].
  - unfold is_url. rewrite orb_true_iff, !startswith_iff. reflexivity.
  - intros H. unfold resolve_source. rewrite H. reflexivity.
  - intros H. unfold resolve_source. rewrite H. eexists. reflexivity.
  - reflexivity.
  - reflexivity.
  - reflexivity.
Qed.

End SourceKind.

Lemma remote_iff_http_prefix_witness :
  is_url "/videos/talk.mp4" = false /\
  resolve_source Demo.collab initial_app "/videos/talk.mp4" Demo.world0
    = (Ok "/videos/talk.mp4", Demo.world0).
Proof.
  split; [reflexivity|].
  apply (proj1 (proj2 (remote_iff_http_prefix Demo.collab initial_app
                         "/videos/talk.mp4" Demo.world0))).
  reflexivity.
Defined.

(** ** The quality tier and the format query *)

Section Quality.

Lemma length_append (s t : string) :
  String.length (s +:+ t) = (String.length s + String.length t)%nat.
Proof. induction s as [|a s IH]; simpl; [reflexivity|]. rewrite IH. reflexivity. Qed.

Lemma substring_last (pre : string) (c : ascii) :
  String.substring (String.length pre) 1 (pre +:+ String c EmptyString)
    = String c EmptyString.
Proof. induction pre as [|a pre IH]; simpl; [reflexivity|exact IH]. Qed.

Lemma substring_init (pre : string) (c : ascii) :
  String.substring 0 (String.length pre) (pre +:+ String c EmptyString) = pre.
Proof.
  induction pre as [|a pre IH]; simpl; [reflexivity|]. rewrite IH. reflexivity.
Qed.

Lemma string_snoc (s : string) :
  s = EmptyString \/ exists pre c, s = pre +:+ String c EmptyString.
Proof.
  induction s as [|a s IH]; [left; reflexivity|right].
  destruct IH as [->|(pre & c & ->)].
  - exists EmptyString, a. reflexivity.
  - exists (String a pre), c. reflexivity.
Qed.

Lemma endswith_snoc (pre : string) (c : ascii) :
  Py.endswith (pre +:+ String c EmptyString) "p" = Ascii.eqb c "p".
Proof.
  unfold Py.endswith. rewrite length_append. simpl String.length.
  replace (String.length pre + 1 - 1)%nat with (String.length pre) by lia.
  rewrite substring_last.
  replace (1 <=? String.length pre + 1)%nat with true
    by (symmetry; apply Nat.leb_le; lia).
  simpl. destruct (Ascii.eqb c "p"); reflexivity.
Qed.

Lemma drop_last_snoc (pre : string) (c : ascii) :
  Py.drop_last (pre +:+ String c EmptyString) = pre.
Proof.
  unfold Py.drop_last. rewrite length_append. simpl String.length.
  replace (String.length pre + 1 - 1)%nat with (String.length pre) by lia.
  apply substring_init.
Qed.

Lemma snoc_not_empty (pre : string) (c : ascii) :
  String.eqb (pre +:+ String c EmptyString) EmptyString = false.
Proof. destruct pre; reflexivity. Qed.

Lemma endswith_p_inv (q : string) :
  Py.endswith q "p" = true -> q = Py.drop_last q +:+ "p".
Proof.
  destruct (string_snoc q) as [->|(pre & c & ->)]; [discriminate|].
  rewrite endswith_snoc, drop_last_snoc. intros H.
  apply Ascii.eqb_eq in H. subst c. reflexivity.
Qed.

Lemma isdigit_char_plain (c : ascii) :
  Py.isdigit_char c = true ->
  Py.to_ascii_space c = c /\ Py.isspace_c c = false /\
  c <> "-"%char /\ c <> "+"%char.
Proof.
  destruct c as [[] [] [] [] [] [] [] []]; vm_compute;
    intros H; try discriminate H; repeat split; discriminate.
Qed.

Lemma digit_val_nonneg (c : ascii) :
  Py.isdecimal_char c = true -> 0 <= Py.digit_val c.
Proof.
  unfold Py.isdecimal_char, Py.between, Py.digit_val.
  intros H. apply andb_true_iff in H as [H _]. apply Z.leb_le in H. lia.
Qed.

Lemma read_digits_nonneg (s : string) :
  forall n acc, 0 <= acc -> 0 <= snd (fst (Py.read_digits s n acc)).
Proof.
  induction s as [|a s IH]; intros n acc Hacc; simpl; [exact Hacc|].
  destruct (Py.isdecimal_char a) eqn:Ea; [|exact Hacc].
  apply IH. pose proof (digit_val_nonneg a Ea). lia.
Qed.

(** A text of digits never reads as a negative number. *)
Lemma int_of_digits_nonneg (pre : string) (h : Z) :
  Py.isdigit pre = true -> Py.int_of_str pre = Some h -> 0 <= h.
Proof.
  unfold Py.isdigit. intros Hd. apply andb_true_iff in Hd as [Hne Hall].
  destruct pre as [|c0 rest]; [discriminate|].
  simpl in Hall. apply andb_true_iff in Hall as [Hc0 _].
  destruct (isdigit_char_plain c0 Hc0) as (Hsp & Hws & Hminus & Hplus).
  unfold Py.int_of_str. cbn [Py.map_string]. rewrite Hsp.
  cbn [Py.lstrip_with]. rewrite Hws.
  assert (Hsign : forall r, Py.read_sign (String c0 r) = (false, String c0 r)).
  { intros r. unfold Py.read_sign.
    destruct c0 as [[] [] [] [] [] [] [] []]; try reflexivity; congruence. }
  rewrite Hsign.
  destruct (Py.isdecimal_char c0); [|discriminate].
  destruct (Py.drop_underscores _ _) as [d|]; [|discriminate].
  pose proof (read_digits_nonneg d 0%nat 0 (Z.le_refl 0)) as Hv.
  destruct (Py.read_digits d 0 0) as [[n v] r]. cbn [fst snd] in Hv.
  destruct (_ && _); [|discriminate].
  intros [= <-]. exact Hv.
Qed.

(** C4. A quality tier "<H>p" whose prefix is all digits and reads as a
    positive integer H gives the query with the height bound H on the
    video-only branch and on the combined branch; every other tier ("best"
    among them) gives the unbounded query; and the query is the one the
    download engine is handed. *)
Theorem format_selector_spec (quality : string) :
  (forall pre H,
     quality = pre +:+ "p" -> Py.isdigit pre = true ->
     Py.int_of_str pre = Some H -> 0 < H ->
     format_selector quality =
       "bv*[height<=?" +:+ Py.str_of_int H +:+ "]+ba/b[height<=?"
       +:+ Py.str_of_int H +:+ "]") /\
  ((forall pre H,
      quality = pre +:+ "p" -> Py.isdigit pre = true ->
      Py.int_of_str pre = Some H -> ~ 0 < H) ->
   format_selector quality = "bv*+ba/b") /\
  format_selector "best" = "bv*+ba/b" /\
  (forall C url dir cookies proxy playlist subs loc w,
     fst (path_mkdir dir w) = Ok tt ->
     format_queries
       (trace (snd (download_video C url dir cookies quality proxy
                      playlist subs loc (Some on_progress) w)))
       = format_queries (trace w) ++ [format_selector quality]).
Proof.
  split; [|split; [|split]].
  - intros pre H -> Hd Hi Hpos.
    unfold format_selector, max_height_of.
    change (pre +:+ "p") with (pre +:+ String "p" EmptyString).
    rewrite snoc_not_empty, endswith_snoc, drop_last_snoc, Hd, Hi.
    rewrite Ascii.eqb_refl. cbn [andb negb].
    unfold int_truthy. destruct (Z.eqb_spec H 0); [lia|reflexivity].
  - intros Hnone. unfold format_selector, max_height_of.
    destruct (negb (String.eqb quality EmptyString)); [|reflexivity].
    destruct (Py.endswith quality "p") eqn:He; [|reflexivity].
    destruct (Py.isdigit (Py.drop_last quality)) eqn:Hd; [|reflexivity].
    cbn [andb].
    destruct (Py.int_of_str (Py.drop_last quality)) as [h|] eqn:Hi; [|reflexivity].
    unfold int_truthy. destruct (Z.eqb_spec h 0) as [|Hnz]; [reflexivity|].
    exfalso. apply (Hnone (Py.drop_last quality) h (endswith_p_inv _ He) Hd Hi).
    pose proof (int_of_digits_nonneg _ _ Hd Hi). lia.
  - reflexivity.
  - intros C url dir cookies proxy playlist subs loc w Hmk.
    unfold download_video, format_queries. rewrite bind_M.
    assert (Hq : omap sel_format (trace (snd (path_mkdir dir w)))
                 = omap sel_format (trace w)).
    { assert (Hu : unseen sel_format (path_mkdir dir))
        by (unfold path_mkdir; unseen).
      apply Hu. }
    destruct (path_mkdir dir w) as [[[]|e] w1]; [|discriminate].
    cbn [snd] in Hq.
    rewrite unseen_then by (intros; apply unseen_lift).
    rewrite unseen_after_download
      by (intros d; apply unseen_on_progress; reflexivity).
    rewrite omap_app, Hq. reflexivity.
Qed.

End Quality.

Lemma format_selector_spec_witness :
  Py.isdigit "720" = true /\ Py.int_of_str "720" = Some 720 /\
  format_selector "720p" = "bv*[height<=?720]+ba/b[height<=?720]" /\
  format_selector "0p" = "bv*+ba/b".
Proof.
  split; [reflexivity|]. split; [reflexivity|]. split.
  - apply (proj1 (format_selector_spec "720p") "720" 720);
      [reflexivity | reflexivity | reflexivity | lia].
  - apply (proj1 (proj2 (format_selector_spec "0p"))).
    intros pre H Hq Hd Hi.
    change "0p" with ("0" +:+ String "p" EmptyString) in Hq.
    change (pre +:+ "p") with (pre +:+ String "p" EmptyString) in Hq.
    apply (f_equal Py.drop_last) in Hq. rewrite !drop_last_snoc in Hq.
    subst pre. vm_compute in Hi. injection Hi as <-. lia.
Defined.

(** ** The path of the downloaded file *)

Section ResolvePath.

Variable prepare : pyval -> result string.

Lemma has_requested_downloads_false (v : pyval) :
  has_requested_downloads v = false <->
  match v with
  | PDict e =>
      e !! "requested_downloads" = None \/
      exists x, e !! "requested_downloads" = Some x /\ truthy x = false
  | _ => True
  end.
Proof.
  destruct v as [| | | | | |e]; simpl; try tauto.
  unfold dict_get. destruct (e !! "requested_downloads") as [x|]; simpl.
  - split; [intros H; right; eauto|].
    intros [H|(y & [= <-] & H)]; [discriminate|exact H].
  - split; [intros _; left; reflexivity|reflexivity].
Qed.

Lemma resolve_path_not_dict (info : pyval) :
  is_dict info = false -> resolve_path prepare info = Raise no_metadata.
Proof. intros H. destruct info; try reflexivity. discriminate. Qed.

Lemma resolve_path_first_entry (d : gmap string pyval) (entry : pyval)
    (rest : list pyval) :
  d !! "entries" = Some (PList (entry :: rest)) ->
  resolve_path prepare (PDict d) =
    if has_requested_downloads entry then requested_filepath entry
    else prepare entry.
Proof.
  intros H. unfold resolve_path, dict_get. rewrite H.
  rewrite bool_decide_eq_true_2 by eauto. simpl. rewrite H. reflexivity.
Qed.

Lemma resolve_path_single (d : gmap string pyval) :
  d !! "entries" = None \/ d !! "entries" = Some (PList []) ->
  resolve_path prepare (PDict d) =
    if has_requested_downloads (PDict d) then requested_filepath (PDict d)
    else prepare (PDict d).
Proof.
  intros [H|H]; unfold resolve_path; unfold dict_get at 1; rewrite H;
    cbn [default truthy]; rewrite andb_false_r; reflexivity.
Qed.

Lemma requested_filepath_record (e record : gmap string pyval)
    (more : list pyval) (fp : string) :
  e !! "requested_downloads" = Some (PList (PDict record :: more)) ->
  record !! "filepath" = Some (PStr fp) ->
  has_requested_downloads (PDict e) = true /\
  requested_filepath (PDict e) = Ok fp.
Proof.
  intros He Hr. split.
  - simpl. unfold dict_get. rewrite He. reflexivity.
  - unfold requested_filepath. simpl. rewrite He. simpl. rewrite Hr.
    reflexivity.
Qed.

End ResolvePath.

(** ** Probe and region selection never stop the run *)

Section Degrade.

Variable C : collaborators.

Lemma open_capture_eq (p : string) (w : world) :
  open_capture C p w =
    (VideoCapture C p (fs w), World (fs w) (trace w ++ [EvCapture p])).
Proof. reflexivity. Qed.

Lemma lift_bind {A B} (r : result A) (k : A -> M B) (w : world) :
  (x <- lift r ;; k x) w =
    match r with
    | Ok a => k a w
    | Raise e => (Raise e, w)
    end.
Proof. rewrite bind_M. unfold lift. destruct r; reflexivity. Qed.

(** A probe that raises has only opened the capture. *)
Lemma probe_body_raise (p : string) (w w' : world) (e : exn) :
  probe_body C p w = (Raise e, w') ->
  w' = World (fs w) (trace w ++ [EvCapture p]).
Proof.
  unfold probe_body. rewrite bind_M, open_capture_eq.
  set (w1 := World (fs w) (trace w ++ [EvCapture p])).
  destruct (VideoCapture C p (fs w)) as [cap|e0]; [|intros [= _ <-]; reflexivity].
  rewrite lift_bind.
  destruct (cap_isOpened cap) as [[|]|e0];
    [| intros [=] | intros [= _ <-]; reflexivity].
  rewrite lift_bind.
  destruct (x <- cap_get cap CAP_PROP_FRAME_WIDTH ;; int_or_zero x)
    as [width|e0]; [|intros [= _ <-]; reflexivity].
  rewrite lift_bind.
  destruct (x <- cap_get cap CAP_PROP_FRAME_HEIGHT ;; int_or_zero x)
    as [height|e0]; [|intros [= _ <-]; reflexivity].
  rewrite bind_M.
  destruct (negb (int_truthy width) || negb (int_truthy height)).
  - rewrite lift_bind.
    destruct (cap_read cap) as [[[|] [frame0|]]|e0];
      cbn [ret Monad_M]; try (intros [= _ <-]; reflexivity);
      rewrite lift_bind;
      (destruct (cap_release cap) as [[]|e1]; [|intros [= _ <-]; reflexivity]);
      match goal with |- context [if ?b then _ else _] => destruct b end;
      intros [=].
  - cbn [ret Monad_M]. rewrite lift_bind.
    destruct (cap_release cap) as [[]|e1]; [|intros [= _ <-]; reflexivity].
    match goal with |- context [if ?b then _ else _] => destruct b end;
      intros [=].
Qed.

Lemma probe_resolution_ok (p : string) (w : world) :
  fst (probe_resolution C p w) = Ok tt.
Proof.
  unfold probe_resolution, try_except.
  destruct (probe_body C p w) as [[[]|e] w']; reflexivity.
Qed.

Lemma manual_select_ok (self : App) (p : string) (w : world) :
  is_ok (fst (manual_select C self p w)) = true.
Proof.
  unfold manual_select. destruct (booleans self manual_select_var); [|reflexivity].
  unfold try_except. destruct (select_body C p w) as [[crop|e] w']; reflexivity.
Qed.

Lemma no_extract_manual_select (self : App) (p : string) :
  unseen sel_extract (manual_select C self p).
Proof. unfold manual_select, select_body, open_capture. unseen. Qed.

(** What lines 411-413 and 423 make of the manual crop. *)
Lemma extraction_options_crop (self : App) (input_p output_pdf out_dir : string)
    (manual_crop : option (Z * Z * Z * Z)) (a : extract_args) :
  extraction_options C self input_p output_pdf out_dir manual_crop = Ok a ->
  video_path a = input_p /\
  auto_crop a = match manual_crop with
                | Some _ => false
                | None => booleans self auto_crop_var
                end /\
  exists explicit,
    parse_crop C (let c := Py.strip (strings self crop_var) in
                  if nonempty c then Some c else None) = Ok explicit /\
    crop_region a = match manual_crop with
                    | Some m => Some m
                    | None => explicit
                    end.
Proof.
  unfold extraction_options. cbn [bind ret Monad_result].
  repeat match goal with
         | |- context [match ?x with Ok _ => _ | Raise _ => _ end] =>
             destruct x eqn:?; [|discriminate]
         end.
  intros [= <-]. cbn [video_path auto_crop crop_region]. eauto.
Qed.

(** C7 (amended). The probe never raises: an exception in its body is
    swallowed and leaves a world where only the capture was opened (no
    resolution line in the log), and the run goes on with the extraction
    stage.  A requested manual selection never raises either: a rectangle
    of no area (the cancelled selection) and an exception while selecting
    both give no manual crop and a log line; the extractor is then called
    with the settings of the window, that is the crop of the x,y,w,h entry
    (none when the entry is empty) and auto-crop as its box says, whenever
    the numeric entries parse. *)
Theorem probe_and_selection_degrade (self : App) (input_p : string) (w : world) :
  fst (probe_resolution C input_p w) = Ok tt /\
  (forall e w', probe_body C input_p w = (Raise e, w') ->
     probe_resolution C input_p w
       = (Ok tt, World (fs w) (trace w ++ [EvCapture input_p]))) /\
  (_ <- probe_resolution C input_p ;; extract_stage C self input_p) w
    = extract_stage C self input_p (snd (probe_resolution C input_p w)) /\
  is_ok (fst (manual_select C self input_p w)) = true /\
  (forall cap0 frame x y rw rh,
     booleans self manual_select_var = true ->
     VideoCapture C input_p (fs w) = Ok cap0 ->
     cap_read cap0 = Ok (true, Some frame) ->
     cap_release cap0 = Ok tt ->
     selectROI C frame = Ok (x, y, rw, rh) ->
     destroyWindow C = Ok tt ->
     rw <= 0 \/ rh <= 0 ->
     manual_select C self input_p w =
       (Ok None,
        World (fs w)
          (trace w ++ [EvCapture input_p; EvLog select_prompt; EvSelectROI;
                       EvLog select_cancelled]))) /\
  (forall e w',
     booleans self manual_select_var = true ->
     select_body C input_p w = (Raise e, w') ->
     manual_select C self input_p w =
       (Ok None,
        World (fs w') (trace w' ++ [EvLog ("框选失败: " +:+ exn_msg e +:+ LF)]))) /\
  (forall w' a,
     manual_select C self input_p w = (Ok None, w') ->
     extraction_options C self input_p (chosen_output_pdf C self input_p)
       (chosen_out_dir C self input_p) None = Ok a ->
     extract_calls (trace (snd (extract_stage C self input_p w)))
       = extract_calls (trace w) ++ [a] /\
     auto_crop a = booleans self auto_crop_var /\
     parse_crop C (let c := Py.strip (strings self crop_var) in
                   if nonempty c then Some c else None) = Ok (crop_region a)).
Proof.
  split; [|split; [|split; [|split; [|split; [|split]]]]].
  - apply probe_resolution_ok.
  - intros e w' H. unfold probe_resolution, try_except. rewrite H.
    rewrite (probe_body_raise _ _ _ _ H). reflexivity.
  - rewrite bind_M. pose proof (probe_resolution_ok input_p w) as H.
    destruct (probe_resolution C input_p w) as [[[]|e] w']; [reflexivity|].
    discriminate H.
  - apply manual_select_ok.
  - intros cap0 frame x y rw rh Hflag Hcap Hread Hrel Hroi Hwin Harea.
    unfold manual_select. rewrite Hflag. unfold try_except, select_body.
    rewrite bind_M, open_capture_eq, Hcap.
    rewrite lift_bind, Hread, lift_bind, Hrel.
    rewrite bind_M. unfold emit at 1. rewrite bind_M. unfold emit at 1.
    rewrite lift_bind, Hroi, lift_bind, Hwin.
    replace ((0 <? rw) && (0 <? rh)) with false
      by (symmetry; apply andb_false_iff;
          destruct Harea; [left|right]; apply Z.ltb_ge; assumption).
    cbn [fs trace]. rewrite bind_M. unfold emit. cbn [ret Monad_M fs trace].
    rewrite <- !app_assoc. reflexivity.
  - intros e w' Hflag H. unfold manual_select. rewrite Hflag.
    unfold try_except. rewrite H. reflexivity.
  - intros w' a Hsel Hopts.
    destruct (extraction_options_crop _ _ _ _ _ _ Hopts)
      as (_ & Hauto & explicit & Hparse & Hcrop).
    split; [|split; [exact Hauto | rewrite Hcrop; exact Hparse]].
    pose proof (no_extract_manual_select self input_p w) as Hq.
    unfold extract_stage. rewrite bind_M, Hsel in *. cbn [snd] in Hq.
    rewrite lift_bind, Hopts, bind_M. unfold call_extract at 1.
    unfold extract_calls. rewrite <- Hq.
    destruct (extract_frames_to_pdf C a (fs w')) as [[[]|e] f];
      cbn [snd trace emit]; rewrite ?omap_app; cbn [omap]; simpl;
      rewrite ?app_nil_r; reflexivity.
Qed.

End Degrade.

Lemma probe_and_selection_degrade_witness :
  manual_select Demo.collab (set_boolean manual_select_var true initial_app)
    "/videos/talk.mp4" Demo.world0 =
    (Ok None,
     World Demo.files
       [EvCapture "/videos/talk.mp4"; EvLog select_prompt; EvSelectROI;
        EvLog select_cancelled]).
Proof.
  apply (proj1 (proj2 (proj2 (proj2 (proj2
           (probe_and_selection_degrade Demo.collab
              (set_boolean manual_select_var true initial_app)
              "/videos/talk.mp4" Demo.world0)))))
           Demo.capture_1080p (Frame 1080 1920) 0 0 0 0);
    try reflexivity.
  left. lia.
Defined.

(** C7 as stated fails where it has the crop absent after a cancelled
    selection: with the x,y,w,h entry filled, the run falls back on that
    entry ("继续使用原设置") and the extractor gets its region. *)
Lemma cancelled_selection_counterexample :
  let self :=
    set_string crop_var "10,20,300,400"
      (click_checkbox manual_select_var initial_app) in
  fst (manual_select Demo.collab self "/videos/talk.mp4" Demo.world0) = Ok None /\
  map crop_region
    (extract_calls
       (trace (snd (work Demo.collab self "/videos/talk.mp4" Demo.world0))))
    = [Some (10, 20, 300, 400)].
Proof. split; vm_compute; reflexivity. Qed.

(** ** The window: one worker, one crop mode *)

Section Window.

Variable C : collaborators.

Ltac open_gui g :=
  cbv beta iota zeta delta [gui_emit threads self env set_worker _worker];
  fold (threads g); fold (self g); fold (env g).

Lemma one_worker_on_run (g : gui) : one_worker g -> one_worker (_on_run g).
Proof.
  intros Hinv. unfold _on_run.
  destruct (worker_alive g) eqn:Hbusy; [exact Hinv|].
  destruct (negb (nonempty (Py.strip (strings (self g) input_var))));
    [exact Hinv|].
  intros t. unfold is_alive. open_gui g.
  destruct (decide (t = length (threads g))) as [->|Hne]; [reflexivity|].
  destruct (decide (t < length (threads g))%nat) as [Hlt|Hge].
  - intros Halive. rewrite lookup_app_l in Halive by exact Hlt.
    specialize (Hinv t Halive). unfold worker_alive in Hbusy.
    rewrite Hinv in Hbusy. unfold is_alive in Hbusy.
    rewrite Halive in Hbusy. discriminate.
  - intros Halive. rewrite lookup_ge_None_2 in Halive; [discriminate|].
    rewrite length_app. simpl. lia.
Qed.

Lemma one_worker_worker_runs (t0 : nat) (g : gui) :
  one_worker g -> one_worker (worker_runs C t0 g).
Proof.
  intros Hinv. unfold worker_runs.
  destruct (threads g !! t0) as [[ip|]|] eqn:E; try exact Hinv.
  intros t. unfold is_alive. cbn [threads self].
  destruct (decide (t = t0)) as [->|Hne].
  - intros Halive.
    rewrite list_lookup_insert_eq in Halive by (eapply lookup_lt_Some; exact E).
    discriminate.
  - intros Halive. rewrite list_lookup_insert_ne in Halive by congruence.
    apply Hinv, Halive.
Qed.

Lemma worker_click_checkbox (v : boolean_var) (a : App) :
  _worker (click_checkbox v a) = _worker a.
Proof.
  unfold click_checkbox, checkbox_command, _on_toggle_auto_crop,
    _on_toggle_manual_select.
  destruct v; try reflexivity;
    match goal with |- context [if ?b then _ else _] => destruct b end;
    reflexivity.
Qed.

Lemma one_worker_step (a : action) (g : gui) :
  one_worker g -> one_worker (step C a g).
Proof.
  intros Hinv. destruct a as [|v|v x|t0]; cbn [step].
  - apply one_worker_on_run, Hinv.
  - intros t Ht. cbn [self]. rewrite worker_click_checkbox. apply Hinv, Ht.
  - exact Hinv.
  - apply one_worker_worker_runs, Hinv.
Qed.

Lemma reachable_one_worker (g : gui) : reachable C g -> one_worker g.
Proof.
  induction 1 as [f|a g _ IH].
  - intros t. unfold is_alive. cbn [threads initial_gui].
    rewrite lookup_nil. discriminate.
  - apply one_worker_step, IH.
Qed.

Lemma alive_threads_in (g : gui) (t : nat) :
  In t (alive_threads g) -> is_alive g t = true.
Proof. unfold alive_threads. intros H. apply filter_In in H. tauto. Qed.

Lemma one_worker_alive_threads (g : gui) :
  one_worker g -> (length (alive_threads g) <= 1)%nat.
Proof.
  intros Hinv.
  assert (Hnd : List.NoDup (alive_threads g))
    by (apply List.NoDup_filter, List.seq_NoDup).
  pose proof (alive_threads_in g) as Hin.
  destruct (alive_threads g) as [|a [|b l]]; simpl; try lia.
  exfalso.
  assert (Ha : _worker (self g) = Some a) by (apply Hinv, Hin; simpl; auto).
  assert (Hb : _worker (self g) = Some b) by (apply Hinv, Hin; simpl; auto).
  assert (a = b) by congruence. subst b.
  inversion Hnd as [|? ? Hnotin _]. apply Hnotin. simpl. auto.
Qed.

Lemma not_busy_none_alive (g : gui) :
  one_worker g -> worker_alive g = false -> alive_threads g = [].
Proof.
  intros Hinv Hbusy. pose proof (alive_threads_in g) as Hin.
  destruct (alive_threads g) as [|a l]; [reflexivity|exfalso].
  assert (Ha : is_alive g a = true) by (apply Hin; simpl; auto).
  pose proof (Hinv a Ha) as Hw. unfold worker_alive in Hbusy.
  rewrite Hw, Ha in Hbusy. discriminate.
Qed.

(** C5. In every state the window can reach at most one worker thread is
    alive.  A click on the run button while the worker is alive shows the
    busy notice and changes nothing else: the variables, the worker
    reference and the thread table stay as they were, so no thread is
    started and nothing of the request is kept for later.  A click that
    does start a thread finds no thread alive. *)
Theorem one_run_at_a_time :
  (forall g, reachable C g -> (length (alive_threads g) <= 1)%nat) /\
  (forall g, worker_alive g = true ->
     _on_run g =
       Gui (self g) (threads g)
         (World (fs (env g)) (trace (env g) ++ [busy_signal]))) /\
  (forall g, worker_alive g = true ->
     thread_starts (trace (env (_on_run g))) = thread_starts (trace (env g)) /\
     alive_threads (_on_run g) = alive_threads g) /\
  (forall g, reachable C g ->
     thread_starts (trace (env (_on_run g))) <> thread_starts (trace (env g)) ->
     alive_threads g = [] /\
     alive_threads (_on_run g) = [length (threads g)]).
Proof.
  split; [|split; [|split]].
  - intros g Hr. apply one_worker_alive_threads, reachable_one_worker, Hr.
  - intros g Hbusy. unfold _on_run. rewrite Hbusy. reflexivity.
  - intros g Hbusy. unfold _on_run. rewrite Hbusy. split; [|reflexivity].
    cbn [gui_emit env trace]. unfold thread_starts. rewrite omap_app.
    apply app_nil_r.
  - intros g Hr Hstart.
    pose proof (reachable_one_worker g Hr) as Hinv.
    unfold _on_run in *.
    destruct (worker_alive g) eqn:Hbusy.
    { exfalso. apply Hstart. cbn [gui_emit env trace].
      unfold thread_starts. rewrite omap_app. apply app_nil_r. }
    destruct (negb (nonempty (Py.strip (strings (self g) input_var)))).
    { exfalso. apply Hstart. cbn [gui_emit env trace].
      unfold thread_starts. rewrite omap_app. apply app_nil_r. }
    pose proof (not_busy_none_alive g Hinv Hbusy) as Hnone.
    split; [exact Hnone|].
    unfold alive_threads in *. open_gui g.
    rewrite length_app. cbn [length]. rewrite Nat.add_1_r, seq_S.
    rewrite List.filter_app. cbn [List.filter Nat.add].
    replace (is_alive _ (length (threads g))) with true.
    2:{ unfold is_alive. open_gui g.
        rewrite lookup_app_r by lia. rewrite Nat.sub_diag. reflexivity. }
    rewrite (List.filter_ext_in _ (is_alive g)); [rewrite Hnone; reflexivity|].
    intros t Ht. apply in_seq in Ht.
    unfold is_alive. open_gui g. rewrite lookup_app_l by lia. reflexivity.
Qed.

End Window.

Lemma one_run_at_a_time_witness :
  let clicked :=
    run_actions Demo.collab
      [Type_entry input_var "/videos/talk.mp4"; Click_run]
      (initial_gui Demo.files) in
  worker_alive clicked = true /\
  threads (_on_run clicked) = [Alive "/videos/talk.mp4"] /\
  trace (env (_on_run clicked)) =
    [EvLogClear; EvRunButton false; EvThreadStart 0; busy_signal].
Proof.
  intros clicked. split; [reflexivity|].
  rewrite (proj1 (proj2 (one_run_at_a_time Demo.collab)) clicked eq_refl).
  split; reflexivity.
Defined.

(** ** Manual selection against auto-crop *)

Section CropModes.

Variable C : collaborators.

Lemma booleans_set_same (v : boolean_var) (x : bool) (a : App) :
  booleans (set_boolean v x a) v = x.
Proof. apply fn_lookup_insert. Qed.

Lemma booleans_set_other (v v' : boolean_var) (x : bool) (a : App) :
  v <> v' -> booleans (set_boolean v x a) v' = booleans a v'.
Proof. intros H. apply fn_lookup_insert_ne, H. Qed.

Ltac booleans :=
  repeat first [ rewrite booleans_set_same
               | rewrite booleans_set_other by discriminate ].






End CropModes.


(** * Further properties of the code *)

(** ** Blanks around a time text *)

Section Blanks.

Variable sp : ascii -> bool.

Lemma lstrip_blank (s : string) :
  Py.forallb_string sp s = true -> Py.lstrip_with sp s = EmptyString.
Proof.
  induction s as [|c s IH]; cbn; [reflexivity|].
  intros [Hc Hs]%andb_true_iff. rewrite Hc. auto.
Qed.

Lemma rstrip_blank (s : string) :
  Py.forallb_string sp s = true -> Py.rstrip_with sp s = EmptyString.
Proof.
  induction s as [|c s IH]; cbn; [reflexivity|].
  intros [Hc Hs]%andb_true_iff. rewrite (IH Hs). cbn. rewrite Hc. reflexivity.
Qed.

Lemma lstrip_blank_app (a s : string) :
  Py.forallb_string sp a = true ->
  Py.lstrip_with sp (a +:+ s) = Py.lstrip_with sp s.
Proof.
  induction a as [|c a IH]; [reflexivity|].
  cbn [Py.forallb_string]. intros [Hc Ha]%andb_true_iff.
  rewrite append_cons. cbn [Py.lstrip_with]. rewrite Hc. auto.
Qed.

Lemma rstrip_app_blank (s b : string) :
  Py.forallb_string sp b = true ->
  Py.rstrip_with sp (s +:+ b) = Py.rstrip_with sp s.
Proof.
  intros Hb. induction s as [|c s IH].
  - apply rstrip_blank, Hb.
  - rewrite append_cons. cbn [Py.rstrip_with]. rewrite IH. reflexivity.
Qed.

Lemma strip_app_blank (t b : string) :
  Py.forallb_string sp b = true ->
  Py.rstrip_with sp (Py.lstrip_with sp (t +:+ b))
    = Py.rstrip_with sp (Py.lstrip_with sp t).
Proof.
  intros Hb. induction t as [|c t IH].
  - change (EmptyString +:+ b) with b. rewrite (lstrip_blank _ Hb). reflexivity.
  - rewrite append_cons. cbn [Py.lstrip_with].
    destruct (sp c); [exact IH|].
    rewrite <- append_cons. apply rstrip_app_blank, Hb.
Qed.

End Blanks.

Lemma strip_around (a text b : string) :
  blank a -> blank b -> Py.strip (a +:+ text +:+ b) = Py.strip text.
Proof.
  intros Ha Hb. unfold Py.strip.
  rewrite (lstrip_blank_app _ _ _ Ha). apply strip_app_blank, Hb.
Qed.

(** X1. Blanks before and after a time text do not matter: the text reads as
    it does without them, whether as a bound, as no bound or as an
    error. *)
Theorem time_text_ignores_blanks (a text b : string) :
  blank a -> blank b ->
  _parse_time_to_seconds (a +:+ text +:+ b) = _parse_time_to_seconds text.
Proof.
  intros Ha Hb. unfold _parse_time_to_seconds.
  rewrite (strip_around _ _ _ Ha Hb). reflexivity.
Qed.

Lemma time_text_ignores_blanks_witness :
  _parse_time_to_seconds (" " +:+ "1:30" +:+ String (ascii_of_N 9) " ")
    = _parse_time_to_seconds "1:30".
Proof. apply time_text_ignores_blanks; reflexivity. Defined.

(** ** The range check and the duration guard *)

Section Guards.

Lemma SFcompare_antisym (x y : SpecFloat.spec_float) :
  SpecFloat.SFcompare y x = option_map CompOpp (SpecFloat.SFcompare x y).
Proof.
  destruct x as [sx|sx| |sx mx ex], y as [sy|sy| |sy my ey]; cbn;
    try reflexivity;
    try (destruct sx; reflexivity); try (destruct sy; reflexivity);
    try (destruct sx, sy; reflexivity).
  assert (Hm : Pos.compare_cont Eq my mx = CompOpp (Pos.compare_cont Eq mx my))
    by (rewrite (Pos.compare_cont_antisym mx my Eq); reflexivity).
  destruct sx, sy; cbn; try reflexivity;
    rewrite (Z.compare_antisym ex ey), Hm;
    destruct (ex ?= ey)%Z; cbn; try reflexivity;
    destruct (Pos.compare_cont Eq mx my); reflexivity.
Qed.

Lemma not_nan_spec (x : float) :
  PrimFloat.is_nan x = false -> FloatOps.Prim2SF x <> SpecFloat.S754_nan.
Proof.
  unfold PrimFloat.is_nan. rewrite FloatAxioms.eqb_spec. intros H E.
  rewrite E in H. discriminate.
Qed.

(** Between two numbers, "not less or equal" is "greater". *)
Lemma leb_false_ltb (s e : float) :
  PrimFloat.is_nan s = false -> PrimFloat.is_nan e = false ->
  PrimFloat.ltb s e = negb (PrimFloat.leb e s).
Proof.
  intros Hs He. apply not_nan_spec in Hs, He.
  rewrite FloatAxioms.ltb_spec, FloatAxioms.leb_spec.
  unfold SpecFloat.SFltb, SpecFloat.SFleb.
  rewrite (SFcompare_antisym (FloatOps.Prim2SF s) (FloatOps.Prim2SF e)).
  destruct (SpecFloat.SFcompare (FloatOps.Prim2SF s) (FloatOps.Prim2SF e))
    as [[]|] eqn:E; try reflexivity.
  exfalso.
  destruct (FloatOps.Prim2SF s), (FloatOps.Prim2SF e);
    try discriminate E; congruence.
Qed.

(** X2. For two bounds that are numbers, the range check of the worker
    (line 356) and the duration guard of the trimmer (line 107) agree: a
    pair the worker lets through has end > start, so the trimmer computes
    the duration end - start and passes it after "-t". *)
Theorem range_check_gives_duration (s e : float) (ffmpeg src : string) :
  PrimFloat.is_nan s = false -> PrimFloat.is_nan e = false ->
  range_rejected (Some s) (Some e) = false ->
  trim_duration (Some s) (Some e) = Some (PrimFloat.sub e s) /\
  trim_args ffmpeg src (Some s) (Some e) =
    [ffmpeg; "-y"; "-ss"; Py.format_f 3 s; "-i"; src;
     "-t"; Py.format_f 3 (PrimFloat.sub e s)].
Proof.
  intros Hs He Hr. cbn [range_rejected] in Hr.
  assert (Hlt : PrimFloat.ltb s e = true)
    by (rewrite (leb_false_ltb s e Hs He), Hr; reflexivity).
  unfold trim_args, trim_duration. rewrite Hlt. split; reflexivity.
Qed.

End Guards.

Lemma range_check_gives_duration_witness :
  trim_args "ffmpeg" "talk.mp4" (Some 90%float) (Some 120.5%float) =
    ["ffmpeg"; "-y"; "-ss"; "90.000"; "-i"; "talk.mp4"; "-t"; "30.500"].
Proof.
  exact (proj2 (range_check_gives_duration 90%float 120.5%float
                  "ffmpeg" "talk.mp4" eq_refl eq_refl eq_refl)).
Defined.

(** ** Events a piece of code adds *)

Section Adds.

Context {X A B : Type} (sel : event -> option X).

Lemma unseen_adds (m : M A) (P : list X -> Prop) :
  unseen sel m -> P [] -> adds sel m P.
Proof.
  intros Hm HP w. exists []. rewrite app_nil_r. split; [apply Hm|exact HP].
Qed.

Lemma adds_weaken (m : M A) (P Q : list X -> Prop) :
  adds sel m P -> (forall l, P l -> Q l) -> adds sel m Q.
Proof.
  intros Hm HPQ w. destruct (Hm w) as (l & Hl & HP). exists l. auto.
Qed.

(** Quiet code first, then code that adds. *)
Lemma adds_after_unseen (m : M A) (k : A -> M B) (P : list X -> Prop) :
  unseen sel m -> (forall a, adds sel (k a) P) -> P [] ->
  adds sel (x <- m ;; k x) P.
Proof.
  intros Hm Hk HP w. rewrite bind_M. specialize (Hm w).
  destruct (m w) as [[a|e] w']; cbn [snd] in *.
  - destruct (Hk a w') as (l & Hl & HPl). exists l. rewrite Hl, Hm. auto.
  - exists []. rewrite app_nil_r. auto.
Qed.

(** Code that adds first, then quiet code. *)
Lemma adds_before_unseen (m : M A) (k : A -> M B) (P : list X -> Prop) :
  adds sel m P -> (forall a, unseen sel (k a)) ->
  adds sel (x <- m ;; k x) P.
Proof.
  intros Hm Hk w. rewrite bind_M. destruct (Hm w) as (l & Hl & HP).
  destruct (m w) as [[a|e] w']; cbn [snd] in *; exists l.
  - rewrite (Hk a w'). auto.
  - auto.
Qed.

(** One after the other. *)
Lemma adds_bind (m : M A) (k : A -> M B) (P Q : list X -> Prop) :
  adds sel m P -> (forall a, adds sel (k a) Q) -> Q [] ->
  adds sel (x <- m ;; k x) (fun l => exists l1 l2, l = l1 ++ l2 /\ P l1 /\ Q l2).
Proof.
  intros Hm Hk HQ w. rewrite bind_M. destruct (Hm w) as (l1 & Hl1 & HP).
  destruct (m w) as [[a|e] w']; cbn [snd] in *.
  - destruct (Hk a w') as (l2 & Hl2 & HQ2). exists (l1 ++ l2).
    rewrite Hl2, Hl1, app_assoc. eauto 6.
  - exists l1. split; [exact Hl1|]. exists l1, []. rewrite app_nil_r. auto.
Qed.

Lemma adds_try_except (m : M A) (h : exn -> M A) (P : list X -> Prop) :
  adds sel m P -> (forall e, unseen sel (h e)) -> adds sel (try_except m h) P.
Proof.
  intros Hm Hh w. unfold try_except. destruct (Hm w) as (l & Hl & HP).
  destruct (m w) as [[a|e] w']; cbn [snd] in *; exists l; [auto|].
  rewrite (Hh e w'). auto.
Qed.

End Adds.

Section Leaves.

Context {X : Type} (sel : event -> option X) (C : collaborators).

Lemma run_eq (args : list string) (w : world) :
  run C args w =
    (Ok (fst (subprocess_run C args (fs w))),
     World (snd (subprocess_run C args (fs w)))
       (trace w ++ [EvSubprocess args])).
Proof. unfold run. destruct (subprocess_run C args (fs w)); reflexivity. Qed.

Lemma call_extract_eq (a : extract_args) (w : world) :
  call_extract C a w =
    (fst (extract_frames_to_pdf C a (fs w)),
     World (snd (extract_frames_to_pdf C a (fs w))) (trace w ++ [EvExtract a])).
Proof.
  unfold call_extract. destruct (extract_frames_to_pdf C a (fs w)); reflexivity.
Qed.

Lemma unseen_run (args : list string) :
  sel (EvSubprocess args) = None -> unseen sel (run C args).
Proof.
  intros H w. rewrite run_eq. cbn [snd trace]. rewrite omap_app. cbn.
  rewrite H. apply app_nil_r.
Qed.

Lemma adds_run (args : list string) (x : X) :
  sel (EvSubprocess args) = Some x -> adds sel (run C args) (fun l => l = [x]).
Proof.
  intros H w. exists [x]. rewrite run_eq. cbn [snd trace]. rewrite omap_app.
  cbn. rewrite H. auto.
Qed.

Lemma unseen_call_extract (a : extract_args) :
  sel (EvExtract a) = None -> unseen sel (call_extract C a).
Proof.
  intros H w. rewrite call_extract_eq. cbn [snd trace]. rewrite omap_app. cbn.
  rewrite H. apply app_nil_r.
Qed.

Lemma adds_call_extract (a : extract_args) (x : X) :
  sel (EvExtract a) = Some x -> adds sel (call_extract C a) (fun l => l = [x]).
Proof.
  intros H w. exists [x]. rewrite call_extract_eq. cbn [snd trace].
  rewrite omap_app. cbn. rewrite H. auto.
Qed.

Lemma unseen_ydl_extract_info opts url hook :
  sel (EvDownload url opts) = None -> (forall d, unseen sel (hook d)) ->
  unseen sel (ydl_extract_info C opts url hook).
Proof.
  intros H Hhook w. rewrite unseen_after_download by exact Hhook.
  rewrite omap_app. cbn. rewrite H. apply app_nil_r.
Qed.

Lemma adds_ydl_extract_info opts url hook (x : X) :
  sel (EvDownload url opts) = Some x -> (forall d, unseen sel (hook d)) ->
  adds sel (ydl_extract_info C opts url hook) (fun l => l = [x]).
Proof.
  intros H Hhook w. exists [x]. rewrite unseen_after_download by exact Hhook.
  rewrite omap_app. cbn. rewrite H. auto.
Qed.

End Leaves.

#[local] Hint Extern 1 (unseen _ (run _ _)) =>
  apply unseen_run; reflexivity : unseen.
#[local] Hint Extern 1 (unseen _ (call_extract _ _)) =>
  apply unseen_call_extract; reflexivity : unseen.
#[local] Hint Extern 1 (unseen _ (ydl_extract_info _ _ _ _)) =>
  apply unseen_ydl_extract_info; [reflexivity|intros] : unseen.
#[local] Hint Extern 1 (unseen _ (on_progress _)) =>
  apply unseen_on_progress; reflexivity : unseen.
#[local] Hint Extern 1 (unseen _ (_hook _ _)) => unfold _hook : unseen.
#[local] Hint Extern 1 (unseen _ (for_each _ _)) =>
  apply unseen_for_each; intros : unseen.

(** Unfolds the stages of the worker in a goal about [unseen]. *)
Ltac unseen_stage :=
  unfold resolve_source, download_video, parse_bounds, trim_stage,
    _trim_video_with_ffmpeg, attempt_succeeded, attempt_failed, path_size,
    path_mkdir, probe_resolution, probe_body, manual_select, select_body,
    open_capture, extract_stage;
  unseen.

(** ** Steps of effectful code *)

Section Steps.

Context {A B : Type}.

Lemma bind_ok (m : M A) (k : A -> M B) (w w' : world) (b : B) :
  (x <- m ;; k x) w = (Ok b, w') ->
  exists a w1, m w = (Ok a, w1) /\ k a w1 = (Ok b, w').
Proof.
  rewrite bind_M. destruct (m w) as [[a|e] w1]; [eauto|discriminate].
Qed.

Lemma emit_bind (e : event) (k : unit -> M B) (w : world) :
  (x <- emit e ;; k x) w = k tt (World (fs w) (trace w ++ [e])).
Proof. reflexivity. Qed.

Lemma path_exists_eq (p : string) (w : world) :
  path_exists p w = (Ok (bool_decide (is_Some (fs w !! p))), w).
Proof. reflexivity. Qed.

Lemma adds_lift_bind {X} (sel : event -> option X) (r : result A)
    (k : A -> M B) (P : list X -> Prop) :
  (forall a, r = Ok a -> adds sel (k a) P) -> P [] ->
  adds sel (x <- lift r ;; k x) P.
Proof.
  intros Hk HP w. rewrite lift_bind. destruct r as [a|e].
  - apply (Hk a eq_refl).
  - exists []. rewrite app_nil_r. auto.
Qed.

End Steps.

(** What [path_mkdir] does, by the state of the path. *)
Lemma path_mkdir_eq (p : string) (w : world) :
  path_mkdir p w =
    match fs w !! p with
    | Some nd =>
        (if is_dir nd then Ok tt else Raise (Exn OtherError "File exists"),
         World (fs w) (trace w ++ [EvMkdir p]))
    | None =>
        (Ok tt, World (<[p := Node true 0]> (fs w)) (trace w ++ [EvMkdir p]))
    end.
Proof.
  unfold path_mkdir. rewrite emit_bind, bind_M. cbn [get_fs fs].
  destruct (fs w !! p) as [nd|]; [destruct (is_dir nd)|]; reflexivity.
Qed.

(** After [path_mkdir] returns, the path is a directory. *)
Lemma path_mkdir_ok (p : string) (w w' : world) :
  path_mkdir p w = (Ok tt, w') ->
  exists nd, fs w' !! p = Some nd /\ is_dir nd = true.
Proof.
  rewrite path_mkdir_eq. destruct (fs w !! p) as [nd|] eqn:E.
  - destruct (is_dir nd) eqn:Hd; [|discriminate].
    intros [= <-]. cbn [fs]. eauto.
  - intros [= <-]. cbn [fs]. rewrite lookup_insert_eq. eauto.
Qed.

(** ** The outside work of a run, in order *)

Section Order.

Variable C : collaborators.

Lemma stages_download_video url dir :
  adds sel_stage
    (download_video C url dir None "best" None false false None
       (Some on_progress))
    (fun l => l = [] \/ l = [Downloading]).
Proof.
  unfold download_video. cbv zeta.
  apply adds_after_unseen; [unseen_stage| |left; reflexivity]. intros [].
  apply adds_before_unseen; [|intros; unseen].
  eapply adds_weaken.
  - apply adds_ydl_extract_info; [reflexivity|intros; unseen].
  - intros l ->. right. reflexivity.
Qed.

Lemma stages_resolve_source self input_path :
  adds sel_stage (resolve_source C self input_path)
    (at_most_one_download input_path).
Proof.
  unfold resolve_source. destruct (is_url input_path) eqn:Hurl.
  - apply adds_after_unseen; [unseen| |left; reflexivity]. intros [].
    apply adds_before_unseen; [|intros; unseen].
    eapply adds_weaken; [apply stages_download_video|].
    intros l [->| ->]; [left|right]; auto.
  - apply unseen_adds; [unseen|left; reflexivity].
Qed.

Lemma stages_trim src dst start_s end_s :
  adds sel_stage (_trim_video_with_ffmpeg C src dst start_s end_s)
    at_most_two_trims.
Proof.
  unfold _trim_video_with_ffmpeg.
  destruct (_ffmpeg_path C) as [[|c ff]|];
    try (apply unseen_adds; [solve [unseen]|left; reflexivity]).
  eapply adds_weaken.
  - apply (adds_bind sel_stage _ _ (fun l => l = [Trimming])
             (fun l => l = [] \/ l = [Trimming]));
      [apply adds_run; reflexivity| |left; reflexivity].
    intros rc. apply adds_after_unseen; [unseen_stage| |left; reflexivity].
    intros [|]; [apply unseen_adds; [unseen|left; reflexivity]|].
    apply adds_before_unseen; [|intros; unseen_stage].
    eapply adds_weaken; [apply adds_run; reflexivity|].
    intros l ->. right. reflexivity.
  - intros l (l1 & l2 & -> & -> & [->| ->]); right; [left|right]; reflexivity.
Qed.

Lemma stages_trim_stage input_p start_s end_s :
  adds sel_stage (trim_stage C input_p start_s end_s) at_most_two_trims.
Proof.
  unfold trim_stage.
  destruct (is_some start_s || is_some end_s);
    [|apply unseen_adds; [unseen|left; reflexivity]].
  apply adds_after_unseen; [unseen| |left; reflexivity]. intros [].
  apply adds_after_unseen; [unseen| |left; reflexivity]. intros parent_there.
  apply adds_after_unseen; [unseen_stage| |left; reflexivity]. intros [].
  apply adds_after_unseen; [unseen| |left; reflexivity]. intros [].
  apply adds_before_unseen; [apply stages_trim|intros; unseen].
Qed.

Lemma stages_extract_stage self input_p :
  adds sel_stage (extract_stage C self input_p) at_most_one_extraction.
Proof.
  unfold extract_stage.
  apply adds_after_unseen; [unseen_stage| |left; reflexivity]. intros crop.
  apply adds_after_unseen; [unseen| |left; reflexivity]. intros a.
  apply adds_before_unseen; [|intros; unseen].
  eapply adds_weaken; [apply adds_call_extract; reflexivity|].
  intros l ->. right. reflexivity.
Qed.

Lemma stages_work_body self input_path :
  adds sel_stage (work_body C self input_path)
    (fun l => exists d t x,
       l = d ++ t ++ x /\ at_most_one_download input_path d /\
       at_most_two_trims t /\ at_most_one_extraction x).
Proof.
  unfold work_body. eapply adds_weaken.
  - apply (adds_bind sel_stage _ _ (at_most_one_download input_path)
             (fun l => exists t x,
                l = t ++ x /\ at_most_two_trims t /\ at_most_one_extraction x)).
    + apply stages_resolve_source.
    + intros input_p.
      apply adds_after_unseen; [unseen_stage| |].
      2:{ exists [], []. repeat split; left; reflexivity. }
      intros bounds. eapply adds_weaken.
      * apply (adds_bind sel_stage _ _ at_most_two_trims
                 at_most_one_extraction);
          [apply stages_trim_stage| |left; reflexivity].
        intros clip_p.
        apply adds_after_unseen;
          [unseen_stage|intros; apply stages_extract_stage|left; reflexivity].
      * intros l (t & x & -> & Ht & Hx). eauto.
    + exists [], []. repeat split; left; reflexivity.
  - intros l (d & l2 & -> & Hd & t & x & -> & Ht & Hx). eauto 8.
Qed.

(** X3. What a run does outside the program, in the order it does it: at most
    one download, and only for a remote input; then at most two ffmpeg
    processes; then at most one call of the frame extractor. *)
Theorem run_stages_in_order (self : App) (input_path : string) (w : world) :
  exists d t x,
    stages (trace (snd (work C self input_path w)))
      = stages (trace w) ++ d ++ t ++ x /\
    (d = [] \/ (is_url input_path = true /\ d = [Downloading])) /\
    (t = [] \/ t = [Trimming] \/ t = [Trimming; Trimming]) /\
    (x = [] \/ x = [Extracting]).
Proof.
  assert (H : adds sel_stage (work C self input_path)
                (fun l => exists d t x,
                   l = d ++ t ++ x /\ at_most_one_download input_path d /\
                   at_most_two_trims t /\ at_most_one_extraction x)).
  { unfold work. apply adds_before_unseen; [|intros; unseen].
    apply adds_try_except; [apply stages_work_body|intros; unseen]. }
  destruct (H w) as (l & Hl & d & t & x & -> & Hd & Ht & Hx).
  exists d, t, x. auto.
Qed.

End Order.

(** ** The worker: time texts, the extractor's input, the outcome *)

Section Worker.

Variable C : collaborators.

Lemma parse_time_raises (text : string) (e : exn) :
  _parse_time_to_seconds text = Raise e -> e = TimeFormatError.
Proof.
  unfold _parse_time_to_seconds.
  destruct (String.eqb (Py.strip text) EmptyString); [discriminate|].
  destruct (parse_time_parts _); [discriminate|].
  intros [= <-]. reflexivity.
Qed.

(** A remote source that resolves has been downloaded. *)
Lemma resolve_source_downloads (self : App) (input_path p : string)
    (w w1 : world) :
  is_url input_path = true ->
  resolve_source C self input_path w = (Ok p, w1) ->
  download_calls (trace w1) = download_calls (trace w) ++ [input_path].
Proof.
  intros Hurl. unfold resolve_source. rewrite Hurl, emit_bind.
  set (w0 := World _ _).
  intros (dp & w2 & Hdl & Hrest)%bind_ok.
  rewrite emit_bind in Hrest. injection Hrest as _ <-.
  unfold download_video in Hdl. cbv zeta in Hdl.
  apply bind_ok in Hdl as ([] & w3 & Hmk & Hdl).
  apply bind_ok in Hdl as (info & w4 & Hydl & Hlift).
  injection Hlift as _ <-.
  assert (Hmk' : unseen sel_download (path_mkdir
            (let dl_dir_str := Py.strip (strings self dldir_var) in
             if nonempty dl_dir_str then dl_dir_str
             else path_join C (gettempdir C) "video2pdf_downloads")))
    by (unfold path_mkdir; unseen).
  specialize (Hmk' w0). cbv zeta in Hmk'. rewrite Hmk in Hmk'.
  cbn [snd] in Hmk'.
  match type of Hydl with
  | ydl_extract_info C ?opts ?url ?hook ?w = _ =>
      pose proof (unseen_after_download sel_download C opts url hook w) as Hy
  end.
  rewrite Hydl in Hy. cbn [snd] in Hy.
  unfold download_calls. cbn [trace]. rewrite omap_app. cbn [omap]. cbn.
  rewrite app_nil_r, Hy by (intros; unseen).
  rewrite omap_app, Hmk'. subst w0. cbn [trace]. rewrite omap_app. cbn.
  rewrite app_nil_r. reflexivity.
Qed.

(** X4. The time texts are read once the source is there: a text that does
    not parse stops the run in the world source resolution left (for a
    remote input, after the download), with the error of the start text
    first, and the hint of the parser in the message. *)
Theorem time_texts_read_after_source (self : App) (input_path p : string)
    (w w1 : world) :
  resolve_source C self input_path w = (Ok p, w1) ->
  (forall e,
     _parse_time_to_seconds (strings self start_time_var) = Raise e ->
     work_body C self input_path w =
       (Raise (Exn RuntimeError ("开始时间格式错误: " +:+ time_format_hint)),
        w1)) /\
  (forall s e,
     _parse_time_to_seconds (strings self start_time_var) = Ok s ->
     _parse_time_to_seconds (strings self end_time_var) = Raise e ->
     work_body C self input_path w =
       (Raise (Exn RuntimeError ("结束时间格式错误: " +:+ time_format_hint)),
        w1)) /\
  (is_url input_path = true ->
   download_calls (trace w1) = download_calls (trace w) ++ [input_path]).
Proof.
  intros Hres. split; [|split].
  - intros e He. rewrite work_body_eq, Hres, parse_bounds_eq, He.
    rewrite (parse_time_raises _ _ He). reflexivity.
  - intros s e Hs He. rewrite work_body_eq, Hres, parse_bounds_eq, Hs, He.
    rewrite (parse_time_raises _ _ He). reflexivity.
  - intros Hurl. exact (resolve_source_downloads _ _ _ _ _ Hurl Hres).
Qed.

Lemma work_eq (self : App) (input_path : string) (w : world) :
  work C self input_path w =
    match work_body C self input_path w with
    | (Ok _, w') => (Ok tt, World (fs w') (trace w' ++ [EvRunButton true]))
    | (Raise e, w') =>
        (Ok tt,
         World (fs w')
           (trace w' ++ [EvLog (error_line e);
                         EvShowError "运行失败" (exn_msg e);
                         EvRunButton true]))
    end.
Proof.
  unfold work. rewrite bind_M. unfold try_except.
  destruct (work_body C self input_path w) as [[[]|e] w']; [reflexivity|].
  rewrite emit_bind. unfold emit. cbn [fs trace].
  rewrite <- !app_assoc. reflexivity.
Qed.

Lemma extract_stage_ok_ends (self : App) (p : string) (w w' : world) :
  extract_stage C self p w = (Ok tt, w') ->
  exists t0, trace w' = t0 ++ [EvLog done_line].
Proof.
  unfold extract_stage. cbv zeta.
  intros (crop & w1 & _ & H)%bind_ok.
  apply bind_ok in H as (a & w2 & _ & H).
  apply bind_ok in H as ([] & w3 & _ & H).
  injection H as <-. cbn [trace]. eauto.
Qed.

Lemma work_body_ok_ends (self : App) (input_path : string) (w w' : world) :
  work_body C self input_path w = (Ok tt, w') ->
  exists t0, trace w' = t0 ++ [EvLog done_line].
Proof.
  unfold work_body.
  intros (p & w1 & _ & H)%bind_ok.
  apply bind_ok in H as (bounds & w2 & _ & H).
  apply bind_ok in H as (clip_p & w3 & _ & H).
  apply bind_ok in H as ([] & w4 & _ & H).
  exact (extract_stage_ok_ends _ _ _ _ H).
Qed.

Lemma no_error_dialog_work_body (self : App) (input_path : string) :
  unseen sel_show_error (work_body C self input_path).
Proof.
  unfold work_body.
  apply unseen_bind; [unseen_stage|intros].
  apply unseen_bind; [unseen_stage|intros].
  apply unseen_bind; [unseen_stage|intros].
  apply unseen_bind; [unseen_stage|intros].
  unfold extract_stage. cbv zeta.
  repeat (apply unseen_bind; [|intros]); unseen_stage.
Qed.

(** X5. The worker never raises, and its last act is to enable the run button
    again.  A run whose stages all returned has logged the completion line
    just before and shows no error dialog; a run that was stopped by an
    exception logs the error line and shows one error dialog, both with the
    message of that exception. *)
Theorem work_reports_outcome (self : App) (input_path : string) (w : world) :
  fst (work C self input_path w) = Ok tt /\
  (exists t0, trace (snd (work C self input_path w)) = t0 ++ [EvRunButton true]) /\
  (forall w', work_body C self input_path w = (Ok tt, w') ->
     exists t0,
       trace (snd (work C self input_path w))
         = t0 ++ [EvLog done_line; EvRunButton true] /\
       error_dialogs (trace (snd (work C self input_path w)))
         = error_dialogs (trace w)) /\
  (forall e w', work_body C self input_path w = (Raise e, w') ->
     snd (work C self input_path w) =
       World (fs w')
         (trace w' ++ [EvLog (error_line e);
                       EvShowError "运行失败" (exn_msg e);
                       EvRunButton true]) /\
     error_dialogs (trace (snd (work C self input_path w)))
       = error_dialogs (trace w) ++ [("运行失败", exn_msg e)]).
Proof.
  pose proof (no_error_dialog_work_body self input_path w) as Hq.
  fold (error_dialogs (trace (snd (work_body C self input_path w)))) in Hq.
  fold (error_dialogs (trace w)) in Hq.
  rewrite work_eq.
  destruct (work_body C self input_path w) as [[[]|e] w1] eqn:Hbody;
    cbn [fst snd trace] in *.
  - split; [reflexivity|]. split; [eauto|]. split; [|discriminate].
    intros w' [= <-].
    destruct (work_body_ok_ends _ _ _ _ Hbody) as (t0 & Ht).
    exists t0. split; [rewrite Ht, <- app_assoc; reflexivity|].
    unfold error_dialogs in *. rewrite omap_app, Hq. apply app_nil_r.
  - split; [reflexivity|]. split.
    { exists (trace w1 ++ [EvLog (error_line e);
                           EvShowError "运行失败" (exn_msg e)]).
      rewrite <- app_assoc. reflexivity. }
    split; [discriminate|].
    intros e' w' [= <- <-]. split; [reflexivity|].
    unfold error_dialogs in *. rewrite omap_app, Hq. reflexivity.
Qed.

End Worker.

Lemma time_texts_read_after_source_witness :
  work_body Demo.collab (Demo.with_times "abc" "") "https://example.com/talk"
    Demo.world0
  = (Raise (Exn RuntimeError ("开始时间格式错误: " +:+ time_format_hint)),
     snd (resolve_source Demo.collab (Demo.with_times "abc" "")
            "https://example.com/talk" Demo.world0)).
Proof.
  refine (proj1 (time_texts_read_after_source Demo.collab _ _
                   "/tmp/dl/talk [abc].mp4" _ _ _) TimeFormatError _).
  - vm_compute. reflexivity.
  - vm_compute. reflexivity.
Defined.

Lemma work_reports_outcome_witness :
  exists t0,
    trace (snd (work Demo.collab initial_app "/videos/talk.mp4" Demo.world0))
      = t0 ++ [EvLog done_line; EvRunButton true] /\
    error_dialogs
      (trace (snd (work Demo.collab initial_app "/videos/talk.mp4" Demo.world0)))
      = error_dialogs (trace Demo.world0).
Proof.
  refine (proj1 (proj2 (proj2 (work_reports_outcome Demo.collab initial_app
                                 "/videos/talk.mp4" Demo.world0))) _ _).
  vm_compute. reflexivity.
Defined.

(** ** The trim stage and what the extractor is given *)

Section Clip.

Variable C : collaborators.

Lemma trim_stage_eq (input_p : string) (start_s end_s : option float)
    (w : world) :
  trim_stage C input_p start_s end_s w =
    if is_some start_s || is_some end_s then
      if range_rejected start_s end_s then (Raise InvalidRange, w)
      else
        match path_mkdir (clip_dir C input_p (fs w)) w with
        | (Ok _, w1) =>
            match _trim_video_with_ffmpeg C input_p (clip_path C input_p (fs w))
                    start_s end_s
                    (World (fs w1)
                       (trace w1 ++ [EvPrint (trim_notice C start_s end_s)]))
            with
            | (Ok _, w2) =>
                (Ok (clip_path C input_p (fs w)),
                 World (fs w2)
                   (trace w2
                    ++ [EvPrint ("剪切完成: " +:+ clip_path C input_p (fs w))]))
            | (Raise e, w2) => (Raise e, w2)
            end
        | (Raise e, w1) => (Raise e, w1)
        end
    else (Ok input_p, w).
Proof.
  unfold trim_stage.
  destruct (is_some start_s || is_some end_s); [|reflexivity].
  rewrite bind_M.
  destruct (range_rejected start_s end_s); [reflexivity|].
  cbn [ret Monad_M]. rewrite bind_M, path_exists_eq.
  fold (clip_dir C input_p (fs w)). rewrite bind_M.
  destruct (path_mkdir (clip_dir C input_p (fs w)) w) as [[[]|e] w1];
    [|reflexivity].
  fold (clip_path C input_p (fs w)). rewrite emit_bind.
  fold (trim_notice C start_s end_s). rewrite bind_M.
  destruct (_trim_video_with_ffmpeg _ _ _ _ _ _) as [[[]|e] w2]; reflexivity.
Qed.

(** The path the trim stage hands on. *)
Lemma trim_stage_result (input_p q : string) (start_s end_s : option float)
    (w w' : world) :
  trim_stage C input_p start_s end_s w = (Ok q, w') ->
  q = if is_some start_s || is_some end_s then clip_path C input_p (fs w)
      else input_p.
Proof.
  rewrite trim_stage_eq.
  destruct (is_some start_s || is_some end_s); [|congruence].
  destruct (range_rejected start_s end_s); [discriminate|].
  destruct (path_mkdir _ _) as [[[]|e] w1]; [|discriminate].
  destruct (_trim_video_with_ffmpeg _ _ _ _ _ _) as [[[]|e] w2];
    [congruence|discriminate].
Qed.

(** X6. A trim asked for without ffmpeg on the search path: the directory of
    the clips is made all the same, the trim is announced, and only then
    does the run stop with ToolMissing; no subprocess was started. *)
Theorem clip_directory_before_tool_check (input_p : string)
    (start_s end_s : option float) (w : world) :
  is_some start_s || is_some end_s = true ->
  range_rejected start_s end_s = false ->
  _ffmpeg_path C = None ->
  fs w !! clip_dir C input_p (fs w) = None ->
  trim_stage C input_p start_s end_s w =
    (Raise ToolMissing,
     World (<[clip_dir C input_p (fs w) := Node true 0]> (fs w))
       (trace w ++ [EvMkdir (clip_dir C input_p (fs w));
                    EvPrint (trim_notice C start_s end_s)])).
Proof.
  intros Hb Hr Hff Hnew. rewrite trim_stage_eq, Hb, Hr, path_mkdir_eq, Hnew.
  rewrite trim_without_tool by (left; exact Hff). cbn [fs trace].
  rewrite <- app_assoc. reflexivity.
Qed.

(** X7. How a trim ends.  When it returns, the output file is there and not
    empty.  When it raises ToolMissing, the world is untouched: no
    subprocess was started.  When it raises TrimFailed, the stream copy
    and then the re-encoding have been run, and nothing else. *)
Theorem trim_leaves_output (src dst : string) (start_s end_s : option float)
    (w : world) :
  (forall w', _trim_video_with_ffmpeg C src dst start_s end_s w = (Ok tt, w') ->
     exists nd, fs w' !! dst = Some nd /\ (0 < st_size nd)%N) /\
  (forall w',
     _trim_video_with_ffmpeg C src dst start_s end_s w = (Raise ToolMissing, w') ->
     w' = w) /\
  (forall w',
     _trim_video_with_ffmpeg C src dst start_s end_s w = (Raise TrimFailed, w') ->
     exists ffmpeg,
       _ffmpeg_path C = Some ffmpeg /\
       trace w' =
         trace w
         ++ [EvSubprocess (fast_args (trim_args ffmpeg src start_s end_s) dst);
             EvSubprocess (slow_args (trim_args ffmpeg src start_s end_s) dst)]).
Proof.
  destruct (_ffmpeg_path C) as [[|c ff]|] eqn:Hff.
  - rewrite trim_without_tool by (right; exact Hff).
    split; [discriminate|]. split; [intros w' [= <-]; reflexivity|].
    intros w' H. discriminate H.
  - rewrite (trim_outcome C src dst (String c ff) start_s end_s w Hff)
      by discriminate.
    cbv zeta.
    set (args := trim_args (String c ff) src start_s end_s).
    set (fast := subprocess_run C (fast_args args dst) (fs w)).
    set (slow := subprocess_run C (slow_args args dst) (snd fast)).
    destruct (attempt_ok_b (fst fast) (snd fast) dst) eqn:H1.
    { apply attempt_ok_b_spec in H1 as (_ & nd & Hnd & Hsz).
      split; [|split; discriminate]. intros w' [= <-]. cbn [fs]. eauto. }
    destruct (attempt_ok_b (fst slow) (snd slow) dst) eqn:H2.
    { apply attempt_ok_b_spec in H2 as (_ & nd & Hnd & Hsz).
      split; [|split; discriminate]. intros w' [= <-]. cbn [fs]. eauto. }
    split; [discriminate|]. split; [intros w' H; discriminate H|].
    intros w' [= <-]. exists (String c ff). split; reflexivity.
  - rewrite trim_without_tool by (left; exact Hff).
    split; [discriminate|]. split; [intros w' [= <-]; reflexivity|].
    intros w' H. discriminate H.
Qed.

Lemma extraction_options_paths (self : App) (input_p pdf dir : string)
    (manual_crop : option (Z * Z * Z * Z)) (a : extract_args) :
  extraction_options C self input_p pdf dir manual_crop = Ok a ->
  video_path a = input_p /\ output_pdf a = pdf /\ output_dir a = dir.
Proof.
  unfold extraction_options. cbn [bind ret Monad_result].
  repeat match goal with
         | |- context [match ?x with Ok _ => _ | Raise _ => _ end] =>
             destruct x eqn:?; [|discriminate]
         end.
  intros [= <-]. cbn [video_path output_pdf output_dir]. auto.
Qed.

Lemma extract_calls_extract_stage (self : App) (input_p : string) :
  adds sel_extract (extract_stage C self input_p)
    (fun l => l = [] \/
       exists a, l = [a] /\ video_path a = input_p /\
         output_pdf a = chosen_output_pdf C self input_p /\
         output_dir a = chosen_out_dir C self input_p).
Proof.
  unfold extract_stage. cbv zeta.
  apply adds_after_unseen; [unseen_stage| |left; reflexivity]. intros crop.
  apply adds_lift_bind; [|left; reflexivity]. intros a Ha.
  apply adds_before_unseen; [|intros; unseen].
  eapply adds_weaken; [apply adds_call_extract; reflexivity|].
  intros l ->. right. exists a. split; [reflexivity|].
  exact (extraction_options_paths _ _ _ _ _ _ Ha).
Qed.

Lemma no_extract_trim_stage (input_p : string) (start_s end_s : option float) :
  unseen sel_extract (trim_stage C input_p start_s end_s).
Proof. unseen_stage. Qed.

Lemma no_extract_resolve_source (self : App) (input_path : string) :
  unseen sel_extract (resolve_source C self input_path).
Proof. unseen_stage. Qed.

(** X8. The video the extractor is given.  Without time bounds it is the
    resolved source; with a bound it is the clip, named after the source
    and put in "video2pdf_segments" beside it (under the temporary
    directory when the source's directory does not exist).  The names left
    blank in the window follow that video: the PDF is the video's path
    with the suffix ".pdf" and the frames go to "slides_phash" in the
    video's directory.  For a trimmed run both therefore land beside the
    clip, in the directory of the clips, given what pathlib does on the
    clip's path: its parent is the directory it was joined to, and a
    change of suffix keeps the parent. *)
Theorem extractor_input (self : App) (input_path p : string) (w w1 : world)
    (start_s end_s : option float) :
  resolve_source C self input_path w = (Ok p, w1) ->
  _parse_time_to_seconds (strings self start_time_var) = Ok start_s ->
  _parse_time_to_seconds (strings self end_time_var) = Ok end_s ->
  let video :=
    if is_some start_s || is_some end_s then clip_path C p (fs w1) else p in
  exists l,
    extract_calls (trace (snd (work C self input_path w)))
      = extract_calls (trace w) ++ l /\
    (l = [] \/
     exists a, l = [a] /\ video_path a = video /\
       output_pdf a =
         (if nonempty (Py.strip (strings self output_var))
          then Py.strip (strings self output_var)
          else path_with_suffix C video ".pdf") /\
       output_dir a =
         (if nonempty (Py.strip (strings self outdir_var))
          then Py.strip (strings self outdir_var)
          else path_join C (path_parent C video) "slides_phash") /\
       (is_some start_s || is_some end_s = true ->
        path_parent C (clip_path C p (fs w1)) = clip_dir C p (fs w1) ->
        path_parent C (path_with_suffix C (clip_path C p (fs w1)) ".pdf")
          = path_parent C (clip_path C p (fs w1)) ->
        Py.strip (strings self output_var) = EmptyString ->
        Py.strip (strings self outdir_var) = EmptyString ->
        path_parent C (output_pdf a) = clip_dir C p (fs w1) /\
        output_dir a = path_join C (clip_dir C p (fs w1)) "slides_phash")).
Proof.
  intros Hres Hs He video.
  assert (Hwork : extract_calls (trace (snd (work C self input_path w)))
                  = extract_calls (trace (snd (work_body C self input_path w)))).
  { rewrite work_eq. unfold extract_calls.
    destruct (work_body C self input_path w) as [[[]|e] w']; cbn [snd trace];
      rewrite omap_app; apply app_nil_r. }
  rewrite Hwork, work_body_eq, Hres, parse_bounds_eq, Hs, He. cbn [fst snd].
  pose proof (no_extract_resolve_source self input_path w) as H1.
  rewrite Hres in H1. cbn [snd] in H1.
  pose proof (no_extract_trim_stage p start_s end_s w1) as H3.
  destruct (trim_stage C p start_s end_s w1) as [[q|e] w3] eqn:Ht;
    cbn [snd] in H3.
  - apply trim_stage_result in Ht. fold video in Ht. subst q.
    assert (Hx : adds sel_extract
              (_ <- probe_resolution C video ;; extract_stage C self video)
              (fun l => l = [] \/
                 exists a, l = [a] /\ video_path a = video /\
                   output_pdf a = chosen_output_pdf C self video /\
                   output_dir a = chosen_out_dir C self video)).
    { apply adds_after_unseen;
        [unseen_stage|intros; apply extract_calls_extract_stage
        |left; reflexivity]. }
    destruct (Hx w3) as (l & Hl & HP). exists l. split.
    { unfold extract_calls. rewrite Hl, H3, H1. reflexivity. }
    destruct HP as [->|(a & -> & Hv & Hpdf & Hdir)]; [left; reflexivity|].
    right. exists a.
    split; [reflexivity|]. split; [exact Hv|]. split; [exact Hpdf|].
    split; [exact Hdir|].
    intros Hb Hparent Hsuffix Hout Hod.
    rewrite Hpdf, Hdir. unfold chosen_output_pdf, chosen_out_dir.
    rewrite Hout, Hod. cbn [nonempty String.eqb negb].
    subst video. rewrite Hb, Hsuffix, Hparent. split; reflexivity.
  - exists []. split; [|left; reflexivity]. cbn [snd].
    unfold extract_calls. rewrite H3, H1, app_nil_r. reflexivity.
Qed.

Lemma no_extract_probe_resolution (input_p : string) :
  unseen sel_extract (probe_resolution C input_p).
Proof. unseen_stage. Qed.

(** A run whose stages all returned has called the extractor once. *)
Lemma work_body_ok_extracts (self : App) (input_path : string) (w wb : world) :
  work_body C self input_path w = (Ok tt, wb) ->
  exists a, extract_calls (trace wb) = extract_calls (trace w) ++ [a].
Proof.
  unfold work_body.
  intros (p & w1 & H1 & H)%bind_ok.
  apply bind_ok in H as (bounds & w2 & H2 & H).
  apply bind_ok in H as (q & w3 & H3 & H).
  apply bind_ok in H as ([] & w4 & H4 & H).
  unfold extract_stage in H. cbv zeta in H.
  apply bind_ok in H as (crop & w5 & H5 & H).
  apply bind_ok in H as (a & w6 & H6 & H).
  apply bind_ok in H as ([] & w7 & H7 & H).
  injection H as <-. injection H6 as _ <-.
  rewrite call_extract_eq in H7. injection H7 as _ <-.
  exists a. cbn [trace]. unfold extract_calls. rewrite !omap_app. cbn.
  rewrite app_nil_r. f_equal.
  pose proof (no_extract_manual_select C self q w4) as E5.
  rewrite H5 in E5. cbn [snd] in E5. rewrite E5.
  pose proof (no_extract_probe_resolution q w3) as E4.
  rewrite H4 in E4. cbn [snd] in E4. rewrite E4.
  pose proof (no_extract_trim_stage p (fst bounds) (snd bounds) w2) as E3.
  rewrite H3 in E3. cbn [snd] in E3. rewrite E3.
  assert (E2 : w2 = w1).
  { rewrite parse_bounds_eq in H2.
    destruct (_parse_time_to_seconds (strings self start_time_var));
      [|congruence].
    destruct (_parse_time_to_seconds (strings self end_time_var)); congruence. }
  subst w2.
  pose proof (no_extract_resolve_source self input_path w) as E1.
  rewrite H1 in E1. cbn [snd] in E1. exact E1.
Qed.

(** X27. No run ends in silence.  A run that logs the completion line has
    called the frame extractor exactly once; a run in which the extractor
    was not called shows an error dialog. *)
Theorem run_extracts_or_reports (self : App) (input_path : string) (w : world) :
  (forall wb, work_body C self input_path w = (Ok tt, wb) ->
     exists a,
       extract_calls (trace (snd (work C self input_path w)))
         = extract_calls (trace w) ++ [a]) /\
  (extract_calls (trace (snd (work C self input_path w)))
     = extract_calls (trace w) ->
   exists msg,
     error_dialogs (trace (snd (work C self input_path w)))
       = error_dialogs (trace w) ++ [("运行失败", msg)]).
Proof.
  pose proof (no_error_dialog_work_body C self input_path w) as Hq.
  rewrite work_eq.
  destruct (work_body C self input_path w) as [[[]|e] wb'] eqn:Hbody;
    cbn [snd trace] in *.
  - destruct (work_body_ok_extracts _ _ _ _ Hbody) as (a & Ha).
    assert (Hx : extract_calls (trace wb' ++ [EvRunButton true])
                 = extract_calls (trace w) ++ [a]).
    { unfold extract_calls in *. rewrite omap_app, Ha. apply app_nil_r. }
    split; [intros wb _; eauto|].
    rewrite Hx. intros Habs. exfalso.
    apply (f_equal (@length _)) in Habs. rewrite length_app in Habs.
    cbn in Habs. lia.
  - split; [discriminate|]. intros _. exists (exn_msg e).
    unfold error_dialogs in *. rewrite omap_app, Hq. reflexivity.
Qed.

End Clip.

Lemma clip_directory_before_tool_check_witness :
  trim_stage Demo.collab_no_tool "/videos/talk.mp4" (Some 90%float) None
    Demo.world0
  = (Raise ToolMissing,
     World (<["/videos/video2pdf_segments" := Node true 0]> Demo.files)
       [EvMkdir "/videos/video2pdf_segments";
        EvPrint (trim_notice Demo.collab_no_tool (Some 90%float) None)]).
Proof.
  apply (clip_directory_before_tool_check Demo.collab_no_tool
           "/videos/talk.mp4" (Some 90%float) None Demo.world0);
    reflexivity.
Defined.

Lemma trim_leaves_output_witness :
  exists nd,
    fs (snd (_trim_video_with_ffmpeg Demo.collab "/videos/talk.mp4"
               "/videos/talk.clip.mp4" (Some 90%float) None Demo.world0))
      !! "/videos/talk.clip.mp4" = Some nd /\ (0 < st_size nd)%N.
Proof.
  refine (proj1 (trim_leaves_output Demo.collab "/videos/talk.mp4"
                   "/videos/talk.clip.mp4" (Some 90%float) None Demo.world0)
            _ _).
  vm_compute. reflexivity.
Defined.

Lemma extractor_input_witness :
  exists a,
    extract_calls
      (trace (snd (work Demo.collab (Demo.with_times "90" "") "/videos/talk.mp4"
                     Demo.world0)))
      = [a] /\
    video_path a = "/videos/video2pdf_segments/talk.clip.mp4" /\
    output_pdf a = "/videos/video2pdf_segments/talk.clip.pdf" /\
    output_dir a = "/videos/video2pdf_segments/slides_phash" /\
    path_parent Demo.collab (output_pdf a) = "/videos/video2pdf_segments".
Proof.
  destruct (extractor_input Demo.collab (Demo.with_times "90" "")
              "/videos/talk.mp4" "/videos/talk.mp4" Demo.world0 Demo.world0
              (Some 90%float) None eq_refl eq_refl eq_refl)
    as (l & Hl & [->|(a & -> & Hv & Hpdf & Hdir & Hbeside)]).
  - vm_compute in Hl. discriminate Hl.
  - destruct (Hbeside eq_refl eq_refl eq_refl eq_refl eq_refl) as (Hp & Hd).
    exists a. split; [exact Hl|]. split; [exact Hv|]. split; [exact Hpdf|].
    split; [exact Hd|exact Hp].
Defined.

Lemma run_extracts_or_reports_witness :
  exists msg,
    error_dialogs
      (trace (snd (work Demo.collab (Demo.with_times "abc" "")
                     "/videos/talk.mp4" Demo.world0)))
    = error_dialogs (trace Demo.world0) ++ [("运行失败", msg)].
Proof.
  apply (proj2 (run_extracts_or_reports Demo.collab (Demo.with_times "abc" "")
                  "/videos/talk.mp4" Demo.world0)).
  vm_compute. reflexivity.
Defined.

(** ** The run button and the worker *)

Section RunButton.

Variable C : collaborators.

Ltac open_gui g :=
  cbv beta iota zeta delta [gui_emit threads self env set_worker _worker];
  fold (threads g); fold (self g); fold (env g).

Lemma run_button_enabled_quiet (t t' : list event) :
  omap sel_run_button t' = [] ->
  run_button_enabled (t ++ t') = run_button_enabled t.
Proof.
  intros H. unfold run_button_enabled. rewrite omap_app, H, app_nil_r.
  reflexivity.
Qed.

Lemma run_button_enabled_set (t t' : list event) (b : bool) :
  omap sel_run_button t' = [] ->
  run_button_enabled (t ++ [EvRunButton b] ++ t') = b.
Proof.
  intros H. unfold run_button_enabled. rewrite !omap_app, H, app_nil_r.
  cbn. rewrite last_snoc. reflexivity.
Qed.

Lemma work_enables_run_button (self : App) (input_path : string) (w : world) :
  run_button_enabled (trace (snd (work C self input_path w))) = true.
Proof.
  rewrite work_eq.
  destruct (work_body C self input_path w) as [[[]|e] w']; cbn [snd trace].
  - apply (run_button_enabled_set (trace w') [] true). reflexivity.
  - change (trace w' ++ [EvLog (error_line e);
                         EvShowError "运行失败" (exn_msg e); EvRunButton true])
      with (trace w' ++ [EvLog (error_line e);
                         EvShowError "运行失败" (exn_msg e)]
            ++ [EvRunButton true] ++ []).
    rewrite app_assoc. apply run_button_enabled_set. reflexivity.
Qed.

Lemma worker_alive_gui_emit (e : event) (g : gui) :
  worker_alive (gui_emit e g) = worker_alive g.
Proof. reflexivity. Qed.

Lemma run_button_on_run (g : gui) :
  run_button_enabled (trace (env g)) = negb (worker_alive g) ->
  run_button_enabled (trace (env (_on_run g)))
    = negb (worker_alive (_on_run g)).
Proof.
  intros Hinv. unfold _on_run.
  destruct (worker_alive g) eqn:Hbusy.
  { rewrite worker_alive_gui_emit. cbn [gui_emit env trace].
    rewrite run_button_enabled_quiet by reflexivity.
    rewrite Hinv, Hbusy. reflexivity. }
  destruct (negb (nonempty (Py.strip (strings (self g) input_var)))).
  { rewrite worker_alive_gui_emit. cbn [gui_emit env trace].
    rewrite run_button_enabled_quiet by reflexivity.
    rewrite Hinv, Hbusy. reflexivity. }
  unfold worker_alive, is_alive. open_gui g. cbn [trace].
  rewrite lookup_app_r by lia. rewrite Nat.sub_diag. cbn.
  rewrite <- !app_assoc.
  rewrite (app_assoc (trace (env g)) [EvLogClear]).
  apply (run_button_enabled_set (trace (env g) ++ [EvLogClear])
           [EvThreadStart (length (threads g))] false).
  reflexivity.
Qed.

Lemma run_button_worker_runs (t : nat) (g : gui) :
  one_worker g ->
  run_button_enabled (trace (env g)) = negb (worker_alive g) ->
  run_button_enabled (trace (env (worker_runs C t g)))
    = negb (worker_alive (worker_runs C t g)).
Proof.
  intros Hone Hinv. unfold worker_runs.
  destruct (threads g !! t) as [[ip|]|] eqn:E; try exact Hinv.
  assert (Hw : _worker (self g) = Some t)
    by (apply Hone; unfold is_alive; rewrite E; reflexivity).
  cbn [env]. rewrite work_enables_run_button.
  unfold worker_alive, is_alive. cbn [self threads]. rewrite Hw.
  rewrite list_lookup_insert_eq by (eapply lookup_lt_Some; exact E).
  reflexivity.
Qed.

(** X9. In every state the window can reach, the run button is disabled
    exactly while the worker is alive: a click that starts a worker
    disables it, the end of the worker enables it again whatever happened
    in the run, and nothing else touches it. *)
Theorem run_button_tracks_worker (g : gui) :
  reachable C g ->
  run_button_enabled (trace (env g)) = negb (worker_alive g).
Proof.
  induction 1 as [f|a g Hr IH]; [reflexivity|].
  destruct a as [|v|v x|t]; cbn [step].
  - apply run_button_on_run, IH.
  - unfold worker_alive, is_alive in *. cbn [env self threads].
    rewrite worker_click_checkbox. exact IH.
  - exact IH.
  - apply run_button_worker_runs; [apply (reachable_one_worker C), Hr|exact IH].
Qed.

(** X10. The input of a run is the text of the input entry at the click,
    stripped: what is typed into that entry afterwards does not reach the
    worker.  The other entries are read by the worker itself, so a text
    typed into one of them between the click and the worker's run is the
    one the run uses. *)
Theorem input_fixed_at_click (g : gui) (typed : string) :
  worker_alive g = false ->
  nonempty (Py.strip (strings (self g) input_var)) = true ->
  let tid := length (threads g) in
  let input_path := Py.strip (strings (self g) input_var) in
  let started := _on_run g in
  env (worker_runs C tid started)
    = snd (work C (self started) input_path (env started)) /\
  env (worker_runs C tid (step C (Type_entry input_var typed) started))
    = env (worker_runs C tid started) /\
  (forall v,
     env (worker_runs C tid (step C (Type_entry v typed) started))
       = snd (work C (set_string v typed (self started)) input_path
                (env started))).
Proof.
  intros Hidle Hin tid input_path started.
  assert (Hth : threads started = threads g ++ [Alive input_path]).
  { subst started. unfold _on_run. rewrite Hidle, Hin. reflexivity. }
  assert (Hlook : threads started !! tid = Some (Alive input_path)).
  { rewrite Hth. subst tid. rewrite lookup_app_r by lia.
    rewrite Nat.sub_diag. reflexivity. }
  assert (Hany : forall v,
     env (worker_runs C tid (step C (Type_entry v typed) started))
       = snd (work C (set_string v typed (self started)) input_path
                (env started))).
  { intros v. unfold worker_runs. cbn [step threads self env].
    rewrite Hlook. reflexivity. }
  split; [|split; [|exact Hany]].
  - unfold worker_runs. rewrite Hlook. reflexivity.
  - rewrite Hany. unfold worker_runs. rewrite Hlook. reflexivity.
Qed.

(** X11. A click on the run button with the input entry empty or blank, while
    no worker is alive, only shows a warning: the log is not cleared, the
    button stays as it is and no thread is started. *)
Theorem blank_input_only_warns (g : gui) :
  worker_alive g = false ->
  blank (strings (self g) input_var) ->
  _on_run g =
    Gui (self g) (threads g)
      (World (fs (env g))
         (trace (env g)
          ++ [EvShowWarning "缺少输入" "请先输入本地视频路径或视频网址"])).
Proof.
  intros Hidle Hblank. unfold _on_run. rewrite Hidle.
  replace (Py.strip (strings (self g) input_var)) with EmptyString.
  - reflexivity.
  - symmetry. unfold Py.strip. rewrite (lstrip_blank _ _ Hblank). reflexivity.
Qed.

End RunButton.

Lemma run_button_tracks_worker_witness :
  run_button_enabled
    (trace (env (step Demo.collab Click_run
                   (step Demo.collab (Type_entry input_var "/videos/talk.mp4")
                      (initial_gui Demo.files)))))
  = false.
Proof.
  apply (run_button_tracks_worker Demo.collab
           (step Demo.collab Click_run
              (step Demo.collab (Type_entry input_var "/videos/talk.mp4")
                 (initial_gui Demo.files)))).
  repeat constructor.
Defined.

Lemma input_fixed_at_click_witness :
  let started :=
    _on_run (step Demo.collab (Type_entry input_var " /videos/talk.mp4 ")
               (initial_gui Demo.files)) in
  env (worker_runs Demo.collab 0
         (step Demo.collab (Type_entry input_var "other.mp4") started))
    = env (worker_runs Demo.collab 0 started).
Proof.
  exact (proj1 (proj2 (input_fixed_at_click Demo.collab
                         (step Demo.collab
                            (Type_entry input_var " /videos/talk.mp4 ")
                            (initial_gui Demo.files))
                         "other.mp4" eq_refl eq_refl))).
Defined.

Lemma blank_input_only_warns_witness :
  _on_run (step Demo.collab (Type_entry input_var "   ")
             (initial_gui Demo.files))
  = Gui (set_string input_var "   " initial_app) []
      (World Demo.files
         [EvShowWarning "缺少输入" "请先输入本地视频路径或视频网址"]).
Proof.
  apply (blank_input_only_warns
           (step Demo.collab (Type_entry input_var "   ")
              (initial_gui Demo.files))); reflexivity.
Defined.

(** ** Clicking the crop boxes twice *)

Section Toggles.

Ltac booleans :=
  repeat first [ rewrite booleans_set_same
               | rewrite booleans_set_other by discriminate ].

Ltac click_twice a :=
  unfold click_checkbox, checkbox_command, _on_toggle_auto_crop,
    _on_toggle_manual_select;
  booleans;
  destruct (booleans a auto_crop_var) eqn:Ea,
           (booleans a manual_select_var) eqn:Em;
  cbn [negb]; booleans; cbn [negb]; booleans; rewrite ?Ea, ?Em;
  auto.

(** X12. Switching a crop mode on and off again is not the identity.  Two
    clicks on the manual-selection box restore that box and leave
    auto-crop off, whatever it was before; two clicks on the auto-crop box
    restore that box and leave manual selection off.  The other variables
    of the window are as before. *)
Theorem two_clicks_switch_other_mode_off (a : App) :
  let m2 := click_checkbox manual_select_var
              (click_checkbox manual_select_var a) in
  let a2 := click_checkbox auto_crop_var (click_checkbox auto_crop_var a) in
  booleans m2 manual_select_var = booleans a manual_select_var /\
  booleans m2 auto_crop_var = false /\
  booleans a2 auto_crop_var = booleans a auto_crop_var /\
  booleans a2 manual_select_var = false /\
  booleans m2 a4_var = booleans a a4_var /\
  booleans m2 auto_trim_var = booleans a auto_trim_var /\
  booleans a2 a4_var = booleans a a4_var /\
  booleans a2 auto_trim_var = booleans a auto_trim_var /\
  strings m2 = strings a /\ strings a2 = strings a /\
  _worker m2 = _worker a /\ _worker a2 = _worker a.
Proof.
  intros m2 a2. subst m2 a2.
  repeat split; try (rewrite !worker_click_checkbox; reflexivity);
    click_twice a.
Qed.

End Toggles.

(** ** The progress hook of the worker *)

Section Progress.

Lemma on_progress_eq (m : gmap string pyval) (w : world) :
  on_progress (PDict m) w =
    if is_text (dict_get m "status") "downloading" then
      match get_stripped m "_percent_str", get_stripped m "_speed_str",
            get_stripped m "_eta_str" with
      | Ok p, Ok s, Ok eta =>
          (Ok tt, World (fs w) (trace w ++ [EvLog (downloading_line p s eta)]))
      | _, _, _ => (Ok tt, w)
      end
    else if is_text (dict_get m "status") "finished" then
      if truthy (total_of m) then
        match n <- int_of_pyval (total_of m) ;; int_truediv n 1048576 with
        | Ok x =>
            (Ok tt,
             World (fs w)
               (trace w ++ [EvLog (finished_line (Py.format_f 1 x +:+ "MB"))]))
        | Raise _ => (Ok tt, w)
        end
      else (Ok tt, World (fs w) (trace w ++ [EvLog (finished_line "?")]))
    else (Ok tt, w).
Proof.
  unfold on_progress, try_except. fold (total_of m).
  destruct (is_text (dict_get m "status") "downloading").
  - rewrite lift_bind.
    destruct (get_stripped m "_percent_str") as [p|e]; [|reflexivity].
    rewrite lift_bind.
    destruct (get_stripped m "_speed_str") as [s|e];
      [|destruct (get_stripped m "_eta_str"); reflexivity].
    rewrite lift_bind.
    destruct (get_stripped m "_eta_str") as [eta|e]; reflexivity.
  - destruct (is_text (dict_get m "status") "finished"); [|reflexivity].
    rewrite lift_bind.
    destruct (truthy (total_of m)); [|reflexivity].
    cbn [bind Monad_result].
    destruct (int_of_pyval (total_of m)) as [n|e]; [|reflexivity].
    destruct (int_truediv n 1048576) as [x|e]; reflexivity.
Qed.

Lemma on_progress_harmless : harmless on_progress.
Proof.
  intros d w.
  destruct d as [| b | n | x | s | l | m]; try (split; reflexivity).
  rewrite on_progress_eq.
  repeat match goal with |- context [if ?b then _ else _] => destruct b end;
    repeat match goal with
           | |- context [match ?r with Ok _ => _ | Raise _ => _ end] =>
               destruct r
           end; split; reflexivity.
Qed.

(** X13. The progress hook cannot disturb a download: whatever it is called
    with, it returns without an exception, leaves the files alone and puts
    at most one chunk on the log queue; a value that is not a dictionary,
    or a dictionary with another status than "downloading" and "finished",
    changes nothing at all. *)
Theorem progress_hook_is_harmless (d : pyval) (w : world) :
  fst (on_progress d w) = Ok tt /\
  fs (snd (on_progress d w)) = fs w /\
  (trace (snd (on_progress d w)) = trace w \/
   exists chunk, trace (snd (on_progress d w)) = trace w ++ [EvLog chunk]) /\
  (is_dict d = false -> on_progress d w = (Ok tt, w)) /\
  (forall m, d = PDict m ->
     is_text (dict_get m "status") "downloading" = false ->
     is_text (dict_get m "status") "finished" = false ->
     on_progress d w = (Ok tt, w)).
Proof.
  destruct d as [| b | n | x | s | l | m];
    try (repeat split; solve [reflexivity | left; reflexivity | discriminate]).
  split; [apply on_progress_harmless|].
  split; [apply on_progress_harmless|].
  rewrite on_progress_eq. split; [|split].
  - repeat match goal with |- context [if ?b then _ else _] => destruct b end;
      repeat match goal with
             | |- context [match ?r with Ok _ => _ | Raise _ => _ end] =>
                 destruct r
             end; cbn [snd trace]; eauto.
  - discriminate.
  - intros m' [= <-] H1 H2. rewrite H1, H2. reflexivity.
Qed.


End Progress.

Lemma progress_hook_is_harmless_witness :
  on_progress PNone Demo.world0 = (Ok tt, Demo.world0).
Proof.
  apply (proj1 (proj2 (proj2 (proj2
           (progress_hook_is_harmless PNone Demo.world0))))).
  reflexivity.
Defined.


(** ** A download, step by step *)

Section Download.

Variable C : collaborators.

Lemma for_each_harmless (hook : pyval -> M unit) (ticks : list pyval) (w : world) :
  harmless hook ->
  fst (for_each hook ticks w) = Ok tt /\
  fs (snd (for_each hook ticks w)) = fs w.
Proof.
  intros Hh. revert w. induction ticks as [|d ticks IH]; intros w.
  - split; reflexivity.
  - cbn [for_each]. rewrite bind_M. destruct (Hh d w) as (Hok & Hfs).
    destruct (hook d w) as [[[]|e] w1]; [|discriminate Hok].
    cbn [snd] in Hfs. destruct (IH w1) as (H1 & H2).
    rewrite <- Hfs. auto.
Qed.

Lemma harmless_hook (on_progress' : option (pyval -> M unit)) :
  (forall f, on_progress' = Some f -> harmless f) ->
  harmless (_hook on_progress').
Proof.
  intros H. destruct on_progress' as [f|]; cbn [_hook].
  - apply H. reflexivity.
  - intros d w. split; reflexivity.
Qed.

Lemma ydl_extract_info_harmless opts url hook (w : world) :
  harmless hook ->
  fst (ydl_extract_info C opts url hook w)
    = fst (fst (extract_info C opts url (fs w))) /\
  fs (snd (ydl_extract_info C opts url hook w))
    = snd (extract_info C opts url (fs w)).
Proof.
  intros Hh. unfold ydl_extract_info. rewrite emit_bind, bind_M.
  cbn [get_fs fs].
  destruct (extract_info C opts url (fs w)) as [[r ticks] f'].
  rewrite bind_M.
  match goal with
  | |- context [for_each hook ticks ?w0] =>
      destruct (for_each_harmless hook ticks w0 Hh) as (Hok & _);
      destruct (for_each hook ticks w0) as [[[]|e] w1]; [|discriminate Hok]
  end.
  rewrite bind_M. cbn [put_fs]. unfold lift. cbn [fst snd fs]. auto.
Qed.

(** What a download returns, once the directory is there: the path read
    off the engine's answer, or the engine's exception. *)
Lemma download_video_result (url dir : string) (cookies : option string)
    (quality : string) (proxy : option string) (playlist subs : bool)
    (loc : option string) (on_progress' : option (pyval -> M unit))
    (w w' : world) :
  path_mkdir dir w = (Ok tt, w') ->
  (forall f, on_progress' = Some f -> harmless f) ->
  fst (download_video C url dir cookies quality proxy playlist subs loc
         on_progress' w)
  = (info <- fst (fst (extract_info C
                         (options_of C dir cookies quality proxy playlist
                            subs loc) url (fs w'))) ;;
     resolve_path (prepare_filename C) info).
Proof.
  intros Hmk Hh. unfold download_video. cbv zeta.
  fold (options_of C dir cookies quality proxy playlist subs loc).
  rewrite bind_M, Hmk, bind_M.
  destruct (ydl_extract_info_harmless
              (options_of C dir cookies quality proxy playlist subs loc) url
              (_hook on_progress') w' (harmless_hook _ Hh)) as (H1 & _).
  destruct (ydl_extract_info C _ url (_hook on_progress') w')
    as [[info|e] w2]; cbn [fst snd] in *; rewrite <- H1; reflexivity.
Qed.

(** X15. A download first makes the output directory.  When that fails (the
    path is a file), the engine is not called.  Otherwise the engine is
    called once, with files among which the directory exists, and with a
    hook that cannot raise the outcome is the engine's: its exception goes
    to the caller as it is, its metadata gives the path, and the files
    after are those it left. *)
Theorem download_makes_directory_first (url dir : string)
    (cookies : option string) (quality : string) (proxy : option string)
    (playlist subs : bool) (loc : option string)
    (on_progress' : option (pyval -> M unit)) (w : world) :
  let opts := options_of C dir cookies quality proxy playlist subs loc in
  let out :=
    download_video C url dir cookies quality proxy playlist subs loc
      on_progress' w in
  (forall e w', path_mkdir dir w = (Raise e, w') ->
     out = (Raise e, w') /\
     download_calls (trace w') = download_calls (trace w)) /\
  (forall w', path_mkdir dir w = (Ok tt, w') ->
     (forall f, on_progress' = Some f -> harmless f) ->
     (exists nd, fs w' !! dir = Some nd /\ is_dir nd = true) /\
     fst out =
       (info <- fst (fst (extract_info C opts url (fs w'))) ;;
        resolve_path (prepare_filename C) info) /\
     fs (snd out) = snd (extract_info C opts url (fs w'))).
Proof.
  intros opts out. subst out. unfold download_video. cbv zeta.
  fold (options_of C dir cookies quality proxy playlist subs loc). fold opts.
  rewrite bind_M. split.
  - intros e w' Hmk. rewrite Hmk. split; [reflexivity|].
    assert (Hq : unseen sel_download (path_mkdir dir))
      by (unfold path_mkdir; unseen).
    specialize (Hq w). rewrite Hmk in Hq. exact Hq.
  - intros w' Hmk Hh. rewrite Hmk. split; [exact (path_mkdir_ok _ _ _ Hmk)|].
    rewrite bind_M.
    destruct (ydl_extract_info_harmless opts url (_hook on_progress') w'
                (harmless_hook _ Hh)) as (H1 & H2).
    destruct (ydl_extract_info C opts url (_hook on_progress') w')
      as [[info|e] w2]; cbn [fst snd] in *; rewrite <- H1, <- H2;
      cbn [bind Monad_result]; split; reflexivity.
Qed.

Lemma on_progress_world (d : pyval) (w : world) :
  on_progress d w
    = (Ok tt, World (fs w) (trace w ++ map EvLog (progress_chunks d))).
Proof.
  unfold progress_chunks.
  destruct d as [| b | n | x | s | l | m];
    try (cbn; rewrite app_nil_r; destruct w; reflexivity).
  rewrite !on_progress_eq.
  repeat match goal with |- context [if ?b then _ else _] => destruct b end;
    repeat match goal with
           | |- context [match ?r with Ok _ => _ | Raise _ => _ end] =>
               destruct r
           end;
    cbn; rewrite ?app_nil_r; destruct w; reflexivity.
Qed.

Lemma for_each_on_progress (ticks : list pyval) (w : world) :
  for_each on_progress ticks w
    = (Ok tt,
       World (fs w) (trace w ++ map EvLog (flat_map progress_chunks ticks))).
Proof.
  revert w. induction ticks as [|d ticks IH]; intros w; cbn [for_each].
  - cbn. rewrite app_nil_r. destruct w; reflexivity.
  - rewrite bind_M, on_progress_world, IH. cbn [fs trace flat_map].
    rewrite map_app, app_assoc. reflexivity.
Qed.

Lemma log_chunks_logged (t : list event) (chunks : list string) :
  log_chunks (t ++ map EvLog chunks) = log_chunks t ++ chunks.
Proof.
  unfold log_chunks. rewrite omap_app. f_equal.
  induction chunks as [|c chunks IH]; [reflexivity|]. cbn. rewrite IH.
  reflexivity.
Qed.

(** X28. During a download of the window every progress report of the
    engine reaches the hook once, and the lines the hook makes of them
    appear on the log queue in the order of the reports; the download adds
    no other chunk. *)
Theorem reports_logged_in_order (url dir : string) (w w' : world) :
  path_mkdir dir w = (Ok tt, w') ->
  let opts := options_of C dir None "best" None false false None in
  log_chunks
    (trace (snd (download_video C url dir None "best" None false false None
                   (Some on_progress) w)))
  = log_chunks (trace w)
    ++ flat_map progress_chunks (snd (fst (extract_info C opts url (fs w')))).
Proof.
  intros Hmk opts. unfold download_video. cbv zeta.
  fold (options_of C dir None "best" None false false None). fold opts.
  rewrite bind_M, Hmk.
  assert (Hq : log_chunks (trace w') = log_chunks (trace w)).
  { assert (Hu : unseen sel_log (path_mkdir dir))
      by (unfold path_mkdir; unseen).
    specialize (Hu w). rewrite Hmk in Hu. exact Hu. }
  rewrite bind_M. unfold ydl_extract_info. rewrite emit_bind, bind_M.
  cbn [get_fs fs _hook].
  destruct (extract_info C opts url (fs w')) as [[r ticks] f'].
  rewrite bind_M, for_each_on_progress. cbn [fs trace fst snd].
  rewrite bind_M. cbn [put_fs]. unfold lift.
  assert (Hlog : log_chunks
                   ((trace w' ++ [EvDownload url opts])
                    ++ map EvLog (flat_map progress_chunks ticks))
                 = log_chunks (trace w) ++ flat_map progress_chunks ticks).
  { rewrite log_chunks_logged. f_equal. unfold log_chunks in *.
    rewrite omap_app, Hq. apply app_nil_r. }
  destruct r as [info|e]; cbn [snd trace]; exact Hlog.
Qed.

End Download.

Lemma download_makes_directory_first_witness :
  fst (download_video Demo.collab "https://example.com/talk" "/tmp/dl" None
         "720p" None false false None (Some on_progress) Demo.world0)
  = Ok "/tmp/dl/talk [abc].mp4".
Proof.
  destruct (proj2 (download_makes_directory_first Demo.collab
                     "https://example.com/talk" "/tmp/dl" None "720p" None
                     false false None (Some on_progress) Demo.world0)
              (snd (path_mkdir "/tmp/dl" Demo.world0)) eq_refl
              (fun f H => eq_ind on_progress harmless on_progress_harmless f
                            (f_equal (default on_progress) H)))
    as (_ & H & _).
  rewrite H. vm_compute. reflexivity.
Defined.

Lemma reports_logged_in_order_witness :
  log_chunks
    (trace (snd (download_video Demo.collab "https://example.com/talk"
                   "/tmp/dl" None "best" None false false None
                   (Some on_progress) Demo.world0)))
  = [downloading_line "50.0%" "1.00MiB/s" "00:25"; finished_line "50.0MB"].
Proof.
  exact (reports_logged_in_order Demo.collab "https://example.com/talk"
           "/tmp/dl" Demo.world0 (snd (path_mkdir "/tmp/dl" Demo.world0))
           eq_refl).
Defined.

(** ** The path a download returns *)

Section DownloadedPath.

Variable C : collaborators.

(** C8. The path [download_video] returns, once the output directory is
    there and with a progress callback that cannot raise, is read off the
    metadata the engine answers with.  Metadata that is not a dictionary
    makes the download raise the DownloadError.  With a non-empty list
    under "entries" the first entry alone decides, whatever follows it and
    whatever else the dictionary holds; without entries the dictionary
    itself decides.  For the deciding value the recorded download's
    filepath is returned whenever a requested-downloads record exists, the
    naming template being asked only when none does. *)
Theorem download_video_path_spec (url dir : string) (cookies : option string)
    (quality : string) (proxy : option string) (playlist subs : bool)
    (loc : option string) (on_progress' : option (pyval -> M unit))
    (w w' : world) :
  path_mkdir dir w = (Ok tt, w') ->
  (forall f, on_progress' = Some f -> harmless f) ->
  let answer :=
    fst (fst (extract_info C
                (options_of C dir cookies quality proxy playlist subs loc)
                url (fs w'))) in
  let out :=
    fst (download_video C url dir cookies quality proxy playlist subs loc
           on_progress' w) in
  (forall info, answer = Ok info -> is_dict info = false ->
     out = Raise no_metadata) /\
  (forall d entry rest,
     answer = Ok (PDict d) ->
     d !! "entries" = Some (PList (entry :: rest)) ->
     out = if has_requested_downloads entry then requested_filepath entry
           else prepare_filename C entry) /\
  (forall d,
     answer = Ok (PDict d) ->
     d !! "entries" = None \/ d !! "entries" = Some (PList []) ->
     out = if has_requested_downloads (PDict d)
           then requested_filepath (PDict d)
           else prepare_filename C (PDict d)) /\
  (forall e record more fp,
     e !! "requested_downloads" = Some (PList (PDict record :: more)) ->
     record !! "filepath" = Some (PStr fp) ->
     has_requested_downloads (PDict e) = true /\
     requested_filepath (PDict e) = Ok fp) /\
  (forall v,
     has_requested_downloads v = false <->
     match v with
     | PDict e =>
         e !! "requested_downloads" = None \/
         exists x, e !! "requested_downloads" = Some x /\ truthy x = false
     | _ => True
     end).
Proof.
  intros Hmk Hh answer out.
  assert (Hout : out = (info <- answer ;;
                        resolve_path (prepare_filename C) info))
    by exact (download_video_result C url dir cookies quality proxy playlist
                subs loc on_progress' w w' Hmk Hh).
  split; [|split; [|split; [|split]]].
  - intros info Ha Hd. rewrite Hout, Ha. cbn [bind Monad_result].
    apply resolve_path_not_dict, Hd.
  - intros d entry rest Ha He. rewrite Hout, Ha. cbn [bind Monad_result].
    apply resolve_path_first_entry with (rest := rest), He.
  - intros d Ha He. rewrite Hout, Ha. cbn [bind Monad_result].
    apply resolve_path_single, He.
  - intros e record more fp. apply requested_filepath_record.
  - apply has_requested_downloads_false.
Qed.

End DownloadedPath.

Lemma download_video_path_spec_witness :
  fst (download_video Demo.collab_playlist "https://example.com/list" "/tmp/dl"
         None "best" None true false None (Some on_progress) Demo.world0)
  = Ok "/tmp/dl/talk [abc].mp4".
Proof.
  rewrite (proj1 (proj2 (download_video_path_spec Demo.collab_playlist
             "https://example.com/list" "/tmp/dl" None "best" None true false
             None (Some on_progress) Demo.world0
             (snd (path_mkdir "/tmp/dl" Demo.world0)) eq_refl
             (fun f H => eq_ind on_progress harmless on_progress_harmless f
                           (f_equal (default on_progress) H))))
             {[ "id" := PStr "list";
                "entries" := PList [Demo.video_info;
                                    PDict {[ "id" := PStr "def" ]}] ]}
             Demo.video_info [PDict {[ "id" := PStr "def" ]}]).
  - vm_compute. reflexivity.
  - reflexivity.
  - vm_compute. reflexivity.
Defined.

(** ** Download records that lack the file path *)

Section Records.

Variable prepare : pyval -> result string.


End Records.


(** ** The numeric entries of the window *)

(** *** Texts of blanks are no numbers *)

Lemma isspace_to_ascii_space (c : ascii) :
  Py.isspace c = true -> Py.isspace (Py.to_ascii_space c) = true.
Proof.
  destruct c as [[] [] [] [] [] [] [] []]; vm_compute; intros H;
    first [exact H | reflexivity].
Qed.

Lemma odd_blank_char (c : ascii) :
  Py.isspace c = true -> Py.isspace_c c = false ->
  Py.isdecimal_char c = false /\ Py.read_sign (String c EmptyString)
    = (false, String c EmptyString) /\
  Ascii.eqb c "_" = false /\ Ascii.eqb c "." = false /\
  Ascii.eqb (Py.tolower_c c) "i" = false /\
  Ascii.eqb (Py.tolower_c c) "n" = false.
Proof.
  destruct c as [[] [] [] [] [] [] [] []]; vm_compute; intros H1 H2;
    first [discriminate H1 | discriminate H2 | repeat split; reflexivity].
Qed.

Lemma blank_map_to_ascii_space (s : string) :
  blank s -> blank (Py.map_string Py.to_ascii_space s).
Proof.
  unfold blank. induction s as [|c s IH]; cbn; [reflexivity|].
  intros [Hc Hs]%andb_true_iff.
  rewrite (isspace_to_ascii_space c Hc). cbn. auto.
Qed.

Lemma blank_lstrip_head (s : string) :
  blank s -> odd_blank_head (Py.lstrip_with Py.isspace_c s).
Proof.
  unfold blank. induction s as [|c s IH]; cbn; [exact (fun _ => I)|].
  intros [Hc Hs]%andb_true_iff.
  destruct (Py.isspace_c c) eqn:E; [auto|]. cbn. auto.
Qed.

Lemma odd_blank_head_rstrip (s : string) :
  odd_blank_head s -> odd_blank_head (Py.rstrip_with Py.isspace_c s).
Proof.
  destruct s as [|c s]; [exact (fun H => H)|]. cbn.
  intros [H1 H2]. rewrite H2.
  destruct (Py.rstrip_with Py.isspace_c s); cbn; auto.
Qed.

Lemma read_sign_odd_blank (s : string) :
  odd_blank_head s -> Py.read_sign s = (false, s).
Proof.
  destruct s as [|c s]; [reflexivity|]. intros [H1 H2].
  destruct (odd_blank_char c H1 H2) as (_ & Hs & _).
  unfold Py.read_sign in *.
  destruct c as [[] [] [] [] [] [] [] []]; try reflexivity; discriminate Hs.
Qed.

Lemma blank_no_underscore (s : string) (prev : ascii) :
  blank s -> Ascii.eqb prev "_" = false ->
  Py.drop_underscores prev s = Some s.
Proof.
  unfold blank. revert prev. induction s as [|c s IH]; intros prev; cbn.
  - intros _ ->. reflexivity.
  - intros [Hc Hs]%andb_true_iff Hprev.
    assert (Hu : Ascii.eqb c "_" = false).
    { destruct c as [[] [] [] [] [] [] [] []]; try reflexivity;
        vm_compute in Hc; discriminate Hc. }
    rewrite Hu, Hprev. cbn. rewrite (IH c Hs Hu). reflexivity.
Qed.

Lemma int_of_str_blank (s : string) : blank s -> Py.int_of_str s = None.
Proof.
  intros Hb. unfold Py.int_of_str.
  pose proof (blank_lstrip_head _ (blank_map_to_ascii_space _ Hb)) as Hh.
  rewrite (read_sign_odd_blank _ Hh).
  destruct (Py.lstrip_with Py.isspace_c (Py.map_string Py.to_ascii_space s))
    as [|c r]; [reflexivity|].
  destruct Hh as [H1 H2]. destruct (odd_blank_char c H1 H2) as (-> & _).
  reflexivity.
Qed.

Lemma float_of_str_blank (s : string) : blank s -> Py.float_of_str s = None.
Proof.
  intros Hb. unfold Py.float_of_str.
  rewrite (blank_no_underscore _ _ (blank_map_to_ascii_space _ Hb))
    by reflexivity.
  pose proof (odd_blank_head_rstrip _
                (blank_lstrip_head _ (blank_map_to_ascii_space _ Hb))) as Hh.
  rewrite (read_sign_odd_blank _ Hh).
  destruct (Py.rstrip_with Py.isspace_c
              (Py.lstrip_with Py.isspace_c
                 (Py.map_string Py.to_ascii_space s))) as [|c r];
    [reflexivity|].
  destruct Hh as [H1 H2].
  destruct (odd_blank_char c H1 H2) as (Hd & _ & _ & Hdot & Hi & Hn).
  unfold Py.parse_decimal. cbn [Py.read_digits]. rewrite Hd.
  assert (Hnodot : match String c r with
                   | String "." s1' => Py.read_digits s1' 0 0
                   | _ => (0%nat, 0, String c r)
                   end = (0%nat, 0, String c r)).
  { destruct c as [[] [] [] [] [] [] [] []]; try reflexivity;
      discriminate Hdot. }
  rewrite Hnodot. cbn [Nat.add].
  unfold Py.parse_inf_or_nan. cbn [Py.match_nocase]. rewrite Hi, Hn.
  reflexivity.
Qed.

Section Entries.

Variable C : collaborators.

(** What each keyword argument was read from. *)
Lemma extraction_options_inv (self : App) (input_p pdf dir : string)
    (manual_crop : option (Z * Z * Z * Z)) (a : extract_args) :
  extraction_options C self input_p pdf dir manual_crop = Ok a ->
  float_or (strings self sample_var) half = Ok (sample_seconds a) /\
  int_or (strings self threshold_var) 10 = Ok (threshold a) /\
  optional_int (strings self scale_width_var) = Ok (scale_width a) /\
  optional_int (strings self max_pages_var) = Ok (max_pages a) /\
  a4 a = booleans self a4_var /\
  auto_trim a = booleans self auto_trim_var /\
  float_or (strings self auto_trim_ratio_var) ratio_098
    = Ok (auto_trim_ratio a) /\
  int_or (strings self auto_trim_pad_var) 6 = Ok (auto_trim_pad a) /\
  auto_trim_sides a =
    (if nonempty (strings self auto_trim_sides_var)
     then strings self auto_trim_sides_var else "tb") /\
  int_or (strings self auto_crop_pad_var) 6 = Ok (auto_crop_pad a) /\
  float_or (strings self auto_crop_min_area_var) ratio_005
    = Ok (auto_crop_min_area_ratio a).
Proof.
  unfold extraction_options. cbn [bind ret Monad_result].
  repeat match goal with
         | |- context [match ?x with Ok _ => _ | Raise _ => _ end] =>
             destruct x eqn:?; [|discriminate]
         end.
  intros [= <-].
  cbn [sample_seconds threshold scale_width max_pages a4 auto_trim
       auto_trim_ratio auto_trim_pad auto_trim_sides auto_crop_pad
       auto_crop_min_area_ratio].
  repeat split; reflexivity.
Qed.

(** X17. An entry that was emptied stands for its built-in value: 0.5 seconds
    between samples, threshold 10, trim ratio 0.98, trim margin 6, trim
    sides "tb", crop margin 6 and area ratio 0.05; an empty width or page
    limit stands for none. *)
Theorem emptied_entries_fall_back (self : App) (input_p pdf dir : string)
    (manual_crop : option (Z * Z * Z * Z)) (a : extract_args) :
  extraction_options C self input_p pdf dir manual_crop = Ok a ->
  (strings self sample_var = EmptyString -> sample_seconds a = 0.5%float) /\
  (strings self threshold_var = EmptyString -> threshold a = 10) /\
  (strings self auto_trim_ratio_var = EmptyString ->
   auto_trim_ratio a = 0.98%float) /\
  (strings self auto_trim_pad_var = EmptyString -> auto_trim_pad a = 6) /\
  (strings self auto_trim_sides_var = EmptyString -> auto_trim_sides a = "tb") /\
  (strings self auto_crop_pad_var = EmptyString -> auto_crop_pad a = 6) /\
  (strings self auto_crop_min_area_var = EmptyString ->
   auto_crop_min_area_ratio a = 0.05%float) /\
  (strings self scale_width_var = EmptyString -> scale_width a = None) /\
  (strings self max_pages_var = EmptyString -> max_pages a = None).
Proof.
  intros H. apply extraction_options_inv in H
    as (H1 & H2 & H3 & H4 & _ & _ & H7 & H8 & H9 & H10 & H11).
  repeat split; intros E; rewrite E in *;
    first [ injection H1 as <- | injection H2 as <- | injection H3 as <-
          | injection H4 as <- | injection H7 as <- | injection H8 as <-
          | injection H10 as <- | injection H11 as <- | idtac ];
    first [ reflexivity | exact H9 ].
Qed.

(** X18. An entry that holds blanks only is not an emptied entry.  For the
    sampling interval, the threshold, the trim ratio, the two margins and
    the area ratio the run then fails, since blanks are no number; for the
    width and the page limit blanks stand for none, as the empty text
    does. *)
Theorem entries_of_blanks (self : App) (input_p pdf dir : string)
    (manual_crop : option (Z * Z * Z * Z)) :
  (forall v,
     In v [sample_var; threshold_var; auto_trim_ratio_var; auto_trim_pad_var;
           auto_crop_pad_var; auto_crop_min_area_var] ->
     strings self v <> EmptyString -> blank (strings self v) ->
     is_ok (extraction_options C self input_p pdf dir manual_crop) = false) /\
  (forall a,
     extraction_options C self input_p pdf dir manual_crop = Ok a ->
     (blank (strings self scale_width_var) -> scale_width a = None) /\
     (blank (strings self max_pages_var) -> max_pages a = None)).
Proof.
  split.
  - intros v Hv Hne Hb.
    destruct (extraction_options C self input_p pdf dir manual_crop)
      as [a|e] eqn:Ha; [exfalso|reflexivity].
    apply extraction_options_inv in Ha
      as (H1 & H2 & _ & _ & _ & _ & H7 & H8 & _ & H10 & H11).
    assert (Hn : nonempty (strings self v) = true).
    { unfold nonempty. destruct (String.eqb_spec (strings self v) EmptyString);
        [contradiction|reflexivity]. }
    unfold float_or, int_or, py_float, py_int in *.
    cbn [In] in Hv.
    destruct Hv as [<-|[<-|[<-|[<-|[<-|[<-|[]]]]]]];
      rewrite Hn in *;
      rewrite ?(float_of_str_blank _ Hb), ?(int_of_str_blank _ Hb) in *;
      discriminate.
  - intros a Ha.
    apply extraction_options_inv in Ha as (_ & _ & H3 & H4 & _).
    unfold optional_int in *.
    split; intros Hb.
    + assert (E : Py.strip (strings self scale_width_var) = EmptyString)
        by (unfold Py.strip; rewrite (lstrip_blank _ _ Hb); reflexivity).
      rewrite E in H3. injection H3 as <-. reflexivity.
    + assert (E : Py.strip (strings self max_pages_var) = EmptyString)
        by (unfold Py.strip; rewrite (lstrip_blank _ _ Hb); reflexivity).
      rewrite E in H4. injection H4 as <-. reflexivity.
Qed.

End Entries.

Lemma emptied_entries_fall_back_witness :
  exists a,
    extraction_options Demo.collab (set_string sample_var "" initial_app)
      "/videos/talk.mp4" "/videos/talk.pdf" "/videos/slides_phash" None = Ok a /\
    sample_seconds a = 0.5%float.
Proof.
  assert (H : exists a,
            extraction_options Demo.collab
              (set_string sample_var "" initial_app)
              "/videos/talk.mp4" "/videos/talk.pdf" "/videos/slides_phash"
              None = Ok a)
    by (vm_compute; eexists; reflexivity).
  destruct H as (a & H). exists a. split; [exact H|].
  apply (proj1 (emptied_entries_fall_back Demo.collab _ _ _ _ _ a H)).
  reflexivity.
Defined.

Lemma entries_of_blanks_witness :
  is_ok (extraction_options Demo.collab
           (set_string threshold_var "  " initial_app)
           "/videos/talk.mp4" "/videos/talk.pdf" "/videos/slides_phash" None)
    = false.
Proof.
  apply (proj1 (entries_of_blanks Demo.collab
                  (set_string threshold_var "  " initial_app)
                  "/videos/talk.mp4" "/videos/talk.pdf" "/videos/slides_phash"
                  None) threshold_var).
  - right. left. reflexivity.
  - vm_compute. discriminate.
  - reflexivity.
Defined.

(** ** The log: from the queue to the text widget *)

Section Log.

Lemma append_assoc (a b c : string) : (a +:+ b) +:+ c = a +:+ (b +:+ c).
Proof.
  induction a as [|x a IH]; [reflexivity|].
  rewrite !append_cons, IH. reflexivity.
Qed.

Lemma append_empty_r (a : string) : a +:+ EmptyString = a.
Proof.
  induction a as [|x a IH]; [reflexivity|]. rewrite append_cons, IH.
  reflexivity.
Qed.

Lemma joined_app (l1 l2 : list string) :
  joined (l1 ++ l2) = joined l1 +:+ joined l2.
Proof.
  induction l1 as [|c l1 IH]; [reflexivity|].
  cbn [app joined fold_right]. fold (joined (l1 ++ l2)). fold (joined l1).
  rewrite IH, append_assoc. reflexivity.
Qed.

Lemma drain_loop_eq (q : list string) (p : log_pane) :
  drain_loop q p = LogPane [] (log p +:+ joined q) (after_calls p).
Proof.
  revert p. induction q as [|c q IH]; intros p; cbn [drain_loop].
  - cbn. rewrite append_empty_r. reflexivity.
  - rewrite IH. cbn [_append_log log after_calls joined fold_right].
    fold (joined q). rewrite append_assoc. reflexivity.
Qed.

Lemma drain_log_eq (p : log_pane) :
  _drain_log p =
    LogPane [] (log p +:+ joined (_log_queue p)) (after_calls p ++ [100]).
Proof. unfold _drain_log. rewrite drain_loop_eq. reflexivity. Qed.

Lemma all_text_step (a : pane_action) (p : log_pane) :
  a <> Log_delete ->
  all_text (pane_step a p) = all_text p +:+ joined (handed_over a).
Proof.
  unfold all_text. destruct a as [chunk|s| |]; intros Hd; cbn [pane_step].
  - cbn [queue_put _log_queue log handed_over].
    rewrite joined_app, append_assoc. reflexivity.
  - unfold stream_write, StreamToQueue.write. cbn [snd _log_queue log handed_over].
    destruct (nonempty s) eqn:E.
    + rewrite joined_app, append_assoc. reflexivity.
    + unfold nonempty in E. apply negb_false_iff, String.eqb_eq in E. subst s.
      cbn. rewrite !append_empty_r. reflexivity.
  - contradiction.
  - unfold timer_fires. cbn [handed_over joined fold_right].
    rewrite append_empty_r.
    destruct (after_calls p) as [|d rest]; [reflexivity|].
    rewrite drain_log_eq. cbn. rewrite append_empty_r. reflexivity.
Qed.

Lemma all_text_run (l : list pane_action) (p : log_pane) :
  Forall (fun a => a <> Log_delete) l ->
  all_text (pane_run l p) = all_text p +:+ joined (flat_map handed_over l).
Proof.
  revert p. induction l as [|a l IH]; intros p Hl; cbn.
  - rewrite append_empty_r. reflexivity.
  - inversion Hl as [|? ? Ha Hl']; subst.
    unfold pane_run in IH. rewrite (IH _ Hl'), (all_text_step a p Ha).
    rewrite joined_app, append_assoc. reflexivity.
Qed.

Lemma after_calls_step (a : pane_action) (p : log_pane) :
  length (after_calls (pane_step a p)) = length (after_calls p) /\
  (Forall (fun d => d = 100) (after_calls p) ->
   Forall (fun d => d = 100) (after_calls (pane_step a p))).
Proof.
  destruct a as [chunk|s| |]; cbn [pane_step].
  - split; [reflexivity|exact (fun H => H)].
  - unfold stream_write, StreamToQueue.write. cbn [snd after_calls].
    split; [reflexivity|exact (fun H => H)].
  - split; [reflexivity|exact (fun H => H)].
  - unfold timer_fires. destruct (after_calls p) as [|d rest] eqn:E.
    + rewrite E. split; [reflexivity|exact (fun H => H)].
    + rewrite drain_log_eq. cbn [after_calls]. rewrite length_app. cbn.
      split; [lia|]. intros H. inversion H; subst.
      apply Forall_app. auto.
Qed.

Lemma after_calls_run (l : list pane_action) (p : log_pane) :
  length (after_calls (pane_run l p)) = length (after_calls p) /\
  (Forall (fun d => d = 100) (after_calls p) ->
   Forall (fun d => d = 100) (after_calls (pane_run l p))).
Proof.
  revert p. induction l as [|a l IH]; intros p; cbn; [auto|].
  destruct (after_calls_step a p) as (H1 & H2).
  destruct (IH (pane_step a p)) as (H3 & H4). unfold pane_run in *.
  rewrite H3, H1. auto.
Qed.

Lemma drained_log_eq (l : list pane_action) (p : log_pane) :
  Forall (fun a => a <> Log_delete) l ->
  after_calls p <> [] ->
  _log_queue (pane_run (l ++ [Timer_fires]) p) = [] /\
  log (pane_run (l ++ [Timer_fires]) p)
    = log p +:+ joined (_log_queue p) +:+ joined (flat_map handed_over l).
Proof.
  intros Hl Hp. pose proof (all_text_run l p Hl) as H. unfold all_text in H.
  unfold pane_run. rewrite fold_left_app. cbn [fold_left pane_step].
  fold (pane_run l p). unfold timer_fires.
  destruct (after_calls_run l p) as (Hlen & _).
  destruct (after_calls (pane_run l p)) as [|d rest].
  { destruct (after_calls p); [contradiction|discriminate]. }
  rewrite drain_log_eq. cbn [_log_queue log].
  split; [reflexivity|]. rewrite H, append_assoc. reflexivity.
Qed.

(** X19. Nothing handed to the log is lost, doubled or reordered.  Whatever the
    order of puts by the worker, writes through the stream and polls of the
    window, the text of the log followed by the chunks still queued is the
    text before followed by all that was handed over, in order; and after
    one more poll the queue is empty and all of it is shown. *)
Theorem log_shows_all_in_order (l : list pane_action) (p : log_pane) :
  Forall (fun a => a <> Log_delete) l ->
  after_calls p <> [] ->
  log (pane_run l p) +:+ joined (_log_queue (pane_run l p))
    = log p +:+ joined (_log_queue p) +:+ joined (flat_map handed_over l) /\
  _log_queue (pane_run (l ++ [Timer_fires]) p) = [] /\
  log (pane_run (l ++ [Timer_fires]) p)
    = log p +:+ joined (_log_queue p) +:+ joined (flat_map handed_over l).
Proof.
  intros Hl Hp. pose proof (all_text_run l p Hl) as H. unfold all_text in H.
  split; [rewrite H, append_assoc; reflexivity|].
  exact (drained_log_eq l p Hl Hp).
Qed.

(** X20. Clearing the log at a click empties the text widget, not the queue:
    chunks still queued at that moment are shown by the next poll, at the
    head of the new log. *)
Theorem clearing_keeps_queued_chunks (l : list pane_action) (p : log_pane) :
  Forall (fun a => a <> Log_delete) l ->
  after_calls p <> [] ->
  log (pane_run (Log_delete :: l ++ [Timer_fires]) p)
    = joined (_log_queue p) +:+ joined (flat_map handed_over l).
Proof.
  intros Hl Hp.
  change (pane_run (Log_delete :: l ++ [Timer_fires]) p)
    with (pane_run (l ++ [Timer_fires]) (log_delete_all p)).
  destruct (drained_log_eq l (log_delete_all p) Hl Hp) as (_ & H).
  rewrite H. reflexivity.
Qed.

(** X21. From start-up on, exactly one poll of the log queue is pending, due
    after 100 ms, whatever happens to the log side. *)
Theorem one_poll_pending (l : list pane_action) :
  after_calls (pane_run l initial_pane) = [100].
Proof.
  destruct (after_calls_run l initial_pane) as (Hlen & Hall).
  specialize (Hall ltac:(repeat constructor)).
  destruct (after_calls (pane_run l initial_pane)) as [|d [|d' rest]];
    try discriminate Hlen.
  inversion Hall; subst. reflexivity.
Qed.

End Log.

Lemma log_shows_all_in_order_witness :
  log (pane_run [Put "a"; Timer_fires; Stream_write ""; Stream_write "b";
                 Put "c"; Timer_fires] initial_pane)
    = "abc".
Proof.
  apply (proj2 (proj2 (log_shows_all_in_order
                         [Put "a"; Timer_fires; Stream_write "";
                          Stream_write "b"; Put "c"] initial_pane
                         ltac:(repeat constructor; discriminate)
                         ltac:(discriminate)))).
Defined.

Lemma clearing_keeps_queued_chunks_witness :
  log (pane_run [Log_delete; Put "new"; Timer_fires]
         (LogPane ["old"] "shown" [100]))
    = "oldnew".
Proof.
  apply (clearing_keeps_queued_chunks [Put "new"]
           (LogPane ["old"] "shown" [100])).
  - repeat constructor; discriminate.
  - discriminate.
Defined.

(** ** DPI awareness at start-up *)

Section DpiAwareness.

Variable sys : dpi_system.

(** X22. Setting the DPI awareness never raises.  Off Windows, and when ctypes
    or user32 cannot be had, no system call is made.  Otherwise the three
    calls are tried in a fixed order, per-monitor awareness of the second
    version first, then per-monitor awareness, then the system-wide call,
    each one only when all before it raised. *)
Theorem dpi_awareness_fallback (made : list dpi_call) :
  let out := _enable_windows_dpi_awareness sys made in
  fst out = Ok tt /\
  (platform sys <> "win32" -> snd out = made) /\
  (platform sys = "win32" ->
   is_ok (import_ctypes sys) = false \/ is_ok (windll_user32 sys) = false ->
   snd out = made) /\
  (platform sys = "win32" ->
   is_ok (import_ctypes sys) = true -> is_ok (windll_user32 sys) = true ->
   snd out =
     made ++
     if is_ok (SetProcessDpiAwarenessContext sys (-4))
     then [Call_context (-4)]
     else if is_ok (shcore_SetProcessDpiAwareness sys 2)
     then [Call_context (-4); Call_awareness 2]
     else [Call_context (-4); Call_awareness 2; Call_aware]).
Proof.
  intros out. subst out. unfold _enable_windows_dpi_awareness.
  destruct (String.eqb_spec (platform sys) "win32") as [Hwin|Hnot]; cbn [negb].
  2:{ repeat split; try reflexivity; intros; contradiction. }
  unfold dpi_try, dpi_lift, dpi_do. cbn [bind ret Monad_Dpi].
  destruct (import_ctypes sys) as [[]|e0]; cbn [is_ok].
  2:{ repeat split; try reflexivity; intros; discriminate. }
  destruct (windll_user32 sys) as [[]|e1]; cbn [is_ok].
  2:{ repeat split; try reflexivity; intros; discriminate. }
  destruct (SetProcessDpiAwarenessContext sys (-4)) as [[]|e2]; cbn [is_ok].
  { repeat split; try reflexivity; try contradiction.
    intros _ [H|H]; discriminate H. }
  destruct (shcore_SetProcessDpiAwareness sys 2) as [[]|e3]; cbn [is_ok].
  { repeat split; try contradiction.
    - intros _ [H|H]; discriminate H.
    - intros _ _ _. cbn [snd]. rewrite <- app_assoc. reflexivity. }
  destruct (SetProcessDPIAware sys) as [[]|e4];
    (repeat split; try contradiction;
     [intros _ [H|H]; discriminate H
     |intros _ _ _; cbn [snd]; rewrite <- !app_assoc; reflexivity]).
Qed.

End DpiAwareness.

Lemma dpi_awareness_fallback_witness :
  snd (_enable_windows_dpi_awareness Demo.windows_8 [])
    = [Call_context (-4); Call_awareness 2].
Proof.
  exact (proj2 (proj2 (proj2 (dpi_awareness_fallback Demo.windows_8 [])))
           eq_refl eq_refl eq_refl).
Defined.

(** ** What the window asks of the download engine *)

Section EngineCalls.

Variable C : collaborators.

Lemma engine_calls_resolve_source (self : App) (input_path : string) :
  adds sel_engine_call (resolve_source C self input_path)
    (fun l => l = [] \/
       l = [(input_path,
             options_of C (download_dir C self) None "best" None false false
               None)]).
Proof.
  unfold resolve_source. destruct (is_url input_path).
  2:{ apply unseen_adds; [unseen|left; reflexivity]. }
  cbv zeta. fold (download_dir C self).
  apply adds_after_unseen; [unseen| |left; reflexivity]. intros [].
  apply adds_before_unseen; [|intros; unseen].
  unfold download_video. cbv zeta.
  fold (options_of C (download_dir C self) None "best" None false false None).
  apply adds_after_unseen; [unseen_stage| |left; reflexivity]. intros [].
  apply adds_before_unseen; [|intros; unseen].
  eapply adds_weaken.
  - apply adds_ydl_extract_info; [reflexivity|intros; unseen].
  - intros l ->. right. reflexivity.
Qed.

Lemma no_engine_call_after_source (self : App) (input_p : string)
    (bounds : option float * option float) :
  unseen sel_engine_call
    (input_p' <- trim_stage C input_p (fst bounds) (snd bounds) ;;
     _ <- probe_resolution C input_p' ;;
     extract_stage C self input_p').
Proof.
  apply unseen_bind; [unseen_stage|intros].
  apply unseen_bind; [unseen_stage|intros].
  unfold extract_stage. cbv zeta.
  repeat (apply unseen_bind; [|intros]); unseen_stage.
Qed.

(** X23. A run of the window calls the download engine at most once, for the
    input as it was typed, and always with the same request: the best
    quality without a height bound, one video and no playlist, no
    subtitles, no cookies and no proxy, the files going to the download
    directory of the window (the entry, or "video2pdf_downloads" under the
    temporary directory when the entry is blank). *)
Theorem window_download_request (self : App) (input_path : string) (w : world) :
  exists l,
    engine_calls (trace (snd (work C self input_path w)))
      = engine_calls (trace w) ++ l /\
    (l = [] \/
     exists opts,
       l = [(input_path, opts)] /\ is_url input_path = true /\
       format opts = "bv*+ba/b" /\ noplaylist opts = true /\
       writesubtitles opts = false /\ subtitleslangs opts = [] /\
       cookiefile opts = None /\ proxy_opt opts = None /\
       merge_output_format opts = "mp4" /\
       outtmpl opts =
         path_join C
           (if nonempty (Py.strip (strings self dldir_var))
            then Py.strip (strings self dldir_var)
            else path_join C (gettempdir C) "video2pdf_downloads")
           "%(title).200s [%(id)s].%(ext)s").
Proof.
  assert (H : adds sel_engine_call (work C self input_path)
                (fun l => l = [] \/
                   (is_url input_path = true /\
                    l = [(input_path,
                          options_of C (download_dir C self) None "best" None
                            false false None)]))).
  { unfold work. apply adds_before_unseen; [|intros; unseen].
    apply adds_try_except; [|intros; unseen].
    unfold work_body.
    eapply adds_weaken.
    - apply (adds_bind sel_engine_call _ _
               (fun l => l = [] \/
                  (is_url input_path = true /\
                   l = [(input_path,
                         options_of C (download_dir C self) None "best" None
                           false false None)]))
               (fun l => l = [])); [| |reflexivity].
      + destruct (is_url input_path) eqn:Hurl.
        * eapply adds_weaken; [apply engine_calls_resolve_source|].
          intros l [->| ->]; [left|right]; auto.
        * unfold resolve_source. rewrite Hurl.
          apply unseen_adds; [unseen|left; reflexivity].
      + intros input_p.
        apply adds_after_unseen; [unseen_stage| |reflexivity].
        intros bounds. apply unseen_adds; [|reflexivity].
        apply no_engine_call_after_source.
    - intros l (l1 & l2 & -> & H1 & ->). rewrite app_nil_r. exact H1. }
  destruct (H w) as (l & Hl & HP). exists l. split; [exact Hl|].
  destruct HP as [->|(Hurl & ->)]; [left; reflexivity|right].
  eexists. split; [reflexivity|]. split; [exact Hurl|].
  repeat split; reflexivity.
Qed.

End EngineCalls.

(** ** The probe and the selection by hand *)

Section ProbeAndSelection.

Variable C : collaborators.


(** X25. A crop selected by hand has a width and a height above zero, is the
    rectangle the selection returned, and was asked for: manual selection
    was switched on and the first frame of the video could be read.  The
    files are left alone. *)
Theorem manual_crop_has_area (self : App) (input_p : string) (w w' : world)
    (x y rw rh : Z) :
  manual_select C self input_p w = (Ok (Some (x, y, rw, rh)), w') ->
  booleans self manual_select_var = true /\
  0 < rw /\ 0 < rh /\
  (exists cap0 frame,
     VideoCapture C input_p (fs w) = Ok cap0 /\
     cap_read cap0 = Ok (true, Some frame) /\
     selectROI C frame = Ok (x, y, rw, rh)) /\
  w' = World (fs w)
         (trace w ++ [EvCapture input_p; EvLog select_prompt; EvSelectROI;
                      EvLog (selected_line x y rw rh)]).
Proof.
  unfold manual_select.
  destruct (booleans self manual_select_var); [|discriminate].
  unfold try_except.
  destruct (select_body C input_p w) as [[crop|e] w1] eqn:Hbody;
    [|discriminate].
  intros [= -> <-]. revert Hbody.
  unfold select_body. rewrite bind_M, open_capture_eq.
  destruct (VideoCapture C input_p (fs w)) as [cap0|e0] eqn:Hcap;
    [|discriminate].
  rewrite lift_bind.
  destruct (cap_read cap0) as [[ok frame]|e0] eqn:Hread; [|discriminate].
  rewrite lift_bind.
  destruct (cap_release cap0) as [[]|e0]; [|discriminate].
  destruct ok; [|discriminate]. destruct frame as [frame|]; [|discriminate].
  rewrite emit_bind, emit_bind, lift_bind.
  destruct (selectROI C frame) as [[[[x0 y0] w0] h0]|e0] eqn:Hroi;
    [|discriminate].
  rewrite lift_bind.
  destruct (destroyWindow C) as [[]|e0]; [|discriminate].
  destruct (Z.ltb_spec 0 w0) as [Hw|Hw]; cbn [andb];
    [|rewrite emit_bind; discriminate].
  destruct (Z.ltb_spec 0 h0) as [Hh|Hh];
    [|rewrite emit_bind; discriminate].
  rewrite emit_bind. intros [= -> -> -> -> <-].
  split; [reflexivity|]. split; [exact Hw|]. split; [exact Hh|].
  split; [eauto 6|]. cbn [fs trace]. rewrite <- !app_assoc. reflexivity.
Qed.

End ProbeAndSelection.

Lemma manual_crop_has_area_witness :
  booleans (click_checkbox manual_select_var initial_app) manual_select_var
    = true /\
  0 < 300 /\ 0 < 200.
Proof.
  destruct (manual_crop_has_area Demo.collab_selecting
              (click_checkbox manual_select_var initial_app)
              "/videos/talk.mp4" Demo.world0
              (snd (manual_select Demo.collab_selecting
                      (click_checkbox manual_select_var initial_app)
                      "/videos/talk.mp4" Demo.world0))
              10 20 300 200 eq_refl) as (H1 & H2 & H3 & _).
  exact (conj H1 (conj H2 H3)).
Defined.

(** ** The browse buttons *)

Section Dialogs.

Lemma strings_set_same (v : string_var) (x : string) (a : App) :
  strings (set_string v x a) v = x.
Proof. apply fn_lookup_insert. Qed.

Lemma strings_set_other (v v' : string_var) (x : string) (a : App) :
  v <> v' -> strings (set_string v x a) v' = strings a v'.
Proof. intros H. apply fn_lookup_insert_ne, H. Qed.

Lemma click_browse_eq (v : string_var) (path : string) (self : App) :
  click_browse v path self =
    match browse_command v with
    | Some _ => if nonempty path then set_string v path self else self
    | None => self
    end.
Proof. destruct v; reflexivity. Qed.

(** X26. A browse button changes at most the entry of its row.  A cancelled
    dialog (no path) changes nothing; a chosen path is stored as it is.
    When the input is chosen that way while no worker is alive, a click on
    the run button starts a worker on that path, stripped. *)
Theorem browse_sets_one_entry (v : string_var) (path : string) (g : gui) :
  click_browse v EmptyString (self g) = self g /\
  (forall v', v' <> v ->
     strings (click_browse v path (self g)) v' = strings (self g) v') /\
  booleans (click_browse v path (self g)) = booleans (self g) /\
  _worker (click_browse v path (self g)) = _worker (self g) /\
  (path <> EmptyString ->
   In v [input_var; output_var; outdir_var; dldir_var] ->
   strings (click_browse v path (self g)) v = path) /\
  (worker_alive g = false -> nonempty (Py.strip path) = true ->
   threads (_on_run (Gui (click_browse input_var path (self g))
                       (threads g) (env g)))
     = threads g ++ [Alive (Py.strip path)]).
Proof.
  assert (Hne : forall p, nonempty (Py.strip p) = true -> nonempty p = true).
  { intros p. destruct p; [discriminate|reflexivity]. }
  split; [|split; [|split; [|split; [|split]]]].
  - rewrite click_browse_eq. destruct (browse_command v); reflexivity.
  - intros v' Hv. rewrite click_browse_eq.
    destruct (browse_command v); [|reflexivity].
    destruct (nonempty path); [|reflexivity].
    apply strings_set_other. congruence.
  - rewrite click_browse_eq. destruct (browse_command v); [|reflexivity].
    destruct (nonempty path); reflexivity.
  - rewrite click_browse_eq. destruct (browse_command v); [|reflexivity].
    destruct (nonempty path); reflexivity.
  - intros Hp Hv. rewrite click_browse_eq.
    assert (Hn : nonempty path = true).
    { unfold nonempty. destruct (String.eqb_spec path EmptyString);
        [contradiction|reflexivity]. }
    cbn [In] in Hv.
    destruct Hv as [<-|[<-|[<-|[<-|[]]]]]; cbn [browse_command];
      rewrite Hn; apply strings_set_same.
  - intros Hidle Hpath. unfold _on_run.
    replace (worker_alive (Gui (click_browse input_var path (self g))
                             (threads g) (env g)))
      with (worker_alive g).
    2:{ unfold worker_alive, is_alive. cbn [self threads].
        rewrite click_browse_eq. cbn [browse_command].
        destruct (nonempty path); reflexivity. }
    rewrite Hidle. cbn [self]. rewrite click_browse_eq. cbn [browse_command].
    rewrite (Hne _ Hpath), strings_set_same, Hpath. reflexivity.
Qed.

End Dialogs.

Lemma browse_sets_one_entry_witness :
  threads (_on_run (Gui (click_browse input_var " /videos/talk.mp4"
                           (self (initial_gui Demo.files)))
                      (threads (initial_gui Demo.files))
                      (env (initial_gui Demo.files))))
  = [Alive "/videos/talk.mp4"].
Proof.
  exact (proj2 (proj2 (proj2 (proj2 (proj2
           (browse_sets_one_entry input_var " /videos/talk.mp4"
              (initial_gui Demo.files))))))
           eq_refl eq_refl).
Defined.

